(** * BatterySim: the battery charge simulator of [batterySim.py]

    A shallow embedding of the simulation engine of [BatteryChargeIOC]:
    the class constants, the start-up validation of [__init__], the body
    of the simulation loop ([V_sim.startup]), the two putters
    ([V_target.putter], [Eclipse.putter]) and the [__main__] block.

    Number model.  Python [float] values are idealised as real numbers
    ([R]); [math.exp], [math.log], [math.cos] and [math.pi] are the real
    [exp], [ln], [cos] and [PI].  Rounding, NaN, infinities and
    [OverflowError] are therefore outside the model.  What the model does
    keep from Python is every place where the interpreter raises on real
    inputs: true division by zero ([ZeroDivisionError]) and the read of an
    instance attribute that was never assigned ([AttributeError]).

    Process-variable layer.  A pvproperty is a named cell holding a value;
    [pv.write v] stores [v], and when the pvproperty has a putter the
    stored value is what the putter returns.  The enumerated [Eclipse]
    channel first looks an integer up in its list of state names, by
    plain list indexing, and hands the name it finds to the putter; every
    other value reaches the putter as written.  Calls to [logger] do not
    influence control flow and are not modelled. *)

From Stdlib Require Import Reals Lra ZArith Lia String List Bool.
Import ListNotations.

Open Scope R_scope.

(** ** Python values and builtins *)

Module Py.

(** Exceptions the modelled code can raise on real-valued inputs. *)
Inductive exn : Type :=
| ZeroDivisionError
| AttributeError.

Inductive result (A : Type) : Type :=
| Ok (a : A)
| Raise (e : exn).

Arguments Ok {A} a.
Arguments Raise {A} e.

Definition bind {A B : Type} (m : result A) (k : A -> result B) : result B :=
  match m with
  | Ok a => k a
  | Raise e => Raise e
  end.

(** Comparisons, as booleans. [a > b] is [ltb b a] and [a >= b] is [leb b a]. *)
Definition ltb (a b : R) : bool := if Rlt_dec a b then true else false.
Definition leb (a b : R) : bool := if Rle_dec a b then true else false.
Definition gtb (a b : R) : bool := ltb b a.

(** [min(a, b)] and [max(a, b)]: the builtin keeps the first argument
    unless the second is strictly smaller (resp. strictly larger). *)
Definition min (a b : R) : R := if Rlt_dec b a then b else a.
Definition max (a b : R) : R := if Rlt_dec a b then b else a.

(** True division [a / b]. *)
Definition truediv (a b : R) : result R :=
  if Req_dec_T b 0 then Raise ZeroDivisionError else Ok (a / b).

(** The payload of an external write request, by dynamic type. *)
Inductive value : Type :=
| Str (s : string)
| Int (z : Z)
| Float (r : R)
| Other.

(** [int(x)] on a float truncates toward zero. *)
Definition int_of_float (r : R) : Z :=
  if Rle_dec 0 r then Int_part r else (- Int_part (- r))%Z.

(** [l.index(x)]: position of the first occurrence, [None] for [ValueError]. *)
Fixpoint index (x : string) (l : list string) : option Z :=
  match l with
  | [] => None
  | y :: l' =>
      if String.eqb y x then Some 0%Z
      else match index x l' with
           | Some i => Some (Z.succ i)
           | None => None
           end
  end.

(** [i in range(n)]. *)
Definition in_range (i n : Z) : bool := ((0 <=? i) && (i <? n))%Z.

(** [l[i]]: list indexing; a negative index counts from the end, [None]
    for [IndexError]. *)
Definition getitem (l : list string) (i : Z) : option string :=
  let n := Z.of_nat (length l) in
  if ((0 <=? i) && (i <? n))%Z then nth_error l (Z.to_nat i)
  else if ((- n <=? i) && (i <? 0))%Z then nth_error l (Z.to_nat (n + i))
  else None.

End Py.

Notation "x <- m ;; k" := (Py.bind m (fun x => k))
  (at level 61, m at next level, right associativity).

Import Py.

(** ** Module-level constants *)

Definition seconds_per_hour : R := 3600.
Definition hours_per_second : R := 1 / seconds_per_hour.

(** ** Class constants of [BatteryChargeIOC] (battery features) *)

Definition battery_capacity : R := 150.
Definition battery_nominal_voltage : R := 34.
Definition model_constant : R := 80.
Definition max_voltage : R :=
  ln (battery_capacity / model_constant + 1) * battery_nominal_voltage.
Definition solar_power_max : R := 150.
Definition load_power_const : R := 100.

Definition enum_strings : list string := ["Non-Eclipse"%string; "Eclipse"%string].

(** ** The process variables and instance attributes *)

(** The [value=] arguments of the seven pvproperty declarations. *)
Record pvdefaults : Type := {
  default_V_real : R;
  default_I_real : R;
  default_V_sim : R;
  default_I_sim : R;
  default_V_target : R;
  default_Solar_power : R;
  default_Eclipse : Z
}.

(** The values written in the class body. *)
Definition source_defaults : pvdefaults := {|
  default_V_real := 34.02;
  default_I_real := -0.24;
  default_V_sim := 32.0;
  default_I_sim := 0.0;
  default_V_target := 34.0;
  default_Solar_power := 110.0;
  default_Eclipse := 0
|}.

(** One [BatteryChargeIOC] instance: the current value of each pvproperty
    followed by the instance attributes set in [__init__] and by the
    [Eclipse] putter.  [eclipse_begin] is [None] until first assigned. *)
Record ioc : Type := {
  V_real : R;
  I_real : R;
  V_sim : R;
  I_sim : R;
  V_target : R;
  Solar_power : R;
  Eclipse : Z;
  initOK : bool;
  sim_time : R;
  eclipse_half_duration : R;
  init_solar_power : R;
  eclipse_begin : option R
}.

Definition write_V_sim (v : R) (s : ioc) : ioc :=
  {| V_real := V_real s; I_real := I_real s; V_sim := v; I_sim := I_sim s;
     V_target := V_target s; Solar_power := Solar_power s; Eclipse := Eclipse s;
     initOK := initOK s; sim_time := sim_time s;
     eclipse_half_duration := eclipse_half_duration s;
     init_solar_power := init_solar_power s; eclipse_begin := eclipse_begin s |}.

Definition write_I_sim (v : R) (s : ioc) : ioc :=
  {| V_real := V_real s; I_real := I_real s; V_sim := V_sim s; I_sim := v;
     V_target := V_target s; Solar_power := Solar_power s; Eclipse := Eclipse s;
     initOK := initOK s; sim_time := sim_time s;
     eclipse_half_duration := eclipse_half_duration s;
     init_solar_power := init_solar_power s; eclipse_begin := eclipse_begin s |}.

Definition commit_V_target (v : R) (s : ioc) : ioc :=
  {| V_real := V_real s; I_real := I_real s; V_sim := V_sim s; I_sim := I_sim s;
     V_target := v; Solar_power := Solar_power s; Eclipse := Eclipse s;
     initOK := initOK s; sim_time := sim_time s;
     eclipse_half_duration := eclipse_half_duration s;
     init_solar_power := init_solar_power s; eclipse_begin := eclipse_begin s |}.

Definition write_Solar_power (v : R) (s : ioc) : ioc :=
  {| V_real := V_real s; I_real := I_real s; V_sim := V_sim s; I_sim := I_sim s;
     V_target := V_target s; Solar_power := v; Eclipse := Eclipse s;
     initOK := initOK s; sim_time := sim_time s;
     eclipse_half_duration := eclipse_half_duration s;
     init_solar_power := init_solar_power s; eclipse_begin := eclipse_begin s |}.

Definition commit_Eclipse (v : Z) (s : ioc) : ioc :=
  {| V_real := V_real s; I_real := I_real s; V_sim := V_sim s; I_sim := I_sim s;
     V_target := V_target s; Solar_power := Solar_power s; Eclipse := v;
     initOK := initOK s; sim_time := sim_time s;
     eclipse_half_duration := eclipse_half_duration s;
     init_solar_power := init_solar_power s; eclipse_begin := eclipse_begin s |}.

Definition set_initOK (b : bool) (s : ioc) : ioc :=
  {| V_real := V_real s; I_real := I_real s; V_sim := V_sim s; I_sim := I_sim s;
     V_target := V_target s; Solar_power := Solar_power s; Eclipse := Eclipse s;
     initOK := b; sim_time := sim_time s;
     eclipse_half_duration := eclipse_half_duration s;
     init_solar_power := init_solar_power s; eclipse_begin := eclipse_begin s |}.

Definition set_sim_time (t : R) (s : ioc) : ioc :=
  {| V_real := V_real s; I_real := I_real s; V_sim := V_sim s; I_sim := I_sim s;
     V_target := V_target s; Solar_power := Solar_power s; Eclipse := Eclipse s;
     initOK := initOK s; sim_time := t;
     eclipse_half_duration := eclipse_half_duration s;
     init_solar_power := init_solar_power s; eclipse_begin := eclipse_begin s |}.

Definition set_eclipse_begin (t : R) (s : ioc) : ioc :=
  {| V_real := V_real s; I_real := I_real s; V_sim := V_sim s; I_sim := I_sim s;
     V_target := V_target s; Solar_power := Solar_power s; Eclipse := Eclipse s;
     initOK := initOK s; sim_time := sim_time s;
     eclipse_half_duration := eclipse_half_duration s;
     init_solar_power := init_solar_power s; eclipse_begin := Some t |}.

(** Reading [self.eclipse_begin]. *)
Definition get_eclipse_begin (s : ioc) : result R :=
  match eclipse_begin s with
  | Some t => Ok t
  | None => Raise AttributeError
  end.

(** ** [BatteryChargeIOC.__init__] *)

Definition BatteryChargeIOC (d : pvdefaults) : ioc :=
  let self :=
    {| V_real := default_V_real d; I_real := default_I_real d;
       V_sim := default_V_sim d; I_sim := default_I_sim d;
       V_target := default_V_target d; Solar_power := default_Solar_power d;
       Eclipse := default_Eclipse d;
       initOK := true;
       sim_time := 0.0;
       eclipse_half_duration := 3600;
       init_solar_power := default_Solar_power d;
       eclipse_begin := None |} in
  if ltb (V_sim self) 0 || gtb (V_sim self) max_voltage then
    set_initOK false self
  else if ltb (Solar_power self) 0 || gtb (Solar_power self) solar_power_max then
    set_initOK false self
  else if ltb (V_target self) 0 || gtb (V_target self) max_voltage then
    set_initOK false self
  else if (Eclipse self =? 1)%Z then
    set_eclipse_begin (sim_time self) self
  else self.

(** ** The putters *)

(** [V_target.putter]: returns the value to commit. The instance is not
    touched, so the putter returns the instance it was given. *)
Definition V_target_putter (self : ioc) (value : R) : ioc * R :=
  let new_value := max 0.0 (min value max_voltage) in
  (self, new_value).

(** [Eclipse.putter]. [instance.value] is [Eclipse self]. *)
Definition Eclipse_putter (self : ioc) (value : Py.value) : ioc * Z :=
  match value with
  | Str s =>
      match index s enum_strings with
      | Some new_value =>
          if (new_value =? 1)%Z && (Eclipse self =? 0)%Z then
            (set_eclipse_begin (sim_time self) self, new_value)
          else if (new_value =? 0)%Z && (Eclipse self =? 1)%Z then
            (write_Solar_power (init_solar_power self) self, new_value)
          else (self, new_value)
      | None => (self, Eclipse self)
      end
  | Int z =>
      if in_range z 2 then
        if (z =? 1)%Z && (Eclipse self =? 0)%Z then
          (set_eclipse_begin (sim_time self) self, z)
        else if (z =? 0)%Z && (Eclipse self =? 1)%Z then
          (write_Solar_power (init_solar_power self) self, z)
        else (self, z)
      else (self, Eclipse self)
  | Float r =>
      if in_range (int_of_float r) 2 then
        if (int_of_float r =? 1)%Z && (Eclipse self =? 0)%Z then
          (set_eclipse_begin (sim_time self) self, int_of_float r)
        else if (int_of_float r =? 0)%Z && (Eclipse self =? 1)%Z then
          (write_Solar_power (init_solar_power self) self, int_of_float r)
        else (self, int_of_float r)
      else (self, Eclipse self)
  | Other => (self, Eclipse self)
  end.

(** [self.V_target.write(value)]: run the putter, then store what it
    returned. *)
Definition write_V_target (value : R) (self : ioc) : ioc :=
  let (self', new_value) := V_target_putter self value in
  commit_V_target new_value self'.

(** What the enumerated channel hands to its putter: an integer that
    indexes [enum_strings] (as [enum_strings[value]] does, so -1 and -2
    count from the end) is replaced by the state name found there; any
    other value is passed on unchanged. *)
Definition enum_lookup (value : Py.value) : Py.value :=
  match value with
  | Int z =>
      match getitem enum_strings z with
      | Some s => Str s
      | None => value
      end
  | _ => value
  end.

(** [self.Eclipse.write(value)]: look the value up, run the putter on the
    result, then store what the putter returned. *)
Definition write_Eclipse (value : Py.value) (self : ioc) : ioc :=
  let (self', new_value) := Eclipse_putter self (enum_lookup value) in
  commit_Eclipse new_value self'.

(** ** The simulation loop, [V_sim.startup] *)

Definition sim_interval : R := 1.
Definition deltaT : R := sim_interval * hours_per_second.

(** The two solar-power formulas of the eclipse branch. *)
Definition eclipse_entering (init_sp tmp : R) : R :=
  init_sp * cos (0.5 * PI * tmp).
Definition eclipse_leaving (init_sp tmp : R) : R :=
  - init_sp * cos (0.5 * PI * tmp).

(** "update V_sim and I_sim". *)
Definition charge_update (self : ioc) : result ioc :=
  let Vsim_value := V_sim self in
  let target_V := V_target self in
  let sp_value := Solar_power self in
  let charging_power := sp_value - load_power_const in
  if gtb charging_power 0 && ltb Vsim_value target_V then
    q <- truediv Vsim_value battery_nominal_voltage ;;
    let tmp := exp q in
    deltaV <- truediv (charging_power * deltaT * battery_nominal_voltage)
                      (model_constant * tmp) ;;
    let Vsim_value := Vsim_value + deltaV in
    let Vsim_value := min Vsim_value target_V in
    Ok (write_I_sim 0.0 (write_V_sim Vsim_value self))
  else if ltb charging_power 0 then
    Isim_value <- truediv charging_power Vsim_value ;;
    q <- truediv Vsim_value battery_nominal_voltage ;;
    let tmp := exp q in
    deltaV <- truediv (charging_power * deltaT * battery_nominal_voltage)
                      (model_constant * tmp) ;;
    let Vsim_value := Vsim_value + deltaV in
    let Vsim_value := max Vsim_value 0 in
    Ok (write_I_sim Isim_value (write_V_sim Vsim_value self))
  else Ok self.

(** "update Solar_power". *)
Definition eclipse_update (self : ioc) : result ioc :=
  if (Eclipse self =? 1)%Z then
    begin <- get_eclipse_begin self ;;
    tmp <- truediv (sim_time self - begin) (eclipse_half_duration self) ;;
    if gtb tmp 0 && leb tmp 1 then
      Ok (write_Solar_power (eclipse_entering (init_solar_power self) tmp) self)
    else if gtb tmp 1 && leb tmp 2 then
      Ok (write_Solar_power (eclipse_leaving (init_solar_power self) tmp) self)
    else if gtb tmp 2 then
      Ok (write_Eclipse (Int 0) self)
    else Ok self
  else Ok self.

(** One iteration of [while True]. *)
Definition loop_body (self : ioc) : result ioc :=
  self <- charge_update self ;;
  self <- eclipse_update self ;;
  Ok (set_sim_time (sim_time self + sim_interval) self).

(** The first [n] iterations of the loop; an exception ends it. *)
Fixpoint V_sim_startup (n : nat) (self : ioc) : result ioc :=
  match n with
  | O => Ok self
  | S n' => self <- loop_body self ;; V_sim_startup n' self
  end.

(** ** The running server *)

(** While the server runs, the loop iterates and external clients write
    to [Vtarget] and [Eclipse].  One event is one loop iteration or one
    external write. *)
Inductive event : Type :=
| Tick
| Put_V_target (value : R)
| Put_Eclipse (value : Py.value).

Definition step (self : ioc) (e : event) : result ioc :=
  match e with
  | Tick => loop_body self
  | Put_V_target value => Ok (write_V_target value self)
  | Put_Eclipse value => Ok (write_Eclipse value self)
  end.

Fixpoint run_events (self : ioc) (evs : list event) : result ioc :=
  match evs with
  | [] => Ok self
  | e :: evs' => self <- step self e ;; run_events self evs'
  end.

(** ** [__main__] *)

Inductive outcome : Type :=
| Exit (stdout : list string) (status : Z)
| Run (pvdb : ioc).

Definition main (d : pvdefaults) : outcome :=
  let ioc := BatteryChargeIOC d in
  if negb (initOK ioc) then Exit ["Initialization failed!"%string] 1%Z
  else Run ioc.

(** What the process serves after a sequence of events: nothing when
    [main] exited before [run]. *)
Definition served (d : pvdefaults) (evs : list event) : option (result ioc) :=
  match main d with
  | Exit _ _ => None
  | Run pvdb => Some (run_events pvdb evs)
  end.

(** ** Formulas named by the specification *)

(** The voltage increment computed by both branches of the charge model,
    as a function of the net power and the present voltage. *)
Definition deltaV_of (charging_power Vsim_value : R) : R :=
  charging_power * deltaT * battery_nominal_voltage
  / (model_constant * exp (Vsim_value / battery_nominal_voltage)).

(** A running instance with the given simulated voltage, target voltage,
    solar power and eclipse flag; the other cells hold the values of the
    class body. *)
Definition running_ioc (v target sp : R) (flag : Z) : ioc :=
  {| V_real := 34.02; I_real := -0.24; V_sim := v; I_sim := 0.0;
     V_target := target; Solar_power := sp; Eclipse := flag;
     initOK := true; sim_time := 0.0; eclipse_half_duration := 3600;
     init_solar_power := 110.0; eclipse_begin := None |}.

(** [clamp x lo hi], the saturation the specification asks of the
    target-voltage setter. *)
Definition clamp (x lo hi : R) : R :=
  if Rlt_dec x lo then lo else if Rlt_dec hi x then hi else x.

(** ** Validity ranges *)

(** The validity ranges of the published quantities, together with the
    range of the solar power captured at start-up. *)
Record in_ranges (s : ioc) : Prop := {
  V_sim_range : 0 <= V_sim s <= max_voltage;
  V_target_range : 0 <= V_target s <= max_voltage;
  Solar_power_range : 0 <= Solar_power s <= solar_power_max;
  init_solar_power_range : 0 <= init_solar_power s <= solar_power_max
}.

(** The defaults accepted by the three range checks of [__init__]. *)
Definition defaults_in_range (d : pvdefaults) : Prop :=
  0 <= default_V_sim d <= max_voltage /\
  0 <= default_Solar_power d <= solar_power_max /\
  0 <= default_V_target d <= max_voltage.

(** ** The eclipse setter as normalisation followed by a transition *)

(** The request resolved to an index of [enum_strings], when it has one. *)
Definition resolve (value : Py.value) : option Z :=
  match value with
  | Str s => index s enum_strings
  | Int z => if in_range z 2 then Some z else None
  | Float r => if in_range (int_of_float r) 2 then Some (int_of_float r) else None
  | Other => None
  end.

(** The side effect attached to committing [new_value] over the present flag. *)
Definition eclipse_transition (self : ioc) (new_value : Z) : ioc :=
  if (new_value =? 1)%Z && (Eclipse self =? 0)%Z then
    set_eclipse_begin (sim_time self) self
  else if (new_value =? 0)%Z && (Eclipse self =? 1)%Z then
    write_Solar_power (init_solar_power self) self
  else self.

(** The requests that name an index of the two-entry enumeration: the two
    state names, the integers 0 and 1, and the floats that [int] truncates
    to 0 or to 1. *)
Inductive requests : Py.value -> Z -> Prop :=
| requests_name_0 : requests (Str "Non-Eclipse") 0
| requests_name_1 : requests (Str "Eclipse") 1
| requests_int_0 : requests (Int 0) 0
| requests_int_1 : requests (Int 1) 1
| requests_float_0 (r : R) : -1 < r < 1 -> requests (Float r) 0
| requests_float_1 (r : R) : 1 <= r < 2 -> requests (Float r) 1.

(** The remaining values, as the putter receives them. *)
Inductive rejected : Py.value -> Prop :=
| rejected_str (s : string) :
    s <> "Non-Eclipse"%string -> s <> "Eclipse"%string -> rejected (Str s)
| rejected_int (z : Z) : z <> 0%Z -> z <> 1%Z -> rejected (Int z)
| rejected_float (r : R) : r <= -1 \/ 2 <= r -> rejected (Float r)
| rejected_other : rejected Other.

(** The write requests that the channel and the putter together turn
    down: as above, except that the integers -2 and -1 index
    [enum_strings] from the end and are therefore accepted. *)
Inductive rejected_write : Py.value -> Prop :=
| rejected_write_str (s : string) :
    s <> "Non-Eclipse"%string -> s <> "Eclipse"%string -> rejected_write (Str s)
| rejected_write_int (z : Z) : (z < -2 \/ 2 <= z)%Z -> rejected_write (Int z)
| rejected_write_float (r : R) : r <= -1 \/ 2 <= r -> rejected_write (Float r)
| rejected_write_other : rejected_write Other.

(** An instance in eclipse since simulated time 0, observed at time [t];
    the solar power captured at start-up is 110. *)
Definition eclipsed_ioc (t : R) : ioc :=
  set_sim_time t (set_eclipse_begin 0 (running_ioc 32 34 110 1)).

(** Defaults whose simulated voltage exceeds [max_voltage]. *)
Definition overvoltage_defaults : pvdefaults :=
  {| default_V_real := 34.02; default_I_real := -0.24;
     default_V_sim := 64; default_I_sim := 0.0;
     default_V_target := 34.0; default_Solar_power := 110.0;
     default_Eclipse := 0 |}.

(** ** A sequence of external writes that drains the battery *)

(** One round: a client enters eclipse, the loop runs 3602 iterations (the
    3601st writes the solar power of phase 1, the 3602nd discharges with
    it), and the client leaves eclipse. *)
Definition drain_cycle : list event :=
  Put_Eclipse (Int 1) :: repeat Tick 3600 ++ [Tick; Tick; Put_Eclipse (Int 0)].

Fixpoint drain (n : nat) : list event :=
  match n with
  | O => []
  | S n' => drain_cycle ++ drain n'
  end.

(** The instance between two rounds: not in eclipse, target voltage 0. *)
Record drained_target (s : ioc) : Prop := {
  drained_flag : Eclipse s = 0%Z;
  drained_V_target : V_target s = 0;
  drained_half_duration : eclipse_half_duration s = 3600;
  drained_V_sim : 0 <= V_sim s <= 34
}.

(** The instance [k] iterations into an eclipse entered at time [t0],
    with target voltage 0 and the voltage no higher than [v0]. *)
Record eclipsing (t0 : R) (k : nat) (v0 : R) (s : ioc) : Prop := {
  eclipsing_flag : Eclipse s = 1%Z;
  eclipsing_begin : eclipse_begin s = Some t0;
  eclipsing_sim_time : sim_time s = t0 + INR k;
  eclipsing_half_duration : eclipse_half_duration s = 3600;
  eclipsing_V_target : V_target s = 0;
  eclipsing_V_sim : 0 <= V_sim s <= v0
}.

(** Defaults inside all three ranges, with an empty battery and no sun. *)
Definition empty_battery_defaults : pvdefaults :=
  {| default_V_real := 34.02; default_I_real := -0.24;
     default_V_sim := 0.0; default_I_sim := 0.0;
     default_V_target := 34.0; default_Solar_power := 0.0;
     default_Eclipse := 0 |}.

(** ** The battery model behind the constants *)

(** The stored energy (Wh) at voltage [V], as the comment on
    [model_constant] gives it: Energy = model_constant (exp^(V/Vn) - 1). *)
Definition energy (V : R) : R :=
  model_constant * (exp (V / battery_nominal_voltage) - 1).

(** ** Bookkeeping over event sequences *)

(** The number of loop iterations in a sequence of events. *)
Fixpoint ticks (evs : list event) : nat :=
  match evs with
  | [] => O
  | Tick :: evs' => S (ticks evs')
  | _ :: evs' => ticks evs'
  end.

(** The eclipse flag is one of the two indices, the onset is recorded
    whenever the flag is set, a recorded onset is not in the future, and
    the half duration is the one assigned in [__init__]. *)
Record onset_known (s : ioc) : Prop := {
  flag_binary : Eclipse s = 0%Z \/ Eclipse s = 1%Z;
  onset_when_flagged : Eclipse s = 1%Z -> eclipse_begin s <> None;
  onset_past : forall t0, eclipse_begin s = Some t0 -> t0 <= sim_time s;
  half_duration_3600 : eclipse_half_duration s = 3600
}.

(** The instance [k] loop iterations after an eclipse was entered at
    simulated time [t0]. *)
Record in_eclipse (t0 : R) (k : nat) (s : ioc) : Prop := {
  in_eclipse_flag : Eclipse s = 1%Z;
  in_eclipse_begin : eclipse_begin s = Some t0;
  in_eclipse_sim_time : sim_time s = t0 + INR k;
  in_eclipse_half_duration : eclipse_half_duration s = 3600
}.

(** * Properties *)

(** ** Python builtins *)

Section Builtins.

Lemma ltb_true (a b : R) : ltb a b = true <-> a < b.
Proof. unfold ltb; destruct (Rlt_dec a b); split; intros; try discriminate; tauto. Qed.

Lemma ltb_false (a b : R) : ltb a b = false <-> b <= a.
Proof.
  unfold ltb; destruct (Rlt_dec a b); split; intros; try discriminate; try reflexivity; lra.
Qed.

Lemma leb_true (a b : R) : leb a b = true <-> a <= b.
Proof. unfold leb; destruct (Rle_dec a b); split; intros; try discriminate; tauto. Qed.

Lemma leb_false (a b : R) : leb a b = false <-> b < a.
Proof.
  unfold leb; destruct (Rle_dec a b); split; intros; try discriminate; try reflexivity; lra.
Qed.

Lemma gtb_true (a b : R) : gtb a b = true <-> a > b.
Proof. unfold gtb; rewrite ltb_true; lra. Qed.

Lemma gtb_false (a b : R) : gtb a b = false <-> a <= b.
Proof. unfold gtb; apply ltb_false. Qed.

Lemma min_Rmin (a b : R) : min a b = Rmin a b.
Proof.
  unfold min, Rmin; destruct (Rlt_dec b a), (Rle_dec a b); try reflexivity; lra.
Qed.

Lemma max_Rmax (a b : R) : max a b = Rmax a b.
Proof.
  unfold max, Rmax; destruct (Rlt_dec a b), (Rle_dec a b); try reflexivity; lra.
Qed.

Lemma truediv_ok (a b : R) : b <> 0 -> truediv a b = Ok (a / b).
Proof. intros Hb; unfold truediv; destruct (Req_dec_T b 0); [contradiction | reflexivity]. Qed.

Lemma truediv_zero (a : R) : truediv a 0 = Raise ZeroDivisionError.
Proof. unfold truediv; destruct (Req_dec_T 0 0); [reflexivity | contradiction]. Qed.

Lemma truediv_raises (a b : R) e : truediv a b = Raise e -> b = 0 /\ e = ZeroDivisionError.
Proof.
  unfold truediv; destruct (Req_dec_T b 0); intros H; inversion H; auto.
Qed.

End Builtins.

(** ** Constants *)

Lemma battery_nominal_voltage_neq0 : battery_nominal_voltage <> 0.
Proof. unfold battery_nominal_voltage; lra. Qed.

Lemma deltaT_eq : deltaT = 1 / 3600.
Proof. unfold deltaT, sim_interval, hours_per_second, seconds_per_hour; lra. Qed.

Lemma model_exp_pos (q : R) : 0 < model_constant * exp q.
Proof. unfold model_constant; generalize (exp_pos q); lra. Qed.

Lemma deltaV_of_pos p v : 0 < p -> 0 < deltaV_of p v.
Proof.
  intros Hp; unfold deltaV_of.
  apply Rdiv_lt_0_compat; [| apply model_exp_pos].
  rewrite deltaT_eq; unfold battery_nominal_voltage; lra.
Qed.

Lemma deltaV_of_neg p v : p < 0 -> deltaV_of p v < 0.
Proof.
  intros Hp.
  assert (H : 0 < deltaV_of (- p) v) by (apply deltaV_of_pos; lra).
  unfold deltaV_of in *.
  replace (- p * deltaT * battery_nominal_voltage)
    with (- (p * deltaT * battery_nominal_voltage)) in H by ring.
  unfold Rdiv in *; rewrite Ropp_mult_distr_l_reverse in H; lra.
Qed.

(** ** The charge model *)

Lemma charge_update_charging (self : ioc) :
  Solar_power self - load_power_const > 0 ->
  V_sim self < V_target self ->
  charge_update self =
    Ok (write_I_sim 0
          (write_V_sim
             (Rmin (V_sim self + deltaV_of (Solar_power self - load_power_const) (V_sim self))
                   (V_target self)) self)).
Proof.
  intros Hp Hv; unfold charge_update.
  apply gtb_true in Hp; apply ltb_true in Hv; rewrite Hp, Hv; cbn [andb].
  rewrite (truediv_ok _ _ battery_nominal_voltage_neq0); cbn [bind].
  rewrite truediv_ok by (apply Rgt_not_eq, model_exp_pos); cbn [bind].
  rewrite min_Rmin; unfold deltaV_of.
  replace 0.0 with 0 by lra; reflexivity.
Qed.

Lemma charge_update_discharging (self : ioc) :
  Solar_power self - load_power_const < 0 ->
  V_sim self <> 0 ->
  charge_update self =
    Ok (write_I_sim ((Solar_power self - load_power_const) / V_sim self)
          (write_V_sim
             (Rmax (V_sim self + deltaV_of (Solar_power self - load_power_const) (V_sim self))
                   0) self)).
Proof.
  intros Hp Hv; unfold charge_update.
  assert (Hg : gtb (Solar_power self - load_power_const) 0 = false)
    by (apply gtb_false; lra).
  apply ltb_true in Hp; rewrite Hg, Hp; cbn [andb].
  rewrite (truediv_ok _ _ Hv); cbn [bind].
  rewrite (truediv_ok _ _ battery_nominal_voltage_neq0); cbn [bind].
  rewrite truediv_ok by (apply Rgt_not_eq, model_exp_pos); cbn [bind].
  rewrite max_Rmax; reflexivity.
Qed.

Lemma charge_update_discharging_at_zero (self : ioc) :
  Solar_power self - load_power_const < 0 ->
  V_sim self = 0 ->
  charge_update self = Raise ZeroDivisionError.
Proof.
  intros Hp Hv; unfold charge_update.
  assert (Hg : gtb (Solar_power self - load_power_const) 0 = false)
    by (apply gtb_false; lra).
  apply ltb_true in Hp; rewrite Hg, Hp; cbn [andb].
  rewrite Hv, truediv_zero; reflexivity.
Qed.

Lemma charge_update_idle (self : ioc) :
  Solar_power self - load_power_const = 0 \/
  (Solar_power self - load_power_const > 0 /\ V_target self <= V_sim self) ->
  charge_update self = Ok self.
Proof.
  intros H; unfold charge_update.
  destruct H as [H | [Hp Hv]].
  - assert (Hg : gtb (Solar_power self - load_power_const) 0 = false)
      by (apply gtb_false; lra).
    assert (Hl : ltb (Solar_power self - load_power_const) 0 = false)
      by (apply ltb_false; lra).
    rewrite Hg, Hl; reflexivity.
  - assert (Hl : ltb (Solar_power self - load_power_const) 0 = false)
      by (apply ltb_false; lra).
    apply ltb_false in Hv; rewrite Hv, Hl, andb_false_r; reflexivity.
Qed.

(** The charge model writes [V_sim] and [I_sim] and nothing else. *)
Lemma charge_update_frame (self self' : ioc) :
  charge_update self = Ok self' ->
  V_real self' = V_real self /\ I_real self' = I_real self /\
  V_target self' = V_target self /\ Solar_power self' = Solar_power self /\
  Eclipse self' = Eclipse self /\ initOK self' = initOK self /\
  sim_time self' = sim_time self /\
  eclipse_half_duration self' = eclipse_half_duration self /\
  init_solar_power self' = init_solar_power self /\
  eclipse_begin self' = eclipse_begin self.
Proof.
  unfold charge_update.
  destruct (gtb _ 0 && ltb _ _).
  - destruct (truediv (V_sim self) _); cbn [bind]; [| discriminate].
    destruct (truediv _ _); cbn [bind]; [| discriminate].
    intros H; inversion H; subst; cbn; tauto.
  - destruct (ltb _ 0).
    + destruct (truediv _ (V_sim self)); cbn [bind]; [| discriminate].
      destruct (truediv (V_sim self) _); cbn [bind]; [| discriminate].
      destruct (truediv _ _); cbn [bind]; [| discriminate].
      intros H; inversion H; subst; cbn; tauto.
    + intros H; inversion H; subst; tauto.
Qed.

Lemma eclipse_update_off (self : ioc) :
  Eclipse self <> 1%Z -> eclipse_update self = Ok self.
Proof.
  intros H; unfold eclipse_update.
  apply Z.eqb_neq in H; rewrite H; reflexivity.
Qed.

Lemma loop_body_off (self self' : ioc) :
  Eclipse self <> 1%Z ->
  charge_update self = Ok self' ->
  loop_body self = Ok (set_sim_time (sim_time self' + sim_interval) self').
Proof.
  intros Hf Hc; unfold loop_body; rewrite Hc; cbn [bind].
  destruct (charge_update_frame _ _ Hc) as (_ & _ & _ & _ & He & _).
  rewrite eclipse_update_off by (rewrite He; exact Hf).
  reflexivity.
Qed.

(** C1. Whenever the net power [Solar_power - load_power_const] is
    positive and the simulated voltage is strictly below the target, the
    charge model completes, stores
    [min (V + netPower * deltaT * Vn / (K * exp (V / Vn))) target] as the
    new simulated voltage and stores current 0.  With the constants of the
    class (Vn = 34, K = 80, load 100 W, deltaT = 1/3600 h), a loop
    iteration from V = 32, target 34, solar power 110 outside eclipse
    advances the voltage by exactly 10*(1/3600)*34/(80*exp(32/34)) and
    sets the current to 0. *)
Theorem charging_branch :
  (forall self : ioc,
      Solar_power self - load_power_const > 0 ->
      V_sim self < V_target self ->
      exists self',
        charge_update self = Ok self' /\
        V_sim self' =
          Rmin (V_sim self
                + (Solar_power self - load_power_const) * deltaT * battery_nominal_voltage
                  / (model_constant * exp (V_sim self / battery_nominal_voltage)))
               (V_target self) /\
        I_sim self' = 0) /\
  (battery_nominal_voltage = 34 /\ model_constant = 80 /\
   load_power_const = 100 /\ deltaT = 1 / 3600) /\
  (forall self : ioc,
      V_sim self = 32 -> V_target self = 34 -> Solar_power self = 110 ->
      Eclipse self = 0%Z ->
      exists self',
        loop_body self = Ok self' /\
        V_sim self' = 32 + 10 * (1 / 3600) * 34 / (80 * exp (32 / 34)) /\
        I_sim self' = 0).
Proof.
  split; [| split].
  - intros self Hp Hv; eexists; split.
    + apply charge_update_charging; assumption.
    + cbn; fold (deltaV_of (Solar_power self - load_power_const) (V_sim self)); auto.
  - repeat split; try reflexivity; apply deltaT_eq.
  - intros self HV HT HS HE.
    assert (Hp : Solar_power self - load_power_const > 0)
      by (rewrite HS; unfold load_power_const; lra).
    assert (Hv : V_sim self < V_target self) by lra.
    eexists; split.
    + apply loop_body_off; [rewrite HE; discriminate |].
      apply charge_update_charging; assumption.
    + cbn; split; [| reflexivity].
      unfold deltaV_of; rewrite HV, HT, HS, deltaT_eq.
      unfold load_power_const, battery_nominal_voltage, model_constant.
      replace (110 - 100) with 10 by lra.
      apply Rmin_left.
      assert (He : 1 <= exp (32 / 34))
        by (generalize (exp_ineq1_le (32 / 34)); lra).
      assert (Hd : 10 * (1 / 3600) * 34 / (80 * exp (32 / 34)) <= 1).
      { assert (Hi : / (80 * exp (32 / 34)) <= / 1)
          by (apply Rinv_le_contravar; lra).
        assert (Hi0 : 0 < / (80 * exp (32 / 34)))
          by (apply Rinv_0_lt_compat; lra).
        rewrite Rinv_1 in Hi; unfold Rdiv; nra. }
      lra.
Qed.

Lemma charging_branch_witness :
  (exists self',
      charge_update (running_ioc 32 34 110 0) = Ok self' /\
      V_sim self' =
        Rmin (32 + (110 - load_power_const) * deltaT * battery_nominal_voltage
                   / (model_constant * exp (32 / battery_nominal_voltage))) 34 /\
      I_sim self' = 0) /\
  (exists self',
      loop_body (running_ioc 32 34 110 0) = Ok self' /\
      V_sim self' = 32 + 10 * (1 / 3600) * 34 / (80 * exp (32 / 34)) /\
      I_sim self' = 0).
Proof.
  split.
  - apply (proj1 charging_branch (running_ioc 32 34 110 0)).
    + cbn; unfold load_power_const; lra.
    + cbn; lra.
  - apply (proj2 (proj2 charging_branch) (running_ioc 32 34 110 0)); reflexivity.
Defined.

(** C2, amended. Whenever the net power is negative and the present
    voltage is not zero, so that the division is defined, the charge model
    completes, stores the current [netPower / V] computed from the voltage
    before its update, computes the voltage increment with the formula of
    the charging branch, which is negative, and stores
    [max (V + deltaV) 0].  From V = 32 with solar power 0 outside eclipse,
    a loop iteration stores current -100/32 = -3.125 and a voltage that is
    lower than 32 and not below 0. *)
Theorem discharging_branch :
  (forall self : ioc,
      Solar_power self - load_power_const < 0 ->
      V_sim self <> 0 ->
      let deltaV :=
        (Solar_power self - load_power_const) * deltaT * battery_nominal_voltage
        / (model_constant * exp (V_sim self / battery_nominal_voltage)) in
      exists self',
        charge_update self = Ok self' /\
        I_sim self' = (Solar_power self - load_power_const) / V_sim self /\
        deltaV < 0 /\
        V_sim self' = Rmax (V_sim self + deltaV) 0) /\
  (forall self : ioc,
      V_sim self = 32 -> Solar_power self = 0 -> Eclipse self = 0%Z ->
      let deltaV := -100 * (1 / 3600) * 34 / (80 * exp (32 / 34)) in
      exists self',
        loop_body self = Ok self' /\
        I_sim self' = -100 / 32 /\ I_sim self' = -3.125 /\
        V_sim self' = Rmax (32 + deltaV) 0 /\
        deltaV < 0 /\ 0 <= V_sim self' < 32).
Proof.
  split.
  - intros self Hp Hv deltaV; eexists; split.
    + apply charge_update_discharging; assumption.
    + cbn; repeat split.
      apply deltaV_of_neg; assumption.
  - intros self HV HS HE deltaV.
    assert (Hp : Solar_power self - load_power_const < 0)
      by (rewrite HS; unfold load_power_const; lra).
    assert (Hv : V_sim self <> 0) by lra.
    assert (Hd : deltaV = deltaV_of (Solar_power self - load_power_const) (V_sim self)).
    { unfold deltaV, deltaV_of; rewrite HV, HS, deltaT_eq.
      unfold load_power_const, battery_nominal_voltage, model_constant.
      replace (0 - 100) with (-100) by lra; reflexivity. }
    assert (Hneg : deltaV < 0) by (rewrite Hd; apply deltaV_of_neg; assumption).
    eexists; split.
    + apply loop_body_off; [rewrite HE; discriminate |].
      apply charge_update_discharging; assumption.
    + cbn; rewrite <- Hd, HV, HS; unfold load_power_const.
      repeat split; try lra.
      * apply Rmax_r.
      * apply Rmax_lub_lt; lra.
Qed.

Lemma discharging_branch_witness :
  (exists self',
      charge_update (running_ioc 32 34 0 0) = Ok self' /\
      I_sim self' = (0 - load_power_const) / 32 /\
      (0 - load_power_const) * deltaT * battery_nominal_voltage
        / (model_constant * exp (32 / battery_nominal_voltage)) < 0 /\
      V_sim self' =
        Rmax (32 + (0 - load_power_const) * deltaT * battery_nominal_voltage
                   / (model_constant * exp (32 / battery_nominal_voltage))) 0) /\
  (exists self',
      loop_body (running_ioc 32 34 0 0) = Ok self' /\
      I_sim self' = -100 / 32 /\ I_sim self' = -3.125 /\
      V_sim self' = Rmax (32 + -100 * (1 / 3600) * 34 / (80 * exp (32 / 34))) 0 /\
      -100 * (1 / 3600) * 34 / (80 * exp (32 / 34)) < 0 /\
      0 <= V_sim self' < 32).
Proof.
  split.
  - apply (proj1 discharging_branch (running_ioc 32 34 0 0)).
    + cbn; unfold load_power_const; lra.
    + cbn; lra.
  - apply (proj2 discharging_branch (running_ioc 32 34 0 0)); reflexivity.
Defined.

(** ** Start-up validation *)

Lemma max_voltage_pos : 0 < max_voltage.
Proof.
  unfold max_voltage, battery_capacity, model_constant, battery_nominal_voltage.
  assert (H : ln 1 < ln (150 / 80 + 1)) by (apply ln_increasing; lra).
  rewrite ln_1 in H; nra.
Qed.

Lemma range_check_false (x hi : R) :
  ltb x 0 || gtb x hi = false <-> 0 <= x <= hi.
Proof.
  rewrite orb_false_iff, ltb_false, gtb_false; tauto.
Qed.

Lemma range_check_true (x hi : R) :
  ltb x 0 || gtb x hi = true <-> ~ (0 <= x <= hi).
Proof.
  rewrite <- range_check_false; destruct (ltb x 0 || gtb x hi); split; intros;
    try discriminate; try reflexivity; try tauto; intros ?; discriminate.
Qed.

(** [__init__] leaves [initOK] set exactly when the three defaults are in range. *)
Lemma initOK_iff (d : pvdefaults) :
  initOK (BatteryChargeIOC d) = true <-> defaults_in_range d.
Proof.
  unfold BatteryChargeIOC, defaults_in_range; cbn [V_sim Solar_power V_target Eclipse sim_time].
  destruct (ltb (default_V_sim d) 0 || gtb (default_V_sim d) max_voltage) eqn:E1.
  { apply range_check_true in E1; cbn; split; [discriminate | tauto]. }
  destruct (ltb (default_Solar_power d) 0 || gtb (default_Solar_power d) solar_power_max) eqn:E2.
  { apply range_check_true in E2; cbn; split; [discriminate | tauto]. }
  destruct (ltb (default_V_target d) 0 || gtb (default_V_target d) max_voltage) eqn:E3.
  { apply range_check_true in E3; cbn; split; [discriminate | tauto]. }
  apply range_check_false in E1, E2, E3.
  destruct (default_Eclipse d =? 1)%Z; cbn; tauto.
Qed.

Lemma init_cells (d : pvdefaults) :
  let self := BatteryChargeIOC d in
  V_sim self = default_V_sim d /\ V_target self = default_V_target d /\
  Solar_power self = default_Solar_power d /\
  init_solar_power self = default_Solar_power d /\
  Eclipse self = default_Eclipse d /\
  sim_time self = 0 /\ eclipse_half_duration self = 3600.
Proof.
  unfold BatteryChargeIOC; cbn [V_sim Solar_power V_target Eclipse sim_time].
  repeat match goal with
         | |- context [if ?b then _ else _] => destruct b
         end; cbn; repeat split; lra.
Qed.

Lemma init_in_ranges (d : pvdefaults) :
  initOK (BatteryChargeIOC d) = true -> in_ranges (BatteryChargeIOC d).
Proof.
  intros H; apply initOK_iff in H; destruct H as (H1 & H2 & H3).
  destruct (init_cells d) as (E1 & E2 & E3 & E4 & _).
  split; rewrite ?E1, ?E2, ?E3, ?E4; assumption.
Qed.

Lemma main_run_iff (d : pvdefaults) (pvdb : ioc) :
  main d = Run pvdb <-> defaults_in_range d /\ pvdb = BatteryChargeIOC d.
Proof.
  unfold main; rewrite <- initOK_iff.
  destruct (initOK (BatteryChargeIOC d)); cbn; split.
  - intros H; inversion H; auto.
  - intros [_ ->]; reflexivity.
  - discriminate.
  - intros [H _]; discriminate.
Qed.

(** ** The eclipse setter *)

(** The putter dispatches on the dynamic type of the request; all its
    accepting paths perform the same transition. *)
Lemma Eclipse_putter_resolve (self : ioc) (value : Py.value) :
  Eclipse_putter self value =
    match resolve value with
    | Some new_value => (eclipse_transition self new_value, new_value)
    | None => (self, Eclipse self)
    end.
Proof.
  unfold Eclipse_putter, resolve, eclipse_transition; destruct value as [s | z | r |].
  - destruct (index s enum_strings) as [i |]; [| reflexivity].
    destruct ((i =? 1)%Z && (Eclipse self =? 0)%Z); [reflexivity |].
    destruct ((i =? 0)%Z && (Eclipse self =? 1)%Z); reflexivity.
  - destruct (in_range z 2); [| reflexivity].
    destruct ((z =? 1)%Z && (Eclipse self =? 0)%Z); [reflexivity |].
    destruct ((z =? 0)%Z && (Eclipse self =? 1)%Z); reflexivity.
  - destruct (in_range (int_of_float r) 2); [| reflexivity].
    destruct ((int_of_float r =? 1)%Z && (Eclipse self =? 0)%Z); [reflexivity |].
    destruct ((int_of_float r =? 0)%Z && (Eclipse self =? 1)%Z); reflexivity.
  - reflexivity.
Qed.

Lemma index_enum_strings (s : string) :
  index s enum_strings =
    if String.eqb "Non-Eclipse" s then Some 0%Z
    else if String.eqb "Eclipse" s then Some 1%Z else None.
Proof.
  unfold enum_strings; cbn [index].
  destruct (String.eqb "Non-Eclipse" s); [reflexivity |].
  destruct (String.eqb "Eclipse" s); reflexivity.
Qed.

Lemma in_range_2 (z : Z) : in_range z 2 = true <-> z = 0%Z \/ z = 1%Z.
Proof.
  unfold in_range; rewrite andb_true_iff, Z.leb_le, Z.ltb_lt; lia.
Qed.

(** A resolved request is one of the two indices. *)
Lemma resolve_some (value : Py.value) (i : Z) :
  resolve value = Some i -> i = 0%Z \/ i = 1%Z.
Proof.
  destruct value as [s | z | r |]; cbn [resolve].
  - rewrite index_enum_strings.
    destruct (String.eqb "Non-Eclipse" s); [intros H; inversion H; auto |].
    destruct (String.eqb "Eclipse" s); intros H; inversion H; auto.
  - destruct (in_range z 2) eqn:E; [| discriminate].
    intros H; inversion H; subst; apply in_range_2; assumption.
  - destruct (in_range (int_of_float r) 2) eqn:E; [| discriminate].
    intros H; inversion H; subst; apply in_range_2; assumption.
  - discriminate.
Qed.

Lemma eclipse_transition_cases (self : ioc) (i : Z) :
  eclipse_transition self i = self \/
  eclipse_transition self i = set_eclipse_begin (sim_time self) self \/
  eclipse_transition self i = write_Solar_power (init_solar_power self) self.
Proof.
  unfold eclipse_transition.
  destruct ((i =? 1)%Z && (Eclipse self =? 0)%Z); [auto |].
  destruct ((i =? 0)%Z && (Eclipse self =? 1)%Z); auto.
Qed.

(** ** The lookup in front of the putter *)

Lemma enum_lookup_int (z : Z) :
  enum_lookup (Int z) =
    if ((z =? 0) || (z =? -2))%Z then Str "Non-Eclipse"
    else if ((z =? 1) || (z =? -1))%Z then Str "Eclipse"
    else Int z.
Proof.
  unfold enum_lookup, getitem, enum_strings; cbn [length Z.of_nat Pos.of_succ_nat Pos.succ].
  destruct (Z.eq_dec z 0) as [-> | H0]; [reflexivity |].
  destruct (Z.eq_dec z 1) as [-> | H1]; [reflexivity |].
  destruct (Z.eq_dec z (-1)) as [-> | H2]; [reflexivity |].
  destruct (Z.eq_dec z (-2)) as [-> | H3]; [reflexivity |].
  assert (E0 : (z =? 0)%Z = false) by (apply Z.eqb_neq; assumption).
  assert (E1 : (z =? 1)%Z = false) by (apply Z.eqb_neq; assumption).
  assert (E2 : (z =? -1)%Z = false) by (apply Z.eqb_neq; assumption).
  assert (E3 : (z =? -2)%Z = false) by (apply Z.eqb_neq; assumption).
  rewrite E0, E1, E2, E3; cbn [orb].
  destruct ((0 <=? z) && (z <? 2))%Z eqn:Ea.
  { apply andb_true_iff in Ea; rewrite Z.leb_le, Z.ltb_lt in Ea; lia. }
  destruct ((- (2) <=? z) && (z <? 0))%Z eqn:Eb.
  { apply andb_true_iff in Eb; rewrite Z.leb_le, Z.ltb_lt in Eb; lia. }
  reflexivity.
Qed.

(** A request that names an index still names it after the lookup. *)
Lemma requests_enum_lookup (value : Py.value) (i : Z) :
  requests value i -> requests (enum_lookup value) i.
Proof.
  intros H; destruct H; cbn; try (constructor; assumption); constructor.
Qed.

(** The write, as normalisation followed by the transition. *)
Lemma write_Eclipse_resolve (value : Py.value) (self : ioc) :
  write_Eclipse value self =
    match resolve (enum_lookup value) with
    | Some i => commit_Eclipse i (eclipse_transition self i)
    | None => self
    end.
Proof.
  unfold write_Eclipse; rewrite Eclipse_putter_resolve.
  destruct (resolve (enum_lookup value)); [reflexivity |].
  destruct self; reflexivity.
Qed.

(** ** Preservation of the validity ranges *)

Lemma eclipse_transition_in_ranges (self : ioc) (i : Z) :
  in_ranges self -> in_ranges (eclipse_transition self i).
Proof.
  intros [H1 H2 H3 H4].
  destruct (eclipse_transition_cases self i) as [-> | [-> | ->]];
    split; cbn; assumption.
Qed.

Lemma write_Eclipse_in_ranges (self : ioc) (value : Py.value) :
  in_ranges self -> in_ranges (write_Eclipse value self).
Proof.
  intros H; rewrite write_Eclipse_resolve.
  destruct (resolve (enum_lookup value)) as [i |]; [| assumption].
  apply (eclipse_transition_in_ranges _ i) in H.
  destruct H as [H1 H2 H3 H4]; split; cbn; assumption.
Qed.

Lemma V_target_putter_clamps (self : ioc) (value : R) :
  0 <= snd (V_target_putter self value) <= max_voltage.
Proof.
  cbn [V_target_putter snd]; rewrite max_Rmax, min_Rmin.
  generalize max_voltage_pos; intros Hm.
  replace 0.0 with 0 by lra.
  unfold Rmax, Rmin; destruct (Rle_dec value max_voltage);
    destruct (Rle_dec 0 _); lra.
Qed.

Lemma write_V_target_in_ranges (self : ioc) (value : R) :
  in_ranges self -> in_ranges (write_V_target value self).
Proof.
  intros [H1 H2 H3 H4]; unfold write_V_target.
  generalize (V_target_putter_clamps self value).
  cbn [V_target_putter snd]; intros Hc.
  split; cbn; assumption.
Qed.

Lemma charge_update_in_ranges (self self' : ioc) :
  in_ranges self -> charge_update self = Ok self' -> in_ranges self'.
Proof.
  intros [H1 H2 H3 H4] Hc.
  destruct (Rtotal_order (Solar_power self - load_power_const) 0) as [Hp | [Hp | Hp]].
  - destruct (Req_dec (V_sim self) 0) as [Hz | Hz].
    + rewrite charge_update_discharging_at_zero in Hc by assumption; discriminate.
    + rewrite charge_update_discharging in Hc by assumption.
      inversion Hc; subst; clear Hc.
      generalize (deltaV_of_neg _ (V_sim self) Hp); intros Hd.
      split; cbn; try assumption.
      split; [apply Rmax_r | apply Rmax_lub; lra].
  - rewrite charge_update_idle in Hc by auto.
    inversion Hc; subst; split; assumption.
  - destruct (Rlt_le_dec (V_sim self) (V_target self)) as [Hv | Hv].
    + rewrite charge_update_charging in Hc by assumption.
      inversion Hc; subst; clear Hc.
      generalize (deltaV_of_pos _ (V_sim self) Hp); intros Hd.
      split; cbn; try assumption.
      split; [apply Rmin_glb; lra |].
      apply Rle_trans with (V_target self); [apply Rmin_r | lra].
    + rewrite charge_update_idle in Hc by auto.
      inversion Hc; subst; split; assumption.
Qed.

(** ** The eclipse model *)

Lemma eclipse_entering_bounds (init_sp tmp : R) :
  0 <= init_sp -> 0 < tmp <= 1 ->
  0 <= eclipse_entering init_sp tmp <= init_sp.
Proof.
  intros Hi [H0 H1]; unfold eclipse_entering.
  generalize PI_RGT_0; intros Hpi.
  assert (Hc : 0 <= cos (0.5 * PI * tmp)) by (apply cos_ge_0; nra).
  generalize (COS_bound (0.5 * PI * tmp)); intros [_ Hb].
  nra.
Qed.

Lemma eclipse_leaving_bounds (init_sp tmp : R) :
  0 <= init_sp -> 1 < tmp <= 2 ->
  0 <= eclipse_leaving init_sp tmp <= init_sp.
Proof.
  intros Hi [H1 H2]; unfold eclipse_leaving.
  generalize PI_RGT_0; intros Hpi.
  assert (Hc : cos (0.5 * PI * tmp) <= 0) by (apply cos_le_0; nra).
  generalize (COS_bound (0.5 * PI * tmp)); intros [Hb _].
  nra.
Qed.

(** The four outcomes of the eclipse branch when it does not raise. *)
Lemma eclipse_update_cases (self self' : ioc) :
  eclipse_update self = Ok self' ->
  self' = self \/
  (exists tmp, 0 < tmp <= 1 /\
     self' = write_Solar_power (eclipse_entering (init_solar_power self) tmp) self) \/
  (exists tmp, 1 < tmp <= 2 /\
     self' = write_Solar_power (eclipse_leaving (init_solar_power self) tmp) self) \/
  self' = write_Eclipse (Int 0) self.
Proof.
  unfold eclipse_update.
  destruct (Eclipse self =? 1)%Z; [| intros H; inversion H; auto].
  destruct (get_eclipse_begin self) as [b | e]; cbn [bind]; [| discriminate].
  destruct (truediv _ _) as [tmp | e]; cbn [bind]; [| discriminate].
  destruct (gtb tmp 0 && leb tmp 1) eqn:E1.
  { apply andb_true_iff in E1; destruct E1 as [Ea Eb].
    apply gtb_true in Ea; apply leb_true in Eb.
    intros H; inversion H; right; left; exists tmp; split; [lra | reflexivity]. }
  destruct (gtb tmp 1 && leb tmp 2) eqn:E2.
  { apply andb_true_iff in E2; destruct E2 as [Ea Eb].
    apply gtb_true in Ea; apply leb_true in Eb.
    intros H; inversion H; right; right; left; exists tmp; split; [lra | reflexivity]. }
  destruct (gtb tmp 2); intros H; inversion H; auto.
Qed.

Lemma eclipse_update_in_ranges (self self' : ioc) :
  in_ranges self -> eclipse_update self = Ok self' -> in_ranges self'.
Proof.
  intros Hr Hu.
  destruct (eclipse_update_cases _ _ Hu)
    as [-> | [(tmp & Ht & ->) | [(tmp & Ht & ->) | ->]]].
  - assumption.
  - destruct Hr as [H1 H2 H3 H4].
    generalize (eclipse_entering_bounds _ tmp (proj1 H4) Ht); intros Hb.
    split; cbn; try assumption; lra.
  - destruct Hr as [H1 H2 H3 H4].
    generalize (eclipse_leaving_bounds _ tmp (proj1 H4) Ht); intros Hb.
    split; cbn; try assumption; lra.
  - apply write_Eclipse_in_ranges; assumption.
Qed.

Lemma loop_body_in_ranges (self self' : ioc) :
  in_ranges self -> loop_body self = Ok self' -> in_ranges self'.
Proof.
  intros Hr; unfold loop_body.
  destruct (charge_update self) as [s1 | e] eqn:E1; cbn [bind]; [| discriminate].
  destruct (eclipse_update s1) as [s2 | e] eqn:E2; cbn [bind]; [| discriminate].
  intros H; inversion H; subst; clear H.
  apply (charge_update_in_ranges _ _ Hr) in E1.
  apply (eclipse_update_in_ranges _ _ E1) in E2.
  destruct E2 as [H1 H2 H3 H4]; split; cbn; assumption.
Qed.

Lemma step_in_ranges (self self' : ioc) (e : event) :
  in_ranges self -> step self e = Ok self' -> in_ranges self'.
Proof.
  intros Hr; destruct e as [| v | v]; cbn [step].
  - apply loop_body_in_ranges; assumption.
  - intros H; inversion H; apply write_V_target_in_ranges; assumption.
  - intros H; inversion H; apply write_Eclipse_in_ranges; assumption.
Qed.

Lemma run_events_in_ranges (evs : list event) (self self' : ioc) :
  in_ranges self -> run_events self evs = Ok self' -> in_ranges self'.
Proof.
  revert self; induction evs as [| e evs IH]; intros self Hr; cbn [run_events].
  - intros H; inversion H; subst; assumption.
  - destruct (step self e) as [s1 | x] eqn:E; cbn [bind]; [| discriminate].
    apply IH; apply (step_in_ranges _ _ _ Hr E).
Qed.

(** Every state the served process goes through respects the ranges. *)
Lemma served_in_ranges (d : pvdefaults) (evs : list event) (self : ioc) :
  served d evs = Some (Ok self) -> in_ranges self.
Proof.
  unfold served; destruct (main d) as [out st | pvdb] eqn:E; [discriminate |].
  intros H; inversion H as [H']; clear H.
  apply main_run_iff in E; destruct E as [Hd ->].
  apply (run_events_in_ranges evs _ _ (init_in_ranges d (proj2 (initOK_iff d) Hd)) H').
Qed.

(** ** Numeric facts about the class constants *)

Lemma exp_sixteenth : exp (1 / 16) < 16 / 15.
Proof.
  assert (Hn : 1 + - (1 / 16) < exp (- (1 / 16))) by (apply exp_ineq1; lra).
  assert (Hp : exp (1 / 16) * exp (- (1 / 16)) = 1).
  { rewrite <- exp_plus; replace (1 / 16 + - (1 / 16)) with 0 by lra; apply exp_0. }
  generalize (exp_pos (1 / 16)); intros H0.
  nra.
Qed.

Lemma exp_1_lt : exp 1 < 2.875.
Proof.
  generalize exp_sixteenth (exp_pos (1 / 16)); intros H16 P16.
  assert (E8 : exp (1 / 8) = exp (1 / 16) * exp (1 / 16))
    by (rewrite <- exp_plus; f_equal; lra).
  assert (E4 : exp (1 / 4) = exp (1 / 8) * exp (1 / 8))
    by (rewrite <- exp_plus; f_equal; lra).
  assert (E2 : exp (1 / 2) = exp (1 / 4) * exp (1 / 4))
    by (rewrite <- exp_plus; f_equal; lra).
  assert (E1 : exp 1 = exp (1 / 2) * exp (1 / 2))
    by (rewrite <- exp_plus; f_equal; lra).
  generalize (exp_pos (1 / 8)) (exp_pos (1 / 4)) (exp_pos (1 / 2)); intros P8 P4 P2.
  assert (B8 : exp (1 / 8) < 1.138) by nra.
  assert (B4 : exp (1 / 4) < 1.2951) by nra.
  assert (B2 : exp (1 / 2) < 1.6773) by nra.
  nra.
Qed.

Lemma max_voltage_gt_34 : 34 < max_voltage.
Proof.
  unfold max_voltage, battery_capacity, model_constant, battery_nominal_voltage.
  assert (H : ln (exp 1) < ln (150 / 80 + 1)).
  { apply ln_increasing; [apply exp_pos |]. generalize exp_1_lt; lra. }
  rewrite ln_exp in H; nra.
Qed.

(** The defaults of the class body pass the checks of [__init__]. *)
Lemma source_defaults_in_range : defaults_in_range source_defaults.
Proof.
  unfold defaults_in_range; cbn; unfold solar_power_max.
  generalize max_voltage_gt_34; lra.
Qed.

Lemma eclipse_update_V_sim (self self' : ioc) :
  eclipse_update self = Ok self' ->
  V_sim self' = V_sim self /\ V_target self' = V_target self /\
  init_solar_power self' = init_solar_power self.
Proof.
  intros Hu.
  destruct (eclipse_update_cases _ _ Hu)
    as [-> | [(tmp & Ht & ->) | [(tmp & Ht & ->) | ->]]]; cbn; auto.
  rewrite write_Eclipse_resolve.
  destruct (resolve (enum_lookup (Int 0))) as [i |]; cbn; auto.
  destruct (eclipse_transition_cases self i) as [-> | [-> | ->]]; cbn; auto.
Qed.

(** C3. With the simulated voltage and the target voltage in
    [[0, max_voltage]]: when charging, the charge model completes and
    leaves the voltage in [[0, target]]; when discharging, it either
    completes with a voltage that is not below 0 or (at voltage 0) raises
    before writing anything; a completed charge-model step and a
    completed loop iteration leave the voltage in [[0, max_voltage]].
    Consequently every state of the served process, after any sequence of
    loop iterations and external writes, has its simulated voltage in
    [[0, max_voltage]]. *)
Theorem simulated_voltage_bounds :
  (forall self : ioc,
      0 <= V_sim self <= max_voltage ->
      0 <= V_target self <= max_voltage ->
      (Solar_power self - load_power_const > 0 -> V_sim self < V_target self ->
       exists self', charge_update self = Ok self' /\
                     0 <= V_sim self' <= V_target self) /\
      (Solar_power self - load_power_const < 0 ->
       (V_sim self <> 0 ->
        exists self', charge_update self = Ok self' /\ 0 <= V_sim self') /\
       (V_sim self = 0 -> charge_update self = Raise ZeroDivisionError)) /\
      (forall self', charge_update self = Ok self' ->
                     0 <= V_sim self' <= max_voltage) /\
      (forall self', loop_body self = Ok self' ->
                     0 <= V_sim self' <= max_voltage)) /\
  (forall (d : pvdefaults) (evs : list event) (self : ioc),
      served d evs = Some (Ok self) -> 0 <= V_sim self <= max_voltage).
Proof.
  split.
  - intros self HV HT.
    assert (Hcu : forall self', charge_update self = Ok self' ->
                                0 <= V_sim self' <= max_voltage).
    { intros self' Hc.
      destruct (Rtotal_order (Solar_power self - load_power_const) 0) as [Hp | [Hp | Hp]].
      - destruct (Req_dec (V_sim self) 0) as [Hz | Hz].
        + rewrite charge_update_discharging_at_zero in Hc by assumption; discriminate.
        + rewrite charge_update_discharging in Hc by assumption.
          inversion Hc; subst; clear Hc; cbn.
          generalize (deltaV_of_neg _ (V_sim self) Hp); intros Hd.
          split; [apply Rmax_r | apply Rmax_lub; lra].
      - rewrite charge_update_idle in Hc by auto.
        inversion Hc; subst; assumption.
      - destruct (Rlt_le_dec (V_sim self) (V_target self)) as [Hv | Hv].
        + rewrite charge_update_charging in Hc by assumption.
          inversion Hc; subst; clear Hc; cbn.
          generalize (deltaV_of_pos _ (V_sim self) Hp); intros Hd.
          split; [apply Rmin_glb; lra |].
          apply Rle_trans with (V_target self); [apply Rmin_r | lra].
        + rewrite charge_update_idle in Hc by auto.
          inversion Hc; subst; assumption. }
    assert (Hlb : forall self', loop_body self = Ok self' ->
                                0 <= V_sim self' <= max_voltage).
    { intros self'; unfold loop_body.
      destruct (charge_update self) as [s1 | e] eqn:E1; cbn [bind]; [| discriminate].
      destruct (eclipse_update s1) as [s2 | e] eqn:E2; cbn [bind]; [| discriminate].
      intros H; inversion H; subst; cbn.
      destruct (eclipse_update_V_sim _ _ E2) as (-> & _).
      apply Hcu; reflexivity. }
    split; [| split; [| split; assumption]].
    + intros Hp Hv; eexists; split; [apply charge_update_charging; assumption |].
      cbn; generalize (deltaV_of_pos _ (V_sim self) Hp); intros Hd.
      split; [apply Rmin_glb; lra | apply Rmin_r].
    + intros Hp; split.
      * intros Hz; eexists; split; [apply charge_update_discharging; assumption |].
        cbn; apply Rmax_r.
      * apply charge_update_discharging_at_zero; assumption.
  - intros d evs self H; apply served_in_ranges in H; apply H.
Qed.

Lemma init_source_defaults :
  BatteryChargeIOC source_defaults = running_ioc 32 34 110 0.
Proof.
  generalize source_defaults_in_range; intros (H1 & H2 & H3).
  unfold BatteryChargeIOC; cbn [V_sim Solar_power V_target Eclipse sim_time].
  apply range_check_false in H1, H2, H3; rewrite H1, H2, H3.
  cbn; unfold running_ioc; f_equal; lra.
Qed.

Lemma main_source_defaults : main source_defaults = Run (running_ioc 32 34 110 0).
Proof.
  apply main_run_iff; split;
    [apply source_defaults_in_range | symmetry; apply init_source_defaults].
Qed.

Lemma served_source_defaults_tick :
  exists self, served source_defaults [Tick] = Some (Ok self).
Proof.
  unfold served; rewrite main_source_defaults; cbn [run_events step].
  erewrite loop_body_off; [cbn [bind]; eexists; reflexivity | cbn; discriminate |].
  apply charge_update_charging; cbn; unfold load_power_const; lra.
Qed.

Lemma simulated_voltage_bounds_witness :
  (exists self',
      charge_update (running_ioc 32 34 110 0) = Ok self' /\
      0 <= V_sim self' <= V_target (running_ioc 32 34 110 0)) /\
  (exists self,
      served source_defaults [Tick] = Some (Ok self) /\
      0 <= V_sim self <= max_voltage).
Proof.
  assert (H32 : 0 <= V_sim (running_ioc 32 34 110 0) <= max_voltage)
    by (cbn; generalize max_voltage_gt_34; lra).
  assert (H34 : 0 <= V_target (running_ioc 32 34 110 0) <= max_voltage)
    by (cbn; generalize max_voltage_gt_34; lra).
  split.
  - apply (proj1 (proj1 simulated_voltage_bounds (running_ioc 32 34 110 0) H32 H34)).
    + cbn; unfold load_power_const; lra.
    + cbn; lra.
  - destruct served_source_defaults_tick as [self Hs].
    exists self; split; [exact Hs |].
    apply (proj2 simulated_voltage_bounds source_defaults [Tick] self Hs).
Defined.

(** ** Truncation of a float to an index *)

Lemma Int_part_bounds (r : R) : IZR (Int_part r) <= r < IZR (Int_part r) + 1.
Proof. generalize (base_Int_part r); lra. Qed.

Lemma int_of_float_nonneg (r : R) (z : Z) :
  0 <= r -> IZR z <= r < IZR z + 1 -> int_of_float r = z.
Proof.
  intros H0 Hz; unfold int_of_float.
  destruct (Rle_dec 0 r) as [_ | Hn]; [| contradiction].
  symmetry; apply Int_part_spec; lra.
Qed.

Lemma int_of_float_neg (r : R) (z : Z) :
  r < 0 -> IZR z - 1 < r <= IZR z -> int_of_float r = z.
Proof.
  intros H0 Hz; unfold int_of_float.
  destruct (Rle_dec 0 r) as [Hn | _]; [lra |].
  assert (E : (- z)%Z = Int_part (- r))
    by (apply Int_part_spec; rewrite opp_IZR; lra).
  rewrite <- E; lia.
Qed.

Lemma int_of_float_0 (r : R) : -1 < r < 1 -> int_of_float r = 0%Z.
Proof.
  intros H; destruct (Rle_lt_dec 0 r).
  - apply int_of_float_nonneg; cbn; lra.
  - apply int_of_float_neg; cbn; lra.
Qed.

Lemma int_of_float_1 (r : R) : 1 <= r < 2 -> int_of_float r = 1%Z.
Proof. intros H; apply int_of_float_nonneg; cbn; lra. Qed.

Lemma int_of_float_high (r : R) : 2 <= r -> (2 <= int_of_float r)%Z.
Proof.
  intros H; unfold int_of_float.
  destruct (Rle_dec 0 r) as [_ | Hn]; [| lra].
  generalize (Int_part_bounds r); intros [_ Hb].
  assert (Hlt : IZR 1 < IZR (Int_part r)) by lra.
  apply lt_IZR in Hlt; lia.
Qed.

Lemma int_of_float_low (r : R) : r <= -1 -> (int_of_float r <= -1)%Z.
Proof.
  intros H; unfold int_of_float.
  destruct (Rle_dec 0 r) as [Hn | _]; [lra |].
  generalize (Int_part_bounds (- r)); intros [_ Hb].
  assert (Hlt : IZR 0 < IZR (Int_part (- r))) by lra.
  apply lt_IZR in Hlt; lia.
Qed.

(** ** Which requests resolve *)

Lemma resolve_requests (value : Py.value) (i : Z) :
  requests value i -> resolve value = Some i.
Proof.
  intros H; destruct H; cbn [resolve]; try reflexivity.
  - rewrite int_of_float_0 by assumption; reflexivity.
  - rewrite int_of_float_1 by assumption; reflexivity.
Qed.

Lemma resolve_rejected (value : Py.value) :
  rejected value -> resolve value = None.
Proof.
  intros H; destruct H as [s H0 H1 | z H0 H1 | r Hr |]; cbn [resolve].
  - rewrite index_enum_strings.
    destruct (String.eqb_spec "Non-Eclipse" s) as [E | _]; [symmetry in E; contradiction |].
    destruct (String.eqb_spec "Eclipse" s) as [E | _]; [symmetry in E; contradiction |].
    reflexivity.
  - destruct (in_range z 2) eqn:E; [| reflexivity].
    apply in_range_2 in E; lia.
  - destruct (in_range (int_of_float r) 2) eqn:E; [| reflexivity].
    apply in_range_2 in E.
    destruct Hr as [Hr | Hr];
      [apply int_of_float_low in Hr | apply int_of_float_high in Hr]; lia.
  - reflexivity.
Qed.

(** Every request either names an index or is rejected. *)
Lemma requests_or_rejected (value : Py.value) :
  (exists i, requests value i) \/ rejected value.
Proof.
  destruct value as [s | z | r |].
  - destruct (string_dec s "Non-Eclipse") as [-> | H0];
      [left; exists 0%Z; constructor |].
    destruct (string_dec s "Eclipse") as [-> | H1];
      [left; exists 1%Z; constructor |].
    right; constructor; assumption.
  - destruct (Z.eq_dec z 0) as [-> | H0]; [left; exists 0%Z; constructor |].
    destruct (Z.eq_dec z 1) as [-> | H1]; [left; exists 1%Z; constructor |].
    right; constructor; assumption.
  - destruct (Rle_lt_dec r (-1)) as [H | H]; [right; constructor; auto |].
    destruct (Rlt_le_dec r 1) as [H1 | H1];
      [left; exists 0%Z; constructor; lra |].
    destruct (Rlt_le_dec r 2) as [H2 | H2];
      [left; exists 1%Z; constructor; lra |].
    right; constructor; auto.
  - right; constructor.
Qed.

Lemma commit_Eclipse_same (self : ioc) : commit_Eclipse (Eclipse self) self = self.
Proof. destruct self; reflexivity. Qed.

(** The putter on a resolved and on a rejected request. *)
Lemma Eclipse_putter_requests (self : ioc) (value : Py.value) (i : Z) :
  requests value i ->
  Eclipse_putter self value = (eclipse_transition self i, i).
Proof.
  intros H; rewrite Eclipse_putter_resolve, (resolve_requests _ _ H); reflexivity.
Qed.

Lemma Eclipse_putter_rejected (self : ioc) (value : Py.value) :
  rejected value -> Eclipse_putter self value = (self, Eclipse self).
Proof.
  intros H; rewrite Eclipse_putter_resolve, (resolve_rejected _ H); reflexivity.
Qed.

(** A write request turned down by channel and putter together reaches
    the putter as a value the putter rejects. *)
Lemma rejected_write_enum_lookup (value : Py.value) :
  rejected_write value -> rejected (enum_lookup value).
Proof.
  intros H; destruct H as [s H0 H1 | z Hz | r Hr |].
  - constructor; assumption.
  - rewrite enum_lookup_int.
    assert (E0 : (z =? 0)%Z = false) by (apply Z.eqb_neq; lia).
    assert (E1 : (z =? 1)%Z = false) by (apply Z.eqb_neq; lia).
    assert (E2 : (z =? -1)%Z = false) by (apply Z.eqb_neq; lia).
    assert (E3 : (z =? -2)%Z = false) by (apply Z.eqb_neq; lia).
    rewrite E0, E1, E2, E3; cbn [orb]; constructor; lia.
  - constructor; assumption.
  - constructor.
Qed.

Lemma write_Eclipse_rejected (value : Py.value) (self : ioc) :
  rejected_write value -> write_Eclipse value self = self.
Proof.
  intros H; rewrite write_Eclipse_resolve.
  rewrite (resolve_rejected _ (rejected_write_enum_lookup _ H)); reflexivity.
Qed.

(** C4, as stated, fails: the float 1.5 is neither a state name nor one
    of the numbers 0 and 1, and lies outside [[0, 1]], yet with the flag at
    0 the putter commits 1 and records the eclipse onset. Likewise 0.5
    with the flag at 1 commits 0 and restores the solar power. The same
    holds for the whole write, and there the integer -1, which indexes
    the last state name, is accepted as well. *)
Lemma unrecognised_request_counterexample :
  Eclipse_putter (running_ioc 32 34 110 0) (Float 1.5)
    = (set_eclipse_begin 0 (running_ioc 32 34 110 0), 1%Z) /\
  Eclipse_putter (running_ioc 32 34 55 1) (Float 0.5)
    = (write_Solar_power 110 (running_ioc 32 34 55 1), 0%Z) /\
  ~ (forall (self : ioc) (value : Py.value),
        value <> Str "Non-Eclipse" -> value <> Str "Eclipse" ->
        value <> Int 0 -> value <> Int 1 ->
        value <> Float 0 -> value <> Float 1 ->
        Eclipse_putter self value = (self, Eclipse self)) /\
  write_Eclipse (Float 1.5) (running_ioc 32 34 110 0)
    = commit_Eclipse 1 (set_eclipse_begin 0 (running_ioc 32 34 110 0)) /\
  write_Eclipse (Int (-1)) (running_ioc 32 34 110 0)
    = commit_Eclipse 1 (set_eclipse_begin 0 (running_ioc 32 34 110 0)) /\
  ~ (forall (self : ioc) (value : Py.value),
        value <> Str "Non-Eclipse" -> value <> Str "Eclipse" ->
        value <> Int 0 -> value <> Int 1 ->
        value <> Float 0 -> value <> Float 1 ->
        write_Eclipse value self = self).
Proof.
  assert (E1 : Eclipse_putter (running_ioc 32 34 110 0) (Float 1.5)
               = (set_eclipse_begin 0 (running_ioc 32 34 110 0), 1%Z)).
  { rewrite (Eclipse_putter_requests _ _ 1) by (constructor; lra).
    unfold eclipse_transition; cbn; unfold set_eclipse_begin; cbn.
    do 2 f_equal; f_equal; lra. }
  assert (Hf : forall r, r <> 1.5 -> Float 1.5 <> Float r)
    by (intros r Hr E; inversion E; lra).
  assert (W1 : write_Eclipse (Float 1.5) (running_ioc 32 34 110 0)
               = commit_Eclipse 1 (set_eclipse_begin 0 (running_ioc 32 34 110 0))).
  { unfold write_Eclipse; cbn [enum_lookup]; rewrite E1; reflexivity. }
  split; [exact E1 | split; [| split; [| split; [exact W1 | split]]]].
  - rewrite (Eclipse_putter_requests _ _ 0) by (constructor; lra).
    unfold eclipse_transition; cbn; unfold write_Solar_power; cbn.
    do 2 f_equal; lra.
  - intros H.
    specialize (H (running_ioc 32 34 110 0) (Float 1.5)).
    rewrite E1 in H.
    assert (Hc : (set_eclipse_begin 0 (running_ioc 32 34 110 0), 1%Z)
                 = (running_ioc 32 34 110 0, Eclipse (running_ioc 32 34 110 0))).
    { apply H; try discriminate; apply Hf; lra. }
    apply (f_equal snd) in Hc; cbn in Hc; discriminate.
  - rewrite write_Eclipse_resolve, enum_lookup_int; cbn.
    unfold commit_Eclipse, set_eclipse_begin; cbn; f_equal; f_equal; lra.
  - intros H.
    specialize (H (running_ioc 32 34 110 0) (Float 1.5)).
    rewrite W1 in H.
    assert (Hc : commit_Eclipse 1 (set_eclipse_begin 0 (running_ioc 32 34 110 0))
                 = running_ioc 32 34 110 0).
    { apply H; try discriminate; apply Hf; lra. }
    apply (f_equal Eclipse) in Hc; cbn in Hc; discriminate.
Qed.

(** C4, amended. A write request that is a string other than the two
    state names, an integer below -2 or above 1, a float [r] with
    [r <= -1] or [2 <= r] (one that [int] does not truncate to 0 or 1), or
    neither a string nor a number, is rejected: the value committed is the
    prior flag and the instance is unchanged, so no eclipse onset is
    recorded and the solar power is not restored. The putter by itself
    rejects, among the values handed to it, the strings other than the
    two state names, the integers other than 0 and 1, the same floats, and
    what is neither a string nor a number. *)
Theorem unrecognised_request_rejected (self : ioc) (value : Py.value) :
  (rejected_write value ->
   snd (Eclipse_putter self (enum_lookup value)) = Eclipse self /\
   write_Eclipse value self = self) /\
  (rejected value -> Eclipse_putter self value = (self, Eclipse self)).
Proof.
  split; intros H.
  - split; [| apply write_Eclipse_rejected; assumption].
    rewrite (Eclipse_putter_rejected _ _ (rejected_write_enum_lookup _ H)).
    reflexivity.
  - apply Eclipse_putter_rejected; assumption.
Qed.

Lemma unrecognised_request_rejected_witness :
  (rejected_write (Int (-3)) /\
   snd (Eclipse_putter (running_ioc 32 34 55 1) (enum_lookup (Int (-3))))
     = Eclipse (running_ioc 32 34 55 1) /\
   write_Eclipse (Int (-3)) (running_ioc 32 34 55 1) = running_ioc 32 34 55 1) /\
  (rejected (Float 2.5) /\
   Eclipse_putter (running_ioc 32 34 55 1) (Float 2.5)
     = (running_ioc 32 34 55 1, Eclipse (running_ioc 32 34 55 1))).
Proof.
  assert (Hw : rejected_write (Int (-3))) by (constructor; lia).
  assert (H : rejected (Float 2.5)) by (constructor; right; lra).
  split.
  - split; [exact Hw |].
    apply (proj1 (unrecognised_request_rejected (running_ioc 32 34 55 1) (Int (-3))) Hw).
  - split; [exact H |].
    apply (proj2 (unrecognised_request_rejected (running_ioc 32 34 55 1) (Float 2.5)) H).
Defined.

(** ** The captured solar power is never reassigned *)

Lemma write_Eclipse_init_solar_power (self : ioc) (value : Py.value) :
  init_solar_power (write_Eclipse value self) = init_solar_power self.
Proof.
  rewrite write_Eclipse_resolve.
  destruct (resolve (enum_lookup value)) as [i |]; cbn; [| reflexivity].
  destruct (eclipse_transition_cases self i) as [-> | [-> | ->]]; reflexivity.
Qed.

Lemma loop_body_init_solar_power (self self' : ioc) :
  loop_body self = Ok self' -> init_solar_power self' = init_solar_power self.
Proof.
  unfold loop_body.
  destruct (charge_update self) as [s1 | e] eqn:E1; cbn [bind]; [| discriminate].
  destruct (eclipse_update s1) as [s2 | e] eqn:E2; cbn [bind]; [| discriminate].
  intros H; inversion H; subst; cbn.
  destruct (eclipse_update_V_sim _ _ E2) as (_ & _ & ->).
  apply (charge_update_frame _ _ E1).
Qed.

Lemma step_init_solar_power (self self' : ioc) (e : event) :
  step self e = Ok self' -> init_solar_power self' = init_solar_power self.
Proof.
  destruct e as [| v | v]; cbn [step].
  - apply loop_body_init_solar_power.
  - intros H; inversion H; reflexivity.
  - intros H; inversion H; apply write_Eclipse_init_solar_power.
Qed.

Lemma run_events_init_solar_power (evs : list event) (self self' : ioc) :
  run_events self evs = Ok self' -> init_solar_power self' = init_solar_power self.
Proof.
  revert self; induction evs as [| e evs IH]; intros self; cbn [run_events].
  - intros H; inversion H; reflexivity.
  - destruct (step self e) as [s1 | x] eqn:E; cbn [bind]; [| discriminate].
    intros H; rewrite (IH _ H); apply (step_init_solar_power _ _ _ E).
Qed.

Lemma served_init_solar_power (d : pvdefaults) (evs : list event) (self : ioc) :
  served d evs = Some (Ok self) -> init_solar_power self = default_Solar_power d.
Proof.
  unfold served; destruct (main d) as [out st | pvdb] eqn:E; [discriminate |].
  intros H; inversion H as [H']; clear H.
  apply main_run_iff in E; destruct E as [_ ->].
  rewrite (run_events_init_solar_power _ _ _ H').
  apply (init_cells d).
Qed.

(** C5. A write that resolves to 1 while the flag is 0 records the
    present simulated time as the eclipse onset and commits 1. A write
    that resolves to 0 while the flag is 1 stores the captured
    [init_solar_power] as the solar power and commits 0; in the served
    process, whatever loop iterations and writes came before, that value
    is the default solar power read at construction. A write that
    resolves to the present flag commits it and changes nothing. *)
Theorem eclipse_transitions :
  (forall (self : ioc) (value : Py.value),
      Eclipse self = 0%Z -> requests value 1 ->
      Eclipse_putter self value = (set_eclipse_begin (sim_time self) self, 1%Z) /\
      eclipse_begin (write_Eclipse value self) = Some (sim_time self) /\
      Eclipse (write_Eclipse value self) = 1%Z /\
      Solar_power (write_Eclipse value self) = Solar_power self) /\
  (forall (self : ioc) (value : Py.value),
      Eclipse self = 1%Z -> requests value 0 ->
      Eclipse_putter self value
        = (write_Solar_power (init_solar_power self) self, 0%Z) /\
      Solar_power (write_Eclipse value self) = init_solar_power self /\
      Eclipse (write_Eclipse value self) = 0%Z /\
      eclipse_begin (write_Eclipse value self) = eclipse_begin self) /\
  (forall (d : pvdefaults) (evs : list event) (self : ioc) (value : Py.value),
      served d evs = Some (Ok self) ->
      Eclipse self = 1%Z -> requests value 0 ->
      Solar_power (write_Eclipse value self) = default_Solar_power d) /\
  (forall (self : ioc) (value : Py.value) (i : Z),
      requests value i -> Eclipse self = i ->
      Eclipse_putter self value = (self, i) /\
      write_Eclipse value self = self).
Proof.
  assert (H01 : forall self value, Eclipse self = 0%Z -> requests value 1 ->
            Eclipse_putter self value = (set_eclipse_begin (sim_time self) self, 1%Z)).
  { intros self value Hf Hr; rewrite (Eclipse_putter_requests _ _ _ Hr).
    unfold eclipse_transition; rewrite Hf; reflexivity. }
  assert (H10 : forall self value, Eclipse self = 1%Z -> requests value 0 ->
            Eclipse_putter self value
              = (write_Solar_power (init_solar_power self) self, 0%Z)).
  { intros self value Hf Hr; rewrite (Eclipse_putter_requests _ _ _ Hr).
    unfold eclipse_transition; rewrite Hf; reflexivity. }
  split; [| split; [| split]].
  - intros self value Hf Hr; split; [apply H01; assumption |].
    unfold write_Eclipse; rewrite (H01 _ _ Hf (requests_enum_lookup _ _ Hr)); cbn; auto.
  - intros self value Hf Hr; split; [apply H10; assumption |].
    unfold write_Eclipse; rewrite (H10 _ _ Hf (requests_enum_lookup _ _ Hr)); cbn; auto.
  - intros d evs self value Hs Hf Hr.
    unfold write_Eclipse; rewrite (H10 _ _ Hf (requests_enum_lookup _ _ Hr)); cbn.
    apply (served_init_solar_power _ _ _ Hs).
  - intros self value i Hr Hf.
    assert (E : Eclipse_putter self value = (self, i)).
    { rewrite (Eclipse_putter_requests _ _ _ Hr); unfold eclipse_transition.
      destruct (resolve_some _ _ (resolve_requests _ _ Hr)) as [-> | ->];
        rewrite Hf; reflexivity. }
    split; [exact E |].
    rewrite write_Eclipse_resolve.
    rewrite (resolve_requests _ _ (requests_enum_lookup _ _ Hr)).
    unfold eclipse_transition.
    destruct (resolve_some _ _ (resolve_requests _ _ Hr)) as [Hi | Hi];
      rewrite Hi in Hf |- *; rewrite Hf; cbn [Z.eqb Pos.eqb andb];
      rewrite <- Hf; apply commit_Eclipse_same.
Qed.

(** ** The eclipse branch, phase by phase *)

Section EclipsePhase.

Variable self : ioc.
Variable onset : R.
Hypothesis flag_set : Eclipse self = 1%Z.
Hypothesis onset_recorded : eclipse_begin self = Some onset.
Hypothesis half_duration_neq0 : eclipse_half_duration self <> 0.

Let phase : R := (sim_time self - onset) / eclipse_half_duration self.

Lemma eclipse_update_phase :
  eclipse_update self =
    if gtb phase 0 && leb phase 1 then
      Ok (write_Solar_power (eclipse_entering (init_solar_power self) phase) self)
    else if gtb phase 1 && leb phase 2 then
      Ok (write_Solar_power (eclipse_leaving (init_solar_power self) phase) self)
    else if gtb phase 2 then Ok (write_Eclipse (Int 0) self)
    else Ok self.
Proof.
  unfold eclipse_update, get_eclipse_begin.
  rewrite flag_set, onset_recorded; cbn [Z.eqb Pos.eqb bind].
  rewrite (truediv_ok _ _ half_duration_neq0); reflexivity.
Qed.

Lemma eclipse_update_entering :
  0 < phase <= 1 ->
  eclipse_update self =
    Ok (write_Solar_power (eclipse_entering (init_solar_power self) phase) self).
Proof.
  intros [H0 H1]; rewrite eclipse_update_phase.
  apply gtb_true in H0; apply leb_true in H1; rewrite H0, H1; reflexivity.
Qed.

Lemma eclipse_update_leaving :
  1 < phase <= 2 ->
  eclipse_update self =
    Ok (write_Solar_power (eclipse_leaving (init_solar_power self) phase) self).
Proof.
  intros [H1 H2]; rewrite eclipse_update_phase.
  assert (E : leb phase 1 = false) by (apply leb_false; lra).
  apply gtb_true in H1; apply leb_true in H2.
  rewrite E, H1, H2, andb_false_r; reflexivity.
Qed.

Lemma eclipse_update_over :
  2 < phase -> eclipse_update self = Ok (write_Eclipse (Int 0) self).
Proof.
  intros H2; rewrite eclipse_update_phase.
  assert (E1 : leb phase 1 = false) by (apply leb_false; lra).
  assert (E2 : leb phase 2 = false) by (apply leb_false; lra).
  apply gtb_true in H2; rewrite E1, E2, H2, !andb_false_r; reflexivity.
Qed.

Lemma eclipse_update_not_started :
  phase <= 0 -> eclipse_update self = Ok self.
Proof.
  intros H0; rewrite eclipse_update_phase.
  assert (E0 : gtb phase 0 = false) by (apply gtb_false; lra).
  assert (E1 : gtb phase 1 = false) by (apply gtb_false; lra).
  assert (E2 : gtb phase 2 = false) by (apply gtb_false; lra).
  rewrite E0, E1, E2; reflexivity.
Qed.

End EclipsePhase.

(** C9. During eclipse, with the onset recorded and a non-negative
    captured solar power, a phase in (0, 1] makes the eclipse branch write
    [init_solar_power * cos (phase * PI / 2)] and a phase in (1, 2] makes
    it write [- init_solar_power * cos (phase * PI / 2)]; both values lie
    in [[0, init_solar_power]]. In the served process the captured solar
    power and the published solar power stay in [[0, solar_power_max]]
    after any sequence of loop iterations and external writes. *)
Theorem eclipse_solar_power_bounds :
  (forall (self : ioc) (onset : R),
      Eclipse self = 1%Z -> eclipse_begin self = Some onset ->
      eclipse_half_duration self <> 0 ->
      0 <= init_solar_power self ->
      let phase := (sim_time self - onset) / eclipse_half_duration self in
      (0 < phase <= 1 ->
       exists sp,
         eclipse_update self = Ok (write_Solar_power sp self) /\
         sp = init_solar_power self * cos (phase * PI / 2) /\
         0 <= sp <= init_solar_power self) /\
      (1 < phase <= 2 ->
       exists sp,
         eclipse_update self = Ok (write_Solar_power sp self) /\
         sp = - init_solar_power self * cos (phase * PI / 2) /\
         0 <= sp <= init_solar_power self)) /\
  (forall (d : pvdefaults) (evs : list event) (self : ioc),
      served d evs = Some (Ok self) ->
      0 <= init_solar_power self <= solar_power_max /\
      0 <= Solar_power self <= solar_power_max).
Proof.
  split.
  - intros self onset Hf Hb Hh Hi phase; split; intros Hp.
    + exists (eclipse_entering (init_solar_power self) phase); split; [| split].
      * apply eclipse_update_entering; assumption.
      * unfold eclipse_entering; do 2 f_equal; lra.
      * apply eclipse_entering_bounds; assumption.
    + exists (eclipse_leaving (init_solar_power self) phase); split; [| split].
      * apply eclipse_update_leaving; assumption.
      * unfold eclipse_leaving; do 2 f_equal; lra.
      * apply eclipse_leaving_bounds; assumption.
  - intros d evs self H; apply served_in_ranges in H.
    destruct H as [_ _ H3 H4]; split; assumption.
Qed.

Lemma eclipse_solar_power_bounds_witness :
  (exists sp,
      eclipse_update (eclipsed_ioc 1800) = Ok (write_Solar_power sp (eclipsed_ioc 1800)) /\
      sp = init_solar_power (eclipsed_ioc 1800)
           * cos ((sim_time (eclipsed_ioc 1800) - 0)
                  / eclipse_half_duration (eclipsed_ioc 1800) * PI / 2) /\
      0 <= sp <= init_solar_power (eclipsed_ioc 1800)) /\
  (exists sp,
      eclipse_update (eclipsed_ioc 5400) = Ok (write_Solar_power sp (eclipsed_ioc 5400)) /\
      sp = - init_solar_power (eclipsed_ioc 5400)
           * cos ((sim_time (eclipsed_ioc 5400) - 0)
                  / eclipse_half_duration (eclipsed_ioc 5400) * PI / 2) /\
      0 <= sp <= init_solar_power (eclipsed_ioc 5400)) /\
  (exists self,
      served source_defaults [Tick] = Some (Ok self) /\
      0 <= init_solar_power self <= solar_power_max /\
      0 <= Solar_power self <= solar_power_max).
Proof.
  assert (Hh : forall t, eclipse_half_duration (eclipsed_ioc t) <> 0)
    by (intros t; cbn; lra).
  assert (Hi : forall t, 0 <= init_solar_power (eclipsed_ioc t))
    by (intros t; cbn; lra).
  split; [| split].
  - apply (proj1 (proj1 eclipse_solar_power_bounds (eclipsed_ioc 1800) 0
                    eq_refl eq_refl (Hh 1800) (Hi 1800))).
    cbn; lra.
  - apply (proj2 (proj1 eclipse_solar_power_bounds (eclipsed_ioc 5400) 0
                    eq_refl eq_refl (Hh 5400) (Hi 5400))).
    cbn; lra.
  - destruct served_source_defaults_tick as [self Hs].
    exists self; split; [exact Hs |].
    apply (proj2 eclipse_solar_power_bounds source_defaults [Tick] self Hs).
Defined.

(** ** Continuity of the eclipse model at the phase boundaries *)

Lemma eclipse_entering_limit_0 (init_sp eps : R) :
  0 < eps ->
  exists delta, 0 < delta /\
    forall tmp, 0 < tmp < delta -> Rabs (eclipse_entering init_sp tmp - init_sp) < eps.
Proof.
  intros Heps; unfold eclipse_entering.
  generalize PI_RGT_0; intros Hpi.
  destruct (Req_dec init_sp 0) as [-> | Hi].
  { exists 1; split; [lra |]; intros tmp _.
    replace (0 * cos (0.5 * PI * tmp) - 0) with 0 by ring.
    rewrite Rabs_R0; assumption. }
  assert (Ha : 0 < Rabs init_sp) by (apply Rabs_pos_lt; assumption).
  destruct (continuity_cos 0 (eps / Rabs init_sp)) as (alp & Halp & Hc).
  { apply Rdiv_lt_0_compat; assumption. }
  exists (alp / (0.5 * PI)); split; [apply Rdiv_lt_0_compat; lra |].
  intros tmp [H0 H1].
  assert (Hx : 0.5 * PI * tmp < alp).
  { apply (Rmult_lt_compat_l (0.5 * PI)) in H1; [| lra].
    replace (0.5 * PI * (alp / (0.5 * PI))) with alp in H1 by (field; lra).
    exact H1. }
  specialize (Hc (0.5 * PI * tmp)).
  cbn in Hc; unfold Rdist in Hc; rewrite cos_0 in Hc.
  assert (Hd : Rabs (cos (0.5 * PI * tmp) - 1) < eps / Rabs init_sp).
  { apply Hc; split.
    - split; [exact I | nra].
    - rewrite Rminus_0_r, Rabs_pos_eq; nra. }
  replace (init_sp * cos (0.5 * PI * tmp) - init_sp)
    with (init_sp * (cos (0.5 * PI * tmp) - 1)) by ring.
  rewrite Rabs_mult.
  apply (Rmult_lt_compat_l (Rabs init_sp)) in Hd; [| assumption].
  replace (Rabs init_sp * (eps / Rabs init_sp)) with eps in Hd
    by (field; apply Rgt_not_eq; assumption).
  exact Hd.
Qed.

Lemma cos_half_PI : cos (0.5 * PI * 1) = 0.
Proof. replace (0.5 * PI * 1) with (PI / 2) by lra; apply cos_PI2. Qed.

(** C10. The two values the eclipse branch writes are
    [init * cos (phase * PI / 2)] (first formula) and
    [- init * cos (phase * PI / 2)] (second formula). At phase 1 both
    evaluate to 0, and the branch taken at phase 1, the first, writes 0.
    As the phase tends to 0 from above the first formula tends to the
    captured solar power, and so does the value the loop writes. At a
    phase that is not positive the eclipse branch completes without
    writing anything. *)
Theorem eclipse_phase_boundaries :
  (forall init_sp phase : R,
      eclipse_entering init_sp phase = init_sp * cos (phase * PI / 2) /\
      eclipse_leaving init_sp phase = - init_sp * cos (phase * PI / 2)) /\
  (forall init_sp : R,
      eclipse_entering init_sp 1 = 0 /\ eclipse_leaving init_sp 1 = 0 /\
      init_sp * cos (1 * PI / 2) = 0 /\ - init_sp * cos (1 * PI / 2) = 0) /\
  (forall init_sp eps : R,
      0 < eps ->
      exists delta, 0 < delta /\
        forall phase, 0 < phase < delta ->
          Rabs (eclipse_entering init_sp phase - init_sp) < eps /\
          Rabs (init_sp * cos (phase * PI / 2) - init_sp) < eps) /\
  (forall init_sp eps : R,
      0 < eps ->
      exists delta, 0 < delta /\
        forall (self : ioc) (onset : R),
          init_solar_power self = init_sp ->
          Eclipse self = 1%Z -> eclipse_begin self = Some onset ->
          eclipse_half_duration self <> 0 ->
          0 < (sim_time self - onset) / eclipse_half_duration self < delta ->
          (sim_time self - onset) / eclipse_half_duration self <= 1 ->
          exists sp, eclipse_update self = Ok (write_Solar_power sp self) /\
                     Rabs (sp - init_sp) < eps) /\
  (forall (self : ioc) (onset : R),
      Eclipse self = 1%Z -> eclipse_begin self = Some onset ->
      eclipse_half_duration self <> 0 ->
      ((sim_time self - onset) / eclipse_half_duration self = 1 ->
       eclipse_update self = Ok (write_Solar_power 0 self)) /\
      ((sim_time self - onset) / eclipse_half_duration self <= 0 ->
       eclipse_update self = Ok self)).
Proof.
  assert (Hform : forall init_sp phase : R,
             eclipse_entering init_sp phase = init_sp * cos (phase * PI / 2) /\
             eclipse_leaving init_sp phase = - init_sp * cos (phase * PI / 2)).
  { intros init_sp phase; unfold eclipse_entering, eclipse_leaving.
    replace (phase * PI / 2) with (0.5 * PI * phase) by lra; split; reflexivity. }
  split; [exact Hform | split; [| split; [| split]]].
  - intros init_sp; unfold eclipse_entering, eclipse_leaving.
    replace (1 * PI / 2) with (0.5 * PI * 1) by lra.
    rewrite cos_half_PI; repeat split; ring.
  - intros init_sp eps Heps.
    destruct (eclipse_entering_limit_0 init_sp eps Heps) as (delta & Hd & H).
    exists delta; split; [assumption |].
    intros phase Hp; specialize (H phase Hp); split; [exact H |].
    rewrite <- (proj1 (Hform init_sp phase)); exact H.
  - intros init_sp eps Heps.
    destruct (eclipse_entering_limit_0 init_sp eps Heps) as (delta & Hd & H).
    exists delta; split; [assumption |].
    intros self onset Hi Hf Hb Hh Hp H1.
    exists (eclipse_entering init_sp
              ((sim_time self - onset) / eclipse_half_duration self)); split.
    + rewrite <- Hi; apply (eclipse_update_entering self onset); try assumption; lra.
    + apply H; assumption.
  - intros self onset Hf Hb Hh; split; intros Hp.
    + rewrite (eclipse_update_entering self onset Hf Hb Hh) by lra.
      rewrite Hp; unfold eclipse_entering; rewrite cos_half_PI.
      do 2 f_equal; ring.
    + apply (eclipse_update_not_started self onset); assumption.
Qed.

Lemma eclipse_phase_boundaries_witness :
  (exists delta, 0 < delta /\
     forall phase, 0 < phase < delta ->
       Rabs (eclipse_entering 110 phase - 110) < 1 /\
       Rabs (110 * cos (phase * PI / 2) - 110) < 1) /\
  (exists delta, 0 < delta /\
     forall (self : ioc) (onset : R),
       init_solar_power self = 110 ->
       Eclipse self = 1%Z -> eclipse_begin self = Some onset ->
       eclipse_half_duration self <> 0 ->
       0 < (sim_time self - onset) / eclipse_half_duration self < delta ->
       (sim_time self - onset) / eclipse_half_duration self <= 1 ->
       exists sp, eclipse_update self = Ok (write_Solar_power sp self) /\
                  Rabs (sp - 110) < 1) /\
  eclipse_update (eclipsed_ioc 3600) = Ok (write_Solar_power 0 (eclipsed_ioc 3600)) /\
  eclipse_update (eclipsed_ioc 0) = Ok (eclipsed_ioc 0).
Proof.
  assert (Hh : forall t, eclipse_half_duration (eclipsed_ioc t) <> 0)
    by (intros t; cbn; lra).
  split; [| split; [| split]].
  - apply (proj1 (proj2 (proj2 eclipse_phase_boundaries)) 110 1); lra.
  - apply (proj1 (proj2 (proj2 (proj2 eclipse_phase_boundaries))) 110 1); lra.
  - apply (proj1 (proj2 (proj2 (proj2 (proj2 eclipse_phase_boundaries)))
                    (eclipsed_ioc 3600) 0 eq_refl eq_refl (Hh 3600))).
    cbn; lra.
  - apply (proj2 (proj2 (proj2 (proj2 (proj2 eclipse_phase_boundaries)))
                    (eclipsed_ioc 0) 0 eq_refl eq_refl (Hh 0))).
    cbn; lra.
Defined.

(** ** The target-voltage setter *)

Lemma max_min_clamp (x hi : R) : 0 <= hi -> max 0.0 (min x hi) = clamp x 0 hi.
Proof.
  intros Hhi; unfold max, min, clamp.
  replace 0.0 with 0 by lra.
  destruct (Rlt_dec hi x), (Rlt_dec x 0); try lra.
  - destruct (Rlt_dec 0 hi); lra.
  - destruct (Rlt_dec 0 x); lra.
  - destruct (Rlt_dec 0 x); lra.
Qed.

(** C6. For every real request the target-voltage putter returns
    [clamp requestedV 0 max_voltage] and the instance it was given; the
    returned value lies in [[0, max_voltage]] and is the request itself
    when the request already lies there; the write changes the
    target-voltage cell and nothing else. *)
Theorem target_voltage_setter (self : ioc) (requestedV : R) :
  V_target_putter self requestedV = (self, clamp requestedV 0 max_voltage) /\
  0 <= clamp requestedV 0 max_voltage <= max_voltage /\
  (0 <= requestedV <= max_voltage -> clamp requestedV 0 max_voltage = requestedV) /\
  write_V_target requestedV self
    = commit_V_target (clamp requestedV 0 max_voltage) self.
Proof.
  generalize max_voltage_pos; intros Hm.
  assert (E : V_target_putter self requestedV = (self, clamp requestedV 0 max_voltage)).
  { unfold V_target_putter; rewrite max_min_clamp by lra; reflexivity. }
  split; [exact E | split; [| split]].
  - unfold clamp; destruct (Rlt_dec requestedV 0); [lra |].
    destruct (Rlt_dec max_voltage requestedV); lra.
  - intros [H0 H1]; unfold clamp.
    destruct (Rlt_dec requestedV 0); [lra |].
    destruct (Rlt_dec max_voltage requestedV); lra.
  - unfold write_V_target; rewrite E; reflexivity.
Qed.

Lemma target_voltage_setter_witness :
  0 <= 34 <= max_voltage /\ clamp 34 0 max_voltage = 34.
Proof.
  assert (H : 0 <= 34 <= max_voltage) by (generalize max_voltage_gt_34; lra).
  split; [exact H |].
  apply (proj1 (proj2 (proj2 (target_voltage_setter (running_ioc 32 30 110 0) 34))) H).
Defined.

(** ** Start-up *)

Lemma max_voltage_lt_64 : max_voltage < 64.
Proof.
  unfold max_voltage, battery_capacity, model_constant, battery_nominal_voltage.
  assert (H : ln (150 / 80 + 1) < ln (exp 1.88)).
  { apply ln_increasing; [lra |]. generalize (exp_ineq1_le 1.88); lra. }
  rewrite ln_exp in H; nra.
Qed.

(** C7. If the default simulated voltage, the default solar power or the
    default target voltage lies outside its range, [__init__] clears
    [initOK], [__main__] prints "Initialization failed!" and exits with
    status 1 without calling [run]: the process serves nothing, whatever
    events would have followed. *)
Theorem startup_validation (d : pvdefaults) :
  (default_V_sim d < 0 \/ default_V_sim d > max_voltage) \/
  (default_Solar_power d < 0 \/ default_Solar_power d > solar_power_max) \/
  (default_V_target d < 0 \/ default_V_target d > max_voltage) ->
  initOK (BatteryChargeIOC d) = false /\
  main d = Exit ["Initialization failed!"%string] 1%Z /\
  (forall pvdb, main d <> Run pvdb) /\
  (forall evs, served d evs = None).
Proof.
  intros H.
  assert (Hi : initOK (BatteryChargeIOC d) = false).
  { destruct (initOK (BatteryChargeIOC d)) eqn:E; [| reflexivity].
    apply initOK_iff in E; unfold defaults_in_range in E; lra. }
  assert (Hm : main d = Exit ["Initialization failed!"%string] 1%Z)
    by (unfold main; rewrite Hi; reflexivity).
  repeat split; try assumption.
  - intros pvdb; rewrite Hm; discriminate.
  - intros evs; unfold served; rewrite Hm; reflexivity.
Qed.

Lemma startup_validation_witness :
  default_V_sim overvoltage_defaults > max_voltage /\
  main overvoltage_defaults = Exit ["Initialization failed!"%string] 1%Z /\
  served overvoltage_defaults [Tick] = None.
Proof.
  assert (H : default_V_sim overvoltage_defaults > max_voltage)
    by (cbn; generalize max_voltage_lt_64; lra).
  split; [exact H |].
  destruct (startup_validation overvoltage_defaults (or_introl (or_intror H)))
    as (_ & Hm & _ & Hs).
  split; [exact Hm | apply Hs].
Defined.

(** With the three defaults in range the process does start, on the
    instance built by [__init__]. *)
Lemma startup_accepts (d : pvdefaults) :
  defaults_in_range d -> main d = Run (BatteryChargeIOC d).
Proof. intros H; apply main_run_iff; auto. Qed.

(** ** A served run through the start of an eclipse *)

(** The charge model completes whenever it is not discharging at voltage 0. *)
Lemma charge_update_completes (self : ioc) :
  0 <= Solar_power self - load_power_const \/ V_sim self <> 0 ->
  exists self', charge_update self = Ok self'.
Proof.
  intros H.
  destruct (Rtotal_order (Solar_power self - load_power_const) 0) as [Hp | [Hp | Hp]].
  - destruct H as [H | H]; [lra |].
    eexists; apply charge_update_discharging; assumption.
  - exists self; apply charge_update_idle; auto.
  - destruct (Rlt_le_dec (V_sim self) (V_target self)) as [Hv | Hv].
    + eexists; apply charge_update_charging; assumption.
    + exists self; apply charge_update_idle; auto.
Qed.

Lemma served_into_eclipse :
  exists self,
    served source_defaults [Put_Eclipse (Str "Eclipse"); Tick; Tick] = Some (Ok self) /\
    Eclipse self = 1%Z /\
    Solar_power self = 110 * cos (0.5 * PI * (1 / 3600)).
Proof.
  unfold served; rewrite main_source_defaults; cbn [run_events step bind].
  (* the external write *)
  assert (E0 : write_Eclipse (Str "Eclipse") (running_ioc 32 34 110 0)
               = commit_Eclipse 1 (set_eclipse_begin 0 (running_ioc 32 34 110 0))).
  { unfold write_Eclipse.
    rewrite (Eclipse_putter_requests _ _ 1) by constructor.
    unfold eclipse_transition; cbn; unfold commit_Eclipse, set_eclipse_begin; cbn.
    f_equal; f_equal; lra. }
  rewrite E0; set (s0 := commit_Eclipse 1 _).
  (* first iteration: phase 0 *)
  destruct (charge_update_completes s0) as [s1 H1];
    [left; cbn; unfold load_power_const; lra |].
  destruct (charge_update_frame _ _ H1) as (_ & _ & _ & S1 & F1 & _ & T1 & D1 & I1 & B1).
  assert (U1 : eclipse_update s1 = Ok s1).
  { apply (eclipse_update_not_started s1 0).
    - rewrite F1; reflexivity.
    - rewrite B1; reflexivity.
    - rewrite D1; cbn; lra.
    - rewrite T1, D1; cbn; lra. }
  unfold loop_body at 1; rewrite H1; cbn [bind]; rewrite U1; cbn [bind].
  set (s2 := set_sim_time _ s1).
  (* second iteration: phase 1/3600 *)
  destruct (charge_update_completes s2) as [s3 H3];
    [left; cbn; rewrite S1; cbn; unfold load_power_const; lra |].
  destruct (charge_update_frame _ _ H3) as (_ & _ & _ & S3 & F3 & _ & T3 & D3 & I3 & B3).
  assert (U3 : eclipse_update s3
               = Ok (write_Solar_power
                       (eclipse_entering (init_solar_power s3)
                          ((sim_time s3 - 0) / eclipse_half_duration s3)) s3)).
  { apply (eclipse_update_entering s3 0).
    - rewrite F3; cbn; rewrite F1; reflexivity.
    - rewrite B3; cbn; rewrite B1; reflexivity.
    - rewrite D3; cbn; rewrite D1; cbn; lra.
    - rewrite T3, D3; cbn; rewrite T1, D1; cbn; unfold sim_interval; lra. }
  unfold loop_body; rewrite H3; cbn [bind]; rewrite U3; cbn [bind].
  eexists; split; [reflexivity |]; cbn; split.
  - rewrite F3; cbn; rewrite F1; reflexivity.
  - unfold eclipse_entering; rewrite I3, T3, D3; cbn; rewrite I1, T1, D1; cbn.
    unfold sim_interval; f_equal; [lra | f_equal; lra].
Qed.

Lemma eclipse_transitions_witness :
  (Eclipse_putter (running_ioc 32 34 110 0) (Str "Eclipse")
     = (set_eclipse_begin (sim_time (running_ioc 32 34 110 0)) (running_ioc 32 34 110 0),
        1%Z) /\
   eclipse_begin (write_Eclipse (Str "Eclipse") (running_ioc 32 34 110 0))
     = Some (sim_time (running_ioc 32 34 110 0)) /\
   Eclipse (write_Eclipse (Str "Eclipse") (running_ioc 32 34 110 0)) = 1%Z /\
   Solar_power (write_Eclipse (Str "Eclipse") (running_ioc 32 34 110 0))
     = Solar_power (running_ioc 32 34 110 0)) /\
  (Solar_power (write_Eclipse (Str "Non-Eclipse") (write_Solar_power 55 (eclipsed_ioc 1800)))
     = init_solar_power (write_Solar_power 55 (eclipsed_ioc 1800)) /\
   Eclipse (write_Eclipse (Str "Non-Eclipse") (write_Solar_power 55 (eclipsed_ioc 1800)))
     = 0%Z) /\
  (exists self,
      served source_defaults [Put_Eclipse (Str "Eclipse"); Tick; Tick] = Some (Ok self) /\
      Solar_power self = 110 * cos (0.5 * PI * (1 / 3600)) /\
      Solar_power (write_Eclipse (Int 0) self) = default_Solar_power source_defaults) /\
  (Eclipse_putter (eclipsed_ioc 1800) (Float 1.0) = (eclipsed_ioc 1800, 1%Z) /\
   write_Eclipse (Float 1.0) (eclipsed_ioc 1800) = eclipsed_ioc 1800).
Proof.
  split; [| split; [| split]].
  - apply (proj1 eclipse_transitions (running_ioc 32 34 110 0) (Str "Eclipse")
             eq_refl requests_name_1).
  - destruct (proj1 (proj2 eclipse_transitions)
                (write_Solar_power 55 (eclipsed_ioc 1800)) (Str "Non-Eclipse")
                eq_refl requests_name_0) as (_ & Hs & Hf & _).
    split; [exact Hs | exact Hf].
  - destruct served_into_eclipse as (self & Hs & Hf & Hp).
    exists self; split; [exact Hs | split; [exact Hp |]].
    apply (proj1 (proj2 (proj2 eclipse_transitions))
             source_defaults _ self (Int 0) Hs Hf requests_int_0).
  - assert (Hr : requests (Float 1.0) 1) by (constructor; lra).
    apply (proj2 (proj2 (proj2 eclipse_transitions))
             (eclipsed_ioc 1800) (Float 1.0) 1%Z Hr eq_refl).
Defined.

(** ** Reaching voltage 0 in the discharge branch *)

Lemma run_events_app (evs1 evs2 : list event) (self : ioc) :
  run_events self (evs1 ++ evs2)
  = (self' <- run_events self evs1 ;; run_events self' evs2).
Proof.
  revert self; induction evs1 as [| e evs1 IH]; intros self; cbn [app run_events bind].
  - reflexivity.
  - destruct (step self e) as [s1 | x]; cbn [bind]; [apply IH | reflexivity].
Qed.

Lemma run_events_ticks (n : nat) (self : ioc) :
  run_events self (repeat Tick n) = V_sim_startup n self.
Proof.
  revert self; induction n as [| n IH]; intros self; cbn [repeat run_events V_sim_startup step].
  - reflexivity.
  - destruct (loop_body self) as [s1 | x]; cbn [bind]; [apply IH | reflexivity].
Qed.

(** With target voltage 0 the charge model never charges: it raises, or
    leaves the voltage where it was or lower. *)
Lemma charge_update_target_0 (self : ioc) :
  V_target self = 0 -> 0 <= V_sim self ->
  charge_update self = Raise ZeroDivisionError \/
  exists self', charge_update self = Ok self' /\ 0 <= V_sim self' <= V_sim self.
Proof.
  intros Ht Hv.
  destruct (Rtotal_order (Solar_power self - load_power_const) 0) as [Hp | [Hp | Hp]].
  - destruct (Req_dec (V_sim self) 0) as [Hz | Hz].
    + left; apply charge_update_discharging_at_zero; assumption.
    + right; eexists; split; [apply charge_update_discharging; assumption |].
      cbn; generalize (deltaV_of_neg _ (V_sim self) Hp); intros Hd.
      split; [apply Rmax_r | apply Rmax_lub; lra].
  - right; exists self; split; [apply charge_update_idle; auto | lra].
  - right; exists self; split; [apply charge_update_idle; right; lra | lra].
Qed.

(** At solar power 0 and a voltage in [[0, 34]] the charge model raises
    (voltage 0) or lowers the voltage by at least 0.003, down to 0. *)
Lemma charge_update_dark (self : ioc) :
  Solar_power self = 0 -> 0 <= V_sim self <= 34 ->
  (V_sim self = 0 /\ charge_update self = Raise ZeroDivisionError) \/
  (V_sim self <> 0 /\
   exists self', charge_update self = Ok self' /\
                 0 <= V_sim self' <= Rmax (V_sim self - 0.003) 0).
Proof.
  intros Hs Hv.
  assert (Hp : Solar_power self - load_power_const < 0)
    by (rewrite Hs; unfold load_power_const; lra).
  destruct (Req_dec (V_sim self) 0) as [Hz | Hz].
  { left; split; [assumption | apply charge_update_discharging_at_zero; assumption]. }
  right; split; [assumption |].
  eexists; split; [apply charge_update_discharging; assumption |].
  cbn; split; [apply Rmax_r |].
  apply Rle_max_compat_r.
  assert (Hd : deltaV_of (Solar_power self - load_power_const) (V_sim self) <= - 0.003).
  { unfold deltaV_of; rewrite Hs, deltaT_eq.
    unfold load_power_const, battery_nominal_voltage, model_constant.
    set (x := exp (V_sim self / 34)).
    assert (Hx0 : 0 < x) by apply exp_pos.
    assert (Hx3 : x <= 3).
    { apply Rle_trans with (exp 1); [| apply exp_le_3].
      destruct (Req_dec (V_sim self / 34) 1) as [He | Hne];
        [unfold x; rewrite He; apply Rle_refl |].
      left; apply exp_increasing; lra. }
    assert (Hi : / (80 * 3) <= / (80 * x)) by (apply Rinv_le_contravar; lra).
    unfold Rdiv; nra. }
  lra.
Qed.

Lemma loop_body_charge_raises (self : ioc) (e : exn) :
  charge_update self = Raise e -> loop_body self = Raise e.
Proof. intros H; unfold loop_body; rewrite H; reflexivity. Qed.

(** One iteration in the first half of the eclipse (phase at most 1). *)
Lemma tick_eclipsing (t0 v0 : R) (k : nat) (self : ioc) :
  eclipsing t0 k v0 self -> INR k <= 3600 ->
  loop_body self = Raise ZeroDivisionError \/
  exists self', loop_body self = Ok self' /\ eclipsing t0 (S k) v0 self' /\
                (INR k = 3600 -> Solar_power self' = 0).
Proof.
  intros [Hf Hb Ht Hd Hg Hv] Hk.
  destruct (charge_update_target_0 self Hg (proj1 Hv)) as [Hr | (s1 & H1 & Hv1)].
  { left; apply loop_body_charge_raises; assumption. }
  right.
  destruct (charge_update_frame _ _ H1) as (_ & _ & G1 & S1 & F1 & _ & T1 & D1 & I1 & B1).
  assert (Hf1 : Eclipse s1 = 1%Z) by congruence.
  assert (Hb1 : eclipse_begin s1 = Some t0) by congruence.
  assert (Hd1 : eclipse_half_duration s1 <> 0) by (rewrite D1, Hd; lra).
  assert (Hph : (sim_time s1 - t0) / eclipse_half_duration s1 = INR k / 3600).
  { rewrite T1, D1, Ht, Hd; f_equal; ring. }
  generalize (pos_INR k); intros Hk0.
  unfold loop_body; rewrite H1; cbn [bind].
  destruct (Req_dec (INR k) 0) as [Hz | Hz].
  - rewrite (eclipse_update_not_started s1 t0 Hf1 Hb1 Hd1) by (rewrite Hph, Hz; lra).
    cbn [bind]; eexists; split; [reflexivity | split].
    + split; cbn -[INR]; try congruence.
      * rewrite T1, Ht, S_INR; unfold sim_interval; ring.
      * lra.
    + intros E; lra.
  - rewrite (eclipse_update_entering s1 t0 Hf1 Hb1 Hd1) by (rewrite Hph; lra).
    cbn [bind]; eexists; split; [reflexivity | split].
    + split; cbn -[INR]; try congruence.
      * rewrite T1, Ht, S_INR; unfold sim_interval; ring.
      * lra.
    + intros E; cbn; rewrite Hph, E; unfold eclipse_entering.
      replace (3600 / 3600) with 1 by lra.
      rewrite cos_half_PI; ring.
Qed.

(** The iterations of the first half, one after the other. *)
Lemma ticks_eclipsing (t0 v0 : R) (n k : nat) (self : ioc) :
  eclipsing t0 k v0 self -> INR (k + n) <= 3600 ->
  V_sim_startup n self = Raise ZeroDivisionError \/
  exists self', V_sim_startup n self = Ok self' /\ eclipsing t0 (k + n) v0 self'.
Proof.
  revert k self; induction n as [| n IH]; intros k self He Hk; cbn [V_sim_startup].
  - right; exists self; split; [reflexivity |].
    rewrite Nat.add_0_r; assumption.
  - assert (Hk' : INR k <= 3600).
    { apply Rle_trans with (INR (k + S n)); [apply le_INR; lia | assumption]. }
    destruct (tick_eclipsing _ _ _ _ He Hk') as [Hr | (s1 & H1 & He1 & _)].
    + left; rewrite Hr; reflexivity.
    + rewrite H1; cbn [bind].
      replace (k + S n)%nat with (S k + n)%nat in * by lia.
      apply IH; assumption.
Qed.

(** One iteration just after phase 1, with the solar power at 0. *)
Lemma tick_dark (t0 v0 : R) (k : nat) (self : ioc) :
  eclipsing t0 k v0 self -> 3600 < INR k <= 7200 ->
  Solar_power self = 0 -> v0 <= 34 ->
  (V_sim self = 0 /\ loop_body self = Raise ZeroDivisionError) \/
  (V_sim self <> 0 /\
   exists self', loop_body self = Ok self' /\
                 eclipsing t0 (S k) (Rmax (v0 - 0.003) 0) self').
Proof.
  intros [Hf Hb Ht Hd Hg Hv] Hk Hs H34.
  destruct (charge_update_dark self Hs) as [[Hz Hr] | (Hz & s1 & H1 & Hv1)]; [lra | |].
  { left; split; [assumption | apply loop_body_charge_raises; assumption]. }
  right; split; [assumption |].
  destruct (charge_update_frame _ _ H1) as (_ & _ & G1 & S1 & F1 & _ & T1 & D1 & I1 & B1).
  assert (Hf1 : Eclipse s1 = 1%Z) by congruence.
  assert (Hb1 : eclipse_begin s1 = Some t0) by congruence.
  assert (Hd1 : eclipse_half_duration s1 <> 0) by (rewrite D1, Hd; lra).
  assert (Hph : (sim_time s1 - t0) / eclipse_half_duration s1 = INR k / 3600).
  { rewrite T1, D1, Ht, Hd; f_equal; ring. }
  unfold loop_body; rewrite H1; cbn [bind].
  rewrite (eclipse_update_leaving s1 t0 Hf1 Hb1 Hd1) by (rewrite Hph; lra).
  cbn [bind]; eexists; split; [reflexivity |].
  split; cbn -[INR]; try congruence.
  - rewrite T1, Ht, S_INR; unfold sim_interval; ring.
  - split; [lra |].
    apply Rle_trans with (Rmax (V_sim self - 0.003) 0); [lra |].
    apply Rle_max_compat_r; lra.
Qed.

Lemma INR_3600 : INR 3600 = 3600.
Proof. rewrite INR_IZR_INZ; reflexivity. Qed.

Lemma write_Eclipse_enter (self : ioc) :
  Eclipse self = 0%Z ->
  write_Eclipse (Int 1) self = commit_Eclipse 1 (set_eclipse_begin (sim_time self) self).
Proof.
  intros Hf; unfold write_Eclipse.
  rewrite (Eclipse_putter_requests _ _ 1) by constructor.
  unfold eclipse_transition; rewrite Hf; reflexivity.
Qed.

Lemma write_Eclipse_leave (self : ioc) :
  Eclipse self = 1%Z ->
  write_Eclipse (Int 0) self
  = commit_Eclipse 0 (write_Solar_power (init_solar_power self) self).
Proof.
  intros Hf; unfold write_Eclipse.
  rewrite (Eclipse_putter_requests _ _ 0) by constructor.
  unfold eclipse_transition; rewrite Hf; reflexivity.
Qed.

(** One round either ends in [ZeroDivisionError] or, from a positive
    voltage, lowers the voltage by at least 0.003 (down to 0). *)
Lemma drain_cycle_step (self : ioc) :
  drained_target self ->
  run_events self drain_cycle = Raise ZeroDivisionError \/
  (0 < V_sim self /\
   exists self', run_events self drain_cycle = Ok self' /\
                 drained_target self' /\
                 V_sim self' <= Rmax (V_sim self - 0.003) 0).
Proof.
  intros [Hf Hg Hd Hv].
  unfold drain_cycle; cbn [run_events step bind].
  rewrite (write_Eclipse_enter _ Hf).
  set (s1 := commit_Eclipse 1 _).
  assert (He1 : eclipsing (sim_time self) 0 (V_sim self) s1).
  { split; cbn -[INR]; try assumption; try reflexivity; [cbn; ring | lra]. }
  rewrite run_events_app, run_events_ticks.
  generalize INR_3600; remember 3600%nat as N eqn:EN; clear EN; intros HN.
  destruct (ticks_eclipsing _ _ N 0 s1 He1) as [Hr | (s2 & H2 & He2)].
  { cbn [Nat.add]; lra. }
  { left; rewrite Hr; reflexivity. }
  rewrite H2; cbn [bind run_events step Nat.add] in *.
  destruct (tick_eclipsing _ _ _ _ He2) as [Hr | (s3 & H3 & He3 & Hs3)]; [lra | |].
  { left; rewrite Hr; reflexivity. }
  rewrite H3; cbn [bind].
  assert (H3v : 0 <= V_sim s3 <= V_sim self) by apply He3.
  destruct (tick_dark _ _ _ _ He3) as [[Hz Hr] | (Hz & s4 & H4 & He4)];
    [rewrite S_INR; lra | apply Hs3; assumption | lra | |].
  { left; rewrite Hr; reflexivity. }
  rewrite H4; cbn [bind].
  right; split; [lra |].
  eexists; split; [reflexivity |].
  destruct He4 as [Hf4 Hb4 Ht4 Hd4 Hg4 Hv4].
  rewrite (write_Eclipse_leave _ Hf4).
  assert (Hm : Rmax (V_sim self - 0.003) 0 <= 34)
    by (apply Rmax_lub; lra).
  split; [split; cbn; try assumption; try reflexivity; lra | cbn; lra].
Qed.

(** Enough rounds end in [ZeroDivisionError]: one more than the number
    of 0.003 V steps that cover the present voltage. *)
Lemma drain_raises (n : nat) (self : ioc) :
  drained_target self -> V_sim self <= INR n * 0.003 ->
  exists m, (m <= S n)%nat /\ run_events self (drain m) = Raise ZeroDivisionError.
Proof.
  revert self; induction n as [| n IH]; intros self Hd Hn.
  - exists 1%nat; split; [lia |]; cbn [drain]; rewrite app_nil_r.
    destruct (drain_cycle_step self Hd) as [Hr | (Hp & _)]; [assumption |].
    cbn [INR] in Hn; lra.
  - destruct (drain_cycle_step self Hd) as [Hr | (Hp & s' & Hs & Hd' & Hv)].
    + exists 1%nat; split; [lia |]; cbn [drain]; rewrite app_nil_r; assumption.
    + destruct (IH s' Hd') as (m & Hle & Hm).
      { apply Rle_trans with (1 := Hv).
        rewrite S_INR in Hn; generalize (pos_INR n); intros H0.
        apply Rmax_lub; lra. }
      exists (S m); split; [lia |].
      cbn [drain]; rewrite run_events_app, Hs; exact Hm.
Qed.

(** From the defaults of the class body, a client that sets the target
    voltage to 0 and then repeats the round brings the loop to a
    discharge at voltage 0, within 11001 rounds. *)
Lemma served_reaches_zero_division :
  exists m,
    (Z.of_nat m <= 11001)%Z /\
    served source_defaults (Put_V_target 0 :: drain m) = Some (Raise ZeroDivisionError).
Proof.
  unfold served; rewrite main_source_defaults; cbn [run_events step bind].
  assert (Hw : write_V_target 0 (running_ioc 32 34 110 0)
               = commit_V_target 0 (running_ioc 32 34 110 0)).
  { unfold write_V_target, V_target_putter.
    rewrite max_min_clamp by (generalize max_voltage_pos; lra).
    unfold clamp; generalize max_voltage_pos; intros Hm.
    destruct (Rlt_dec 0 0); [lra |].
    destruct (Rlt_dec max_voltage 0); [lra | reflexivity]. }
  rewrite Hw.
  set (s := commit_V_target 0 _).
  assert (Hd : drained_target s) by (split; cbn; try reflexivity; lra).
  destruct (drain_raises (Z.to_nat 11000) s Hd) as (m & Hle & Hm).
  { rewrite INR_IZR_INZ, Z2Nat.id by lia; cbn; lra. }
  exists m; split; [lia |].
  rewrite Hm; reflexivity.
Qed.

Lemma empty_battery_defaults_in_range : defaults_in_range empty_battery_defaults.
Proof.
  unfold defaults_in_range; cbn; unfold solar_power_max.
  generalize max_voltage_gt_34; lra.
Qed.

(** C2, as stated, fails: it promises a current and a floored voltage
    for every iteration with negative net power, but at voltage 0 the
    division [charging_power / Vsim_value] raises and nothing is written.
    The instance built from defaults that pass every check of [__init__]
    (voltage 0, solar power 0) is such a state, and it is served. *)
Lemma discharging_branch_counterexample :
  Solar_power (BatteryChargeIOC empty_battery_defaults) - load_power_const < 0 /\
  V_sim (BatteryChargeIOC empty_battery_defaults) = 0 /\
  served empty_battery_defaults []
    = Some (Ok (BatteryChargeIOC empty_battery_defaults)) /\
  charge_update (BatteryChargeIOC empty_battery_defaults) = Raise ZeroDivisionError /\
  loop_body (BatteryChargeIOC empty_battery_defaults) = Raise ZeroDivisionError /\
  ~ (forall self : ioc,
        Solar_power self - load_power_const < 0 ->
        exists self',
          charge_update self = Ok self' /\
          I_sim self' = (Solar_power self - load_power_const) / V_sim self /\
          V_sim self' =
            Rmax (V_sim self
                  + (Solar_power self - load_power_const) * deltaT
                    * battery_nominal_voltage
                    / (model_constant * exp (V_sim self / battery_nominal_voltage)))
                 0).
Proof.
  destruct (init_cells empty_battery_defaults) as (E1 & _ & E3 & _).
  assert (Hp : Solar_power (BatteryChargeIOC empty_battery_defaults)
               - load_power_const < 0)
    by (rewrite E3; cbn; unfold load_power_const; lra).
  assert (Hz : V_sim (BatteryChargeIOC empty_battery_defaults) = 0)
    by (rewrite E1; cbn; lra).
  assert (Hc : charge_update (BatteryChargeIOC empty_battery_defaults)
               = Raise ZeroDivisionError)
    by (apply charge_update_discharging_at_zero; assumption).
  split; [exact Hp | split; [exact Hz | split; [| split; [exact Hc | split]]]].
  - unfold served.
    rewrite (startup_accepts _ empty_battery_defaults_in_range); reflexivity.
  - apply loop_body_charge_raises; exact Hc.
  - intros H.
    destruct (H _ Hp) as (self' & Hok & _).
    rewrite Hc in Hok; discriminate.
Qed.

(** C8. The loop does not guard the discharge branch. An iteration at
    voltage 0 and solar power 0 raises [ZeroDivisionError]. An iteration
    at voltage 0.001 and solar power 0 stores the floor 0 as the new
    voltage, and the iteration after it raises. Defaults that pass every
    check of [__init__] (voltage 0, solar power 0) make the first
    iteration of the served loop raise. With the defaults of the class
    body, a client that writes target voltage 0 and then alternates
    eclipse on, 3602 iterations, eclipse off, brings the served loop to
    raise as well, within 11001 rounds. *)
Theorem discharge_branch_unguarded :
  loop_body (running_ioc 0 0 0 0) = Raise ZeroDivisionError /\
  (exists self',
      loop_body (running_ioc 0.001 0 0 0) = Ok self' /\
      V_sim self' = 0 /\
      loop_body self' = Raise ZeroDivisionError) /\
  (defaults_in_range empty_battery_defaults /\
   served empty_battery_defaults [Tick] = Some (Raise ZeroDivisionError)) /\
  (exists m,
      (Z.of_nat m <= 11001)%Z /\
      served source_defaults (Put_V_target 0 :: drain m)
      = Some (Raise ZeroDivisionError)).
Proof.
  split; [| split; [| split]].
  - apply loop_body_charge_raises, charge_update_discharging_at_zero;
      cbn; unfold load_power_const; lra.
  - destruct (charge_update_dark (running_ioc 0.001 0 0 0))
      as [[Hz _] | (_ & s1 & H1 & Hv)]; [reflexivity | cbn; lra | cbn in Hz; lra |].
    destruct (charge_update_frame _ _ H1) as (_ & _ & _ & S1 & F1 & _).
    assert (Hz : V_sim s1 = 0).
    { cbn in Hv; rewrite Rmax_right in Hv by lra; lra. }
    eexists; split; [| split].
    + apply loop_body_off; [cbn; discriminate | exact H1].
    + exact Hz.
    + apply loop_body_charge_raises, charge_update_discharging_at_zero.
      * cbn; rewrite S1; cbn; unfold load_power_const; lra.
      * exact Hz.
  - split; [apply empty_battery_defaults_in_range |].
    unfold served.
    rewrite (startup_accepts _ empty_battery_defaults_in_range).
    cbn [run_events step].
    rewrite loop_body_charge_raises with (e := ZeroDivisionError); [reflexivity |].
    destruct (init_cells empty_battery_defaults) as (E1 & _ & E3 & _).
    apply charge_update_discharging_at_zero.
    + rewrite E3; cbn; unfold load_power_const; lra.
    + rewrite E1; cbn; lra.
  - apply served_reaches_zero_division.
Qed.

(** * Further properties of the simulator *)

(** ** The branch that leaves voltage and current alone *)

(** X1. When the net power is exactly 0, or positive with the voltage
    already at or above the target, the charge model writes nothing: the
    simulated voltage and the simulated current keep the values of the
    previous iteration (the current is not reset to 0). Outside eclipse
    the whole iteration then only advances the simulated clock by 1. *)
Theorem idle_branch_keeps_cells (self : ioc) :
  Solar_power self - load_power_const = 0 \/
  (Solar_power self - load_power_const > 0 /\ V_target self <= V_sim self) ->
  charge_update self = Ok self /\
  (Eclipse self <> 1%Z ->
   loop_body self = Ok (set_sim_time (sim_time self + 1) self)).
Proof.
  intros H.
  assert (Hc : charge_update self = Ok self) by (apply charge_update_idle; exact H).
  split; [exact Hc |].
  intros Hf; rewrite (loop_body_off _ _ Hf Hc); reflexivity.
Qed.

Lemma idle_branch_keeps_cells_witness :
  charge_update (write_I_sim (-3) (running_ioc 34 34 110 0))
    = Ok (write_I_sim (-3) (running_ioc 34 34 110 0)) /\
  loop_body (write_I_sim (-3) (running_ioc 34 34 110 0))
    = Ok (set_sim_time (sim_time (write_I_sim (-3) (running_ioc 34 34 110 0)) + 1)
            (write_I_sim (-3) (running_ioc 34 34 110 0))).
Proof.
  assert (H : Solar_power (write_I_sim (-3) (running_ioc 34 34 110 0)) - load_power_const = 0 \/
              (Solar_power (write_I_sim (-3) (running_ioc 34 34 110 0)) - load_power_const > 0 /\
               V_target (write_I_sim (-3) (running_ioc 34 34 110 0))
               <= V_sim (write_I_sim (-3) (running_ioc 34 34 110 0)))).
  { right; cbn; unfold load_power_const; lra. }
  destruct (idle_branch_keeps_cells _ H) as [Hc Hl].
  split; [exact Hc | apply Hl; cbn; discriminate].
Defined.

(** ** Direction of a charge-model step *)

(** X2. From a voltage in [[0, max_voltage]]: a charging step never
    lowers the voltage and never passes the target; a discharging step
    from a positive voltage never raises the voltage, keeps it at or above
    0, and stores a negative current. *)
Theorem charge_step_direction (self : ioc) :
  0 <= V_sim self <= max_voltage ->
  (Solar_power self - load_power_const > 0 -> V_sim self < V_target self ->
   exists self', charge_update self = Ok self' /\
                 V_sim self <= V_sim self' <= V_target self) /\
  (Solar_power self - load_power_const < 0 -> 0 < V_sim self ->
   exists self', charge_update self = Ok self' /\
                 0 <= V_sim self' <= V_sim self /\
                 I_sim self' < 0).
Proof.
  intros Hr; split.
  - intros Hp Hv; eexists; split; [apply charge_update_charging; assumption |].
    cbn; generalize (deltaV_of_pos _ (V_sim self) Hp); intros Hd.
    split; [apply Rmin_glb; lra | apply Rmin_r].
  - intros Hp Hv; eexists; split;
      [apply charge_update_discharging; [assumption | lra] |].
    cbn; generalize (deltaV_of_neg _ (V_sim self) Hp); intros Hd.
    split; [split; [apply Rmax_r | apply Rmax_lub; lra] |].
    unfold Rdiv.
    assert (Hi : 0 < / V_sim self) by (apply Rinv_0_lt_compat; assumption).
    nra.
Qed.

Lemma charge_step_direction_witness :
  (exists self', charge_update (running_ioc 32 34 110 0) = Ok self' /\
                 V_sim (running_ioc 32 34 110 0) <= V_sim self'
                 <= V_target (running_ioc 32 34 110 0)) /\
  (exists self', charge_update (running_ioc 32 34 0 0) = Ok self' /\
                 0 <= V_sim self' <= V_sim (running_ioc 32 34 0 0) /\
                 I_sim self' < 0).
Proof.
  assert (H1 : 0 <= V_sim (running_ioc 32 34 110 0) <= max_voltage)
    by (cbn; generalize max_voltage_gt_34; lra).
  assert (H2 : 0 <= V_sim (running_ioc 32 34 0 0) <= max_voltage)
    by (cbn; generalize max_voltage_gt_34; lra).
  split.
  - apply (proj1 (charge_step_direction (running_ioc 32 34 110 0) H1)).
    + cbn; unfold load_power_const; lra.
    + cbn; lra.
  - apply (proj2 (charge_step_direction (running_ioc 32 34 0 0) H2)).
    + cbn; unfold load_power_const; lra.
    + cbn; lra.
Defined.

(** ** Energy bookkeeping of the charge model *)

Lemma energy_increasing (a b : R) : a < b -> energy a < energy b.
Proof.
  intros H; unfold energy, model_constant, battery_nominal_voltage.
  assert (He : exp (a / 34) < exp (b / 34)) by (apply exp_increasing; lra).
  lra.
Qed.

Lemma energy_monotone (a b : R) : a <= b -> energy a <= energy b.
Proof.
  intros [H | ->]; [left; apply energy_increasing; assumption | apply Rle_refl].
Qed.





(** X4. [max_voltage] is the voltage at which the stored energy of the
    model equals [battery_capacity]; the energy at voltage 0 is 0 and the
    energy grows strictly with the voltage, so a voltage is in
    [[0, max_voltage]] exactly when its energy is in
    [[0, battery_capacity]]. *)
Theorem max_voltage_is_full_capacity :
  energy max_voltage = battery_capacity /\
  energy 0 = 0 /\
  (forall a b : R, a < b -> energy a < energy b) /\
  (forall V : R,
      0 <= V <= max_voltage <-> 0 <= energy V <= battery_capacity).
Proof.
  assert (Hfull : energy max_voltage = battery_capacity).
  { unfold energy, max_voltage, battery_capacity, model_constant, battery_nominal_voltage.
    replace (ln (150 / 80 + 1) * 34 / 34) with (ln (150 / 80 + 1)) by (field; lra).
    rewrite exp_ln by lra; lra. }
  assert (Hzero : energy 0 = 0).
  { unfold energy, battery_nominal_voltage.
    replace (0 / 34) with 0 by lra; rewrite exp_0; ring. }
  split; [exact Hfull | split; [exact Hzero | split; [exact energy_increasing |]]].
  intros V; split.
  - intros [H0 H1]; apply energy_monotone in H0, H1; lra.
  - intros [H0 H1]; split.
    + destruct (Rle_lt_dec 0 V) as [H | H]; [assumption |].
      apply energy_increasing in H; lra.
    + destruct (Rle_lt_dec V max_voltage) as [H | H]; [assumption |].
      apply energy_increasing in H; lra.
Qed.

Lemma max_voltage_is_full_capacity_witness : energy 0 < energy 34.
Proof.
  apply (proj1 (proj2 (proj2 max_voltage_is_full_capacity)) 0 34); lra.
Defined.

(** ** Charging reaches the target *)

Lemma V_sim_startup_add (n m : nat) (self : ioc) :
  V_sim_startup (n + m) self = (self' <- V_sim_startup n self ;; V_sim_startup m self').
Proof.
  revert self; induction n as [| n IH]; intros self; cbn [Nat.add V_sim_startup bind].
  - reflexivity.
  - destruct (loop_body self) as [s1 | e]; cbn [bind]; [apply IH | reflexivity].
Qed.

(** For a positive net power the increment shrinks as the voltage grows. *)
Lemma deltaV_of_antitone (p V T : R) :
  0 < p -> V <= T -> deltaV_of p T <= deltaV_of p V.
Proof.
  intros Hp Hv; unfold deltaV_of; rewrite deltaT_eq.
  unfold battery_nominal_voltage, model_constant.
  assert (He : exp (V / 34) <= exp (T / 34)).
  { destruct Hv as [Hv | ->]; [left; apply exp_increasing; lra | apply Rle_refl]. }
  generalize (exp_pos (V / 34)); intros H0.
  assert (Hi : / (80 * exp (T / 34)) <= / (80 * exp (V / 34)))
    by (apply Rinv_le_contravar; lra).
  unfold Rdiv; nra.
Qed.

(** One charging iteration outside eclipse. *)
Lemma loop_body_charging (self : ioc) :
  Eclipse self <> 1%Z ->
  Solar_power self - load_power_const > 0 -> V_sim self < V_target self ->
  exists self',
    loop_body self = Ok self' /\
    V_sim self' = Rmin (V_sim self
                        + deltaV_of (Solar_power self - load_power_const) (V_sim self))
                       (V_target self) /\
    V_target self' = V_target self /\ Solar_power self' = Solar_power self /\
    Eclipse self' = Eclipse self.
Proof.
  intros Hf Hp Hv; eexists; split.
  - apply loop_body_off; [exact Hf | apply charge_update_charging; assumption].
  - cbn; auto.
Qed.

(** Iterations at the target, outside eclipse, change the clock only. *)
Lemma loop_at_target (m : nat) (self : ioc) :
  Eclipse self <> 1%Z ->
  Solar_power self - load_power_const > 0 -> V_target self <= V_sim self ->
  exists self', V_sim_startup m self = Ok self' /\ V_sim self' = V_sim self /\
                I_sim self' = I_sim self.
Proof.
  revert self; induction m as [| m IH]; intros self Hf Hp Hv; cbn [V_sim_startup].
  - exists self; auto.
  - assert (Hc : charge_update self = Ok self) by (apply charge_update_idle; auto).
    rewrite (loop_body_off _ _ Hf Hc); cbn [bind].
    destruct (IH (set_sim_time (sim_time self + sim_interval) self))
      as (s' & Hs & Hv' & Hi'); try assumption.
    exists s'; auto.
Qed.

Lemma charging_reaches_target (k : nat) (self : ioc) :
  Eclipse self <> 1%Z ->
  Solar_power self - load_power_const > 0 -> V_sim self <= V_target self ->
  V_target self - V_sim self
  <= INR k * deltaV_of (Solar_power self - load_power_const) (V_target self) ->
  exists n self',
    (n <= k)%nat /\ V_sim_startup n self = Ok self' /\
    V_sim self' = V_target self /\ V_target self' = V_target self /\
    Solar_power self' = Solar_power self /\ Eclipse self' = Eclipse self.
Proof.
  revert self; induction k as [| k IH]; intros self Hf Hp Hv Hk.
  - exists 0%nat, self; cbn [V_sim_startup INR] in *.
    repeat split; try reflexivity; lra.
  - destruct Hv as [Hv | Hv].
    2: { exists 0%nat, self; cbn [V_sim_startup]; repeat split; auto; lia. }
    destruct (loop_body_charging self Hf Hp Hv) as (s1 & H1 & V1 & T1 & S1 & F1).
    generalize (deltaV_of_antitone _ (V_sim self) (V_target self) Hp (Rlt_le _ _ Hv));
      intros Ha.
    generalize (deltaV_of_pos _ (V_target self) Hp); intros Hd.
    destruct (IH s1) as (n & s' & Hn & Hs & V' & T' & S' & F').
    + rewrite F1; exact Hf.
    + rewrite S1; exact Hp.
    + rewrite V1, T1; apply Rmin_r.
    + rewrite V1, T1, S1; rewrite S_INR in Hk.
      unfold Rmin; destruct (Rle_dec _ _); [lra |].
      generalize (pos_INR k); nra.
    + exists (S n), s'; cbn [V_sim_startup]; rewrite H1; cbn [bind].
      repeat split; try congruence; lia.
Qed.

Lemma exp_max_voltage : exp (max_voltage / battery_nominal_voltage) = 2.875.
Proof.
  unfold max_voltage, battery_capacity, model_constant, battery_nominal_voltage.
  replace (ln (150 / 80 + 1) * 34 / 34) with (ln (150 / 80 + 1)) by (field; lra).
  rewrite exp_ln by lra; lra.
Qed.

(** With at least 1 W of net power and the voltage not above
    [max_voltage], the increment is at least 0.00004 V. *)
Lemma deltaV_of_at_least (p V : R) :
  1 <= p -> V <= max_voltage -> 0.00004 <= deltaV_of p V.
Proof.
  intros Hp Hv.
  apply Rle_trans with (deltaV_of p max_voltage);
    [| apply deltaV_of_antitone; lra].
  unfold deltaV_of; rewrite exp_max_voltage, deltaT_eq.
  unfold battery_nominal_voltage, model_constant.
  unfold Rdiv; rewrite Rinv_mult.
  nra.
Qed.

(** X5. Outside eclipse, with a net power of at least 1 W and
    0 <= voltage <= target <= max_voltage:
    every iteration below the target raises the voltage by at least
    0.00004 V (or to the target), so the loop brings the simulated voltage
    to exactly the target after finitely many iterations and keeps it
    there in every later iteration. *)
Theorem charging_converges (self : ioc) :
  Eclipse self <> 1%Z ->
  1 <= Solar_power self - load_power_const ->
  0 <= V_sim self <= V_target self -> V_target self <= max_voltage ->
  (V_sim self < V_target self ->
   exists self', loop_body self = Ok self' /\
                 Rmin (V_sim self + 0.00004) (V_target self) <= V_sim self'
                 <= V_target self) /\
  exists n : nat, forall m : nat,
    exists self', V_sim_startup (n + m) self = Ok self' /\
                  V_sim self' = V_target self.
Proof.
  intros Hf Hp1 Hv Ht.
  assert (Hp : Solar_power self - load_power_const > 0) by lra.
  split.
  - intros Hlt.
    destruct (loop_body_charging self Hf Hp Hlt) as (s1 & H1 & V1 & _).
    exists s1; split; [exact H1 |].
    rewrite V1; split; [| apply Rmin_r].
    apply Rle_min_compat_r.
    generalize (deltaV_of_at_least _ (V_sim self) Hp1); lra.
  - generalize (deltaV_of_pos _ (V_target self) Hp); intros Hd.
    destruct (INR_archimed _ (V_target self - V_sim self) Hd) as [k Hk].
    destruct (charging_reaches_target k self Hf Hp (proj2 Hv))
      as (n & s1 & _ & H1 & V1 & T1 & S1 & F1); [lra |].
    exists n; intros m.
    destruct (loop_at_target m s1) as (s' & Hs' & V' & _).
    + rewrite F1; exact Hf.
    + rewrite S1; exact Hp.
    + rewrite V1, T1; apply Rle_refl.
    + exists s'; rewrite V_sim_startup_add, H1; cbn [bind].
      split; [exact Hs' | congruence].
Qed.

Lemma charging_converges_witness :
  (exists self', loop_body (running_ioc 32 34 110 0) = Ok self' /\
                 Rmin (V_sim (running_ioc 32 34 110 0) + 0.00004)
                      (V_target (running_ioc 32 34 110 0)) <= V_sim self'
                 <= V_target (running_ioc 32 34 110 0)) /\
  exists n : nat, forall m : nat,
    exists self', V_sim_startup (n + m) (running_ioc 32 34 110 0) = Ok self' /\
                  V_sim self' = V_target (running_ioc 32 34 110 0).
Proof.
  assert (Hf : Eclipse (running_ioc 32 34 110 0) <> 1%Z) by (cbn; discriminate).
  assert (Hp : 1 <= Solar_power (running_ioc 32 34 110 0) - load_power_const)
    by (cbn; unfold load_power_const; lra).
  assert (Hv : 0 <= V_sim (running_ioc 32 34 110 0) <= V_target (running_ioc 32 34 110 0))
    by (cbn; lra).
  assert (Ht : V_target (running_ioc 32 34 110 0) <= max_voltage)
    by (cbn; generalize max_voltage_gt_34; lra).
  split.
  - apply (proj1 (charging_converges (running_ioc 32 34 110 0) Hf Hp Hv Ht)).
    cbn; lra.
  - apply (proj2 (charging_converges (running_ioc 32 34 110 0) Hf Hp Hv Ht)).
Defined.

(** ** What each operation leaves alone *)

Lemma write_Eclipse_frame (value : Py.value) (self : ioc) :
  V_real (write_Eclipse value self) = V_real self /\
  I_real (write_Eclipse value self) = I_real self /\
  V_sim (write_Eclipse value self) = V_sim self /\
  I_sim (write_Eclipse value self) = I_sim self /\
  V_target (write_Eclipse value self) = V_target self /\
  initOK (write_Eclipse value self) = initOK self /\
  sim_time (write_Eclipse value self) = sim_time self /\
  eclipse_half_duration (write_Eclipse value self) = eclipse_half_duration self /\
  init_solar_power (write_Eclipse value self) = init_solar_power self.
Proof.
  rewrite write_Eclipse_resolve.
  destruct (resolve (enum_lookup value)) as [i |]; [| tauto].
  destruct (eclipse_transition_cases self i) as [-> | [-> | ->]]; cbn; tauto.
Qed.

Lemma eclipse_update_frame (self self' : ioc) :
  eclipse_update self = Ok self' ->
  V_real self' = V_real self /\ I_real self' = I_real self /\
  V_sim self' = V_sim self /\ I_sim self' = I_sim self /\
  V_target self' = V_target self /\ initOK self' = initOK self /\
  sim_time self' = sim_time self /\
  eclipse_half_duration self' = eclipse_half_duration self /\
  init_solar_power self' = init_solar_power self.
Proof.
  intros Hu.
  destruct (eclipse_update_cases _ _ Hu)
    as [-> | [(tmp & Ht & ->) | [(tmp & Ht & ->) | ->]]]; cbn; try tauto.
  apply write_Eclipse_frame.
Qed.

Lemma loop_body_frame (self self' : ioc) :
  loop_body self = Ok self' ->
  V_real self' = V_real self /\ I_real self' = I_real self /\
  V_target self' = V_target self /\ initOK self' = initOK self /\
  eclipse_half_duration self' = eclipse_half_duration self /\
  init_solar_power self' = init_solar_power self /\
  sim_time self' = sim_time self + 1.
Proof.
  unfold loop_body.
  destruct (charge_update self) as [s1 | e] eqn:E1; cbn [bind]; [| discriminate].
  destruct (eclipse_update s1) as [s2 | e] eqn:E2; cbn [bind]; [| discriminate].
  intros H; inversion H; subst; clear H; cbn.
  destruct (charge_update_frame _ _ E1) as (A1 & A2 & A3 & _ & _ & A6 & A7 & A8 & A9 & _).
  destruct (eclipse_update_frame _ _ E2) as (B1 & B2 & _ & _ & B5 & B6 & B7 & B8 & B9).
  unfold sim_interval; repeat split; congruence.
Qed.

(** X6. The simulated clock counts completed loop iterations: after any
    sequence of events that the served process completes, [sim_time] is
    the number of loop iterations in the sequence; external writes do not
    move it. *)
Theorem sim_time_counts_iterations :
  (forall (evs : list event) (self self' : ioc),
      run_events self evs = Ok self' ->
      sim_time self' = sim_time self + INR (ticks evs)) /\
  (forall (d : pvdefaults) (evs : list event) (self : ioc),
      served d evs = Some (Ok self) -> sim_time self = INR (ticks evs)).
Proof.
  assert (Hrun : forall evs self self',
             run_events self evs = Ok self' ->
             sim_time self' = sim_time self + INR (ticks evs)).
  { induction evs as [| e evs IH]; intros self self'; cbn [run_events].
    - intros H; inversion H; cbn; ring.
    - destruct (step self e) as [s1 | x] eqn:E; cbn [bind]; [| discriminate].
      intros H; rewrite (IH _ _ H).
      destruct e as [| v | v]; cbn [step] in E; cbn [ticks].
      + destruct (loop_body_frame _ _ E) as (_ & _ & _ & _ & _ & _ & ->).
        rewrite S_INR; ring.
      + inversion E; reflexivity.
      + inversion E.
        destruct (write_Eclipse_frame v self) as (_ & _ & _ & _ & _ & _ & -> & _).
        reflexivity. }
  split; [exact Hrun |].
  intros d evs self; unfold served.
  destruct (main d) as [out st | pvdb] eqn:E; [discriminate |].
  intros H; inversion H as [H']; clear H.
  apply main_run_iff in E; destruct E as [_ ->].
  rewrite (Hrun _ _ _ H').
  destruct (init_cells d) as (_ & _ & _ & _ & _ & -> & _); ring.
Qed.

Lemma sim_time_counts_iterations_witness :
  exists self,
    served source_defaults [Put_Eclipse (Str "Eclipse"); Tick; Tick] = Some (Ok self) /\
    sim_time self = INR (ticks [Put_Eclipse (Str "Eclipse"); Tick; Tick]).
Proof.
  destruct served_into_eclipse as (self & Hs & _).
  exists self; split; [exact Hs |].
  apply (proj2 sim_time_counts_iterations source_defaults _ self Hs).
Defined.

(** ** The eclipse onset is always known when it is needed *)

Lemma init_eclipse_begin (d : pvdefaults) :
  defaults_in_range d ->
  eclipse_begin (BatteryChargeIOC d)
  = if (default_Eclipse d =? 1)%Z then Some 0 else None.
Proof.
  intros (H1 & H2 & H3).
  unfold BatteryChargeIOC; cbn [V_sim Solar_power V_target Eclipse sim_time].
  apply range_check_false in H1, H2, H3; rewrite H1, H2, H3.
  destruct (default_Eclipse d =? 1)%Z; cbn; [f_equal; lra | reflexivity].
Qed.

Lemma init_onset_known (d : pvdefaults) :
  defaults_in_range d ->
  default_Eclipse d = 0%Z \/ default_Eclipse d = 1%Z ->
  onset_known (BatteryChargeIOC d).
Proof.
  intros Hd Hf.
  destruct (init_cells d) as (_ & _ & _ & _ & E5 & E6 & E7).
  generalize (init_eclipse_begin d Hd); intros Eb.
  split.
  - rewrite E5; exact Hf.
  - rewrite E5; intros H1; rewrite Eb, H1; discriminate.
  - intros t0; rewrite Eb, E6.
    destruct (default_Eclipse d =? 1)%Z; intros H; inversion H; lra.
  - exact E7.
Qed.

Lemma write_V_target_onset_known (value : R) (self : ioc) :
  onset_known self -> onset_known (write_V_target value self).
Proof. intros [H1 H2 H3 H4]; split; cbn; assumption. Qed.

Lemma write_Eclipse_onset_known (value : Py.value) (self : ioc) :
  onset_known self -> onset_known (write_Eclipse value self).
Proof.
  intros [H1 H2 H3 H4]; rewrite write_Eclipse_resolve.
  destruct (resolve (enum_lookup value)) as [i |] eqn:Er; [| split; assumption].
  apply resolve_some in Er; unfold eclipse_transition.
  destruct Er as [-> | ->], H1 as [Hf | Hf]; rewrite Hf; cbn [Z.eqb Pos.eqb andb].
  - split; cbn; auto; discriminate.
  - split; cbn; auto; discriminate.
  - split; cbn; auto; [discriminate |].
    intros t0 E; inversion E; apply Rle_refl.
  - split; cbn; auto.
Qed.

Lemma charge_update_onset_known (self self' : ioc) :
  onset_known self -> charge_update self = Ok self' -> onset_known self'.
Proof.
  intros [H1 H2 H3 H4] Hc.
  destruct (charge_update_frame _ _ Hc) as (_ & _ & _ & _ & F & _ & T & D & _ & B).
  split; rewrite ?F, ?T, ?D, ?B; assumption.
Qed.

Lemma eclipse_update_onset_known (self self' : ioc) :
  onset_known self -> eclipse_update self = Ok self' -> onset_known self'.
Proof.
  intros Hk Hu.
  destruct (eclipse_update_cases _ _ Hu)
    as [-> | [(tmp & Ht & ->) | [(tmp & Ht & ->) | ->]]].
  - assumption.
  - destruct Hk as [H1 H2 H3 H4]; split; cbn; assumption.
  - destruct Hk as [H1 H2 H3 H4]; split; cbn; assumption.
  - apply write_Eclipse_onset_known; assumption.
Qed.

Lemma loop_body_onset_known (self self' : ioc) :
  onset_known self -> loop_body self = Ok self' -> onset_known self'.
Proof.
  intros Hk; unfold loop_body.
  destruct (charge_update self) as [s1 | e] eqn:E1; cbn [bind]; [| discriminate].
  destruct (eclipse_update s1) as [s2 | e] eqn:E2; cbn [bind]; [| discriminate].
  intros H; inversion H; subst; clear H.
  apply (charge_update_onset_known _ _ Hk) in E1.
  apply (eclipse_update_onset_known _ _ E1) in E2.
  destruct E2 as [H1 H2 H3 H4]; split; cbn; try assumption.
  intros t0 E; specialize (H3 t0 E); unfold sim_interval; lra.
Qed.

Lemma step_onset_known (self self' : ioc) (e : event) :
  onset_known self -> step self e = Ok self' -> onset_known self'.
Proof.
  intros Hk; destruct e as [| v | v]; cbn [step].
  - apply loop_body_onset_known; assumption.
  - intros H; inversion H; apply write_V_target_onset_known; assumption.
  - intros H; inversion H; apply write_Eclipse_onset_known; assumption.
Qed.

Lemma run_events_onset_known (evs : list event) (self self' : ioc) :
  onset_known self -> run_events self evs = Ok self' -> onset_known self'.
Proof.
  revert self; induction evs as [| e evs IH]; intros self Hk; cbn [run_events].
  - intros H; inversion H; subst; assumption.
  - destruct (step self e) as [s1 | x] eqn:E; cbn [bind]; [| discriminate].
    apply IH; apply (step_onset_known _ _ _ Hk E).
Qed.

(** With the onset known the eclipse branch always completes. *)
Lemma eclipse_update_completes (self : ioc) :
  onset_known self -> exists self', eclipse_update self = Ok self'.
Proof.
  intros [H1 H2 H3 H4]; unfold eclipse_update, get_eclipse_begin.
  destruct (Eclipse self =? 1)%Z eqn:Ef; [| eexists; reflexivity].
  apply Z.eqb_eq in Ef; specialize (H2 Ef).
  destruct (eclipse_begin self) as [t0 |]; [| contradiction]; cbn [bind].
  rewrite truediv_ok by (rewrite H4; lra); cbn [bind].
  repeat match goal with
         | |- context [if ?b then _ else _] => destruct b
         end; eexists; reflexivity.
Qed.

Lemma charge_update_raises (self : ioc) (e : exn) :
  charge_update self = Raise e ->
  e = ZeroDivisionError /\ Solar_power self - load_power_const < 0 /\ V_sim self = 0.
Proof.
  intros H.
  destruct (Rlt_le_dec (Solar_power self - load_power_const) 0) as [Hp | Hp].
  - destruct (Req_dec (V_sim self) 0) as [Hz | Hz].
    + rewrite charge_update_discharging_at_zero in H by assumption.
      inversion H; auto.
    + rewrite charge_update_discharging in H by assumption; discriminate.
  - destruct (charge_update_completes self (or_introl Hp)) as [s' Hs].
    rewrite Hs in H; discriminate.
Qed.

Lemma loop_body_raises (self : ioc) (e : exn) :
  onset_known self -> loop_body self = Raise e ->
  e = ZeroDivisionError /\ Solar_power self - load_power_const < 0 /\ V_sim self = 0.
Proof.
  intros Hk; unfold loop_body.
  destruct (charge_update self) as [s1 | x] eqn:E1; cbn [bind].
  - destruct (eclipse_update_completes s1 (charge_update_onset_known _ _ Hk E1))
      as [s2 E2].
    rewrite E2; discriminate.
  - intros H; inversion H; subst; apply charge_update_raises; assumption.
Qed.

Lemma run_events_raises (evs : list event) (self : ioc) (e : exn) :
  onset_known self -> run_events self evs = Raise e -> e = ZeroDivisionError.
Proof.
  revert self; induction evs as [| ev evs IH]; intros self Hk; cbn [run_events].
  - discriminate.
  - destruct (step self ev) as [s1 | x] eqn:E; cbn [bind].
    + apply IH; apply (step_onset_known _ _ _ Hk E).
    + intros H; inversion H; subst.
      destruct ev as [| v | v]; cbn [step] in E; try discriminate.
      apply (loop_body_raises _ _ Hk E).
Qed.

Lemma served_onset_known (d : pvdefaults) (evs : list event) (self : ioc) :
  default_Eclipse d = 0%Z \/ default_Eclipse d = 1%Z ->
  served d evs = Some (Ok self) -> onset_known self.
Proof.
  intros Hf; unfold served.
  destruct (main d) as [out st | pvdb] eqn:E; [discriminate |].
  intros H; inversion H as [H']; clear H.
  apply main_run_iff in E; destruct E as [Hd ->].
  apply (run_events_onset_known evs _ _ (init_onset_known d Hd Hf) H').
Qed.

Lemma loop_body_completes (self : ioc) :
  onset_known self ->
  ~ (Solar_power self - load_power_const < 0 /\ V_sim self = 0) ->
  exists self', loop_body self = Ok self'.
Proof.
  intros Hk Hn.
  destruct (loop_body self) as [s' | e] eqn:E; [eexists; reflexivity |].
  destruct (loop_body_raises _ _ Hk E) as (_ & Hp & Hz); tauto.
Qed.

(** X7. When the default eclipse flag is 0 or 1, the served loop never
    reads [eclipse_begin] before it was assigned: no served run ends in
    [AttributeError], and in a served state a loop iteration fails (with
    [ZeroDivisionError]) exactly when the net power is negative and the
    simulated voltage is 0; otherwise it completes. *)
Theorem served_loop_failure (d : pvdefaults) (evs : list event) :
  default_Eclipse d = 0%Z \/ default_Eclipse d = 1%Z ->
  served d evs <> Some (Raise AttributeError) /\
  (forall self, served d evs = Some (Ok self) ->
     (Solar_power self - load_power_const < 0 /\ V_sim self = 0 ->
      loop_body self = Raise ZeroDivisionError) /\
     (~ (Solar_power self - load_power_const < 0 /\ V_sim self = 0) ->
      exists self', loop_body self = Ok self')).
Proof.
  intros Hf; split.
  - unfold served.
    destruct (main d) as [out st | pvdb] eqn:E; [discriminate |].
    intros H; inversion H as [H']; clear H.
    apply main_run_iff in E; destruct E as [Hd ->].
    generalize (run_events_raises evs _ _ (init_onset_known d Hd Hf) H').
    discriminate.
  - intros self Hs; split.
    + intros [Hp Hz].
      apply loop_body_charge_raises, charge_update_discharging_at_zero; assumption.
    + apply loop_body_completes, (served_onset_known d evs); assumption.
Qed.

Lemma served_source_defaults_nil :
  served source_defaults [] = Some (Ok (running_ioc 32 34 110 0)).
Proof. unfold served; rewrite main_source_defaults; reflexivity. Qed.

Lemma served_loop_failure_witness :
  served empty_battery_defaults [Tick] <> Some (Raise AttributeError) /\
  (exists self', loop_body (running_ioc 32 34 110 0) = Ok self').
Proof.
  split.
  - apply (proj1 (served_loop_failure empty_battery_defaults [Tick]
                    (or_introl eq_refl))).
  - apply (proj2 (proj2 (served_loop_failure source_defaults []
                           (or_introl eq_refl))
                    (running_ioc 32 34 110 0) served_source_defaults_nil)).
    intros [Hn _]; cbn in Hn; unfold load_power_const in Hn; lra.
Defined.

(** X8. When the default eclipse flag is 0 or 1, every served state has
    its eclipse flag equal to 0 or 1; while the flag is 1 the onset is
    recorded, it is not later than the simulated clock, and the phase the
    loop computes from it, (sim_time - eclipse_begin) /
    eclipse_half_duration, is not negative. *)
Theorem served_flag_and_onset (d : pvdefaults) (evs : list event) (self : ioc) :
  default_Eclipse d = 0%Z \/ default_Eclipse d = 1%Z ->
  served d evs = Some (Ok self) ->
  (Eclipse self = 0%Z \/ Eclipse self = 1%Z) /\
  (Eclipse self = 1%Z ->
   exists t0, eclipse_begin self = Some t0 /\ t0 <= sim_time self /\
              0 <= (sim_time self - t0) / eclipse_half_duration self).
Proof.
  intros Hf Hs.
  destruct (served_onset_known d evs self Hf Hs) as [H1 H2 H3 H4].
  split; [exact H1 |].
  intros E; specialize (H2 E).
  destruct (eclipse_begin self) as [t0 |] eqn:Eb; [| contradiction].
  specialize (H3 t0 eq_refl).
  exists t0; repeat split; try assumption.
  rewrite H4; unfold Rdiv; nra.
Qed.

Lemma served_flag_and_onset_witness :
  exists self,
    served source_defaults [Put_Eclipse (Str "Eclipse"); Tick; Tick] = Some (Ok self) /\
    (Eclipse self = 0%Z \/ Eclipse self = 1%Z) /\
    exists t0, eclipse_begin self = Some t0 /\ t0 <= sim_time self /\
               0 <= (sim_time self - t0) / eclipse_half_duration self.
Proof.
  destruct served_into_eclipse as (self & Hs & Hf & _).
  destruct (served_flag_and_onset source_defaults _ self (or_introl eq_refl) Hs)
    as [Hb Ho].
  exists self; split; [exact Hs | split; [exact Hb | exact (Ho Hf)]].
Defined.

(** ** The end of an eclipse *)

(** X9. During eclipse with the onset recorded, the loop keeps the flag
    set as long as the phase is at most 2; at the first iteration whose
    phase exceeds 2 it clears the flag through the putter, which restores
    the solar power to the captured [init_solar_power] and leaves the
    recorded onset in place. *)
Theorem eclipse_ends_after_phase_2 (self : ioc) (onset : R) :
  Eclipse self = 1%Z -> eclipse_begin self = Some onset ->
  eclipse_half_duration self <> 0 ->
  ((sim_time self - onset) / eclipse_half_duration self <= 2 ->
   exists self', eclipse_update self = Ok self' /\ Eclipse self' = 1%Z) /\
  (2 < (sim_time self - onset) / eclipse_half_duration self ->
   exists self', eclipse_update self = Ok self' /\ Eclipse self' = 0%Z /\
                 Solar_power self' = init_solar_power self /\
                 eclipse_begin self' = Some onset).
Proof.
  intros Hf Hb Hh; split; intros Hp.
  - destruct (Rle_lt_dec ((sim_time self - onset) / eclipse_half_duration self) 0)
      as [H0 | H0].
    { exists self; split; [apply (eclipse_update_not_started self onset) | ]; assumption. }
    destruct (Rle_lt_dec ((sim_time self - onset) / eclipse_half_duration self) 1)
      as [H1 | H1].
    + eexists; split; [apply (eclipse_update_entering self onset); auto |].
      exact Hf.
    + eexists; split; [apply (eclipse_update_leaving self onset); auto |].
      exact Hf.
  - eexists; split; [apply (eclipse_update_over self onset); assumption |].
    rewrite (write_Eclipse_leave _ Hf); cbn; auto.
Qed.

Lemma eclipse_ends_after_phase_2_witness :
  (exists self', eclipse_update (eclipsed_ioc 7200) = Ok self' /\ Eclipse self' = 1%Z) /\
  (exists self', eclipse_update (eclipsed_ioc 7201) = Ok self' /\ Eclipse self' = 0%Z /\
                 Solar_power self' = init_solar_power (eclipsed_ioc 7201) /\
                 eclipse_begin self' = Some 0).
Proof.
  assert (Hh : forall t, eclipse_half_duration (eclipsed_ioc t) <> 0)
    by (intros t; cbn; lra).
  split.
  - apply (proj1 (eclipse_ends_after_phase_2 (eclipsed_ioc 7200) 0
                    eq_refl eq_refl (Hh 7200))).
    cbn; lra.
  - apply (proj2 (eclipse_ends_after_phase_2 (eclipsed_ioc 7201) 0
                    eq_refl eq_refl (Hh 7201))).
    cbn; lra.
Defined.

(** ** Shape of the eclipse curve *)

Lemma cos_PI_minus (x : R) : cos (PI - x) = - cos x.
Proof.
  replace (PI - x) with (- x + PI) by ring.
  rewrite neg_cos, cos_neg; reflexivity.
Qed.

(** X10. The recovery formula mirrors the decay formula about phase 1
    ([leaving (2 - p) = entering p]); at phase 2 the recovery formula
    gives back the full captured power; for a non-negative captured power
    the decay formula does not increase over phases in [[0, 1]] and the
    recovery formula does not decrease over phases in [[1, 2]]. *)
Theorem eclipse_curve_shape (init_sp : R) :
  (forall p : R, eclipse_leaving init_sp (2 - p) = eclipse_entering init_sp p) /\
  eclipse_leaving init_sp 2 = init_sp /\
  (0 <= init_sp ->
   (forall p q : R, 0 <= p -> p <= q -> q <= 1 ->
                    eclipse_entering init_sp q <= eclipse_entering init_sp p) /\
   (forall p q : R, 1 <= p -> p <= q -> q <= 2 ->
                    eclipse_leaving init_sp p <= eclipse_leaving init_sp q)).
Proof.
  generalize PI_RGT_0; intros Hpi.
  split; [| split].
  - intros p; unfold eclipse_leaving, eclipse_entering.
    replace (0.5 * PI * (2 - p)) with (PI - 0.5 * PI * p) by nra.
    rewrite cos_PI_minus; ring.
  - unfold eclipse_leaving.
    replace (0.5 * PI * 2) with PI by lra.
    rewrite cos_PI; ring.
  - intros Hi; split; intros p q H0 H1 H2.
    + unfold eclipse_entering.
      assert (Hc : cos (0.5 * PI * q) <= cos (0.5 * PI * p))
        by (apply cos_decr_1; nra).
      nra.
    + unfold eclipse_leaving.
      assert (Hc : cos (0.5 * PI * q) <= cos (0.5 * PI * p))
        by (apply cos_decr_1; nra).
      nra.
Qed.

Lemma eclipse_curve_shape_witness :
  eclipse_entering 110 0.75 <= eclipse_entering 110 0.5 /\
  eclipse_leaving 110 1.25 <= eclipse_leaving 110 1.5.
Proof.
  assert (Hi : 0 <= 110) by lra.
  split.
  - apply (proj1 (proj2 (proj2 (eclipse_curve_shape 110)) Hi) 0.5 0.75); lra.
  - apply (proj2 (proj2 (proj2 (eclipse_curve_shape 110)) Hi) 1.25 1.5); lra.
Defined.

(** ** Algebra of the setters *)

Lemma V_target_putter_Rmax_Rmin (self : ioc) (value : R) :
  V_target_putter self value = (self, Rmax 0 (Rmin value max_voltage)).
Proof.
  unfold V_target_putter; rewrite max_Rmax, min_Rmin.
  replace 0.0 with 0 by lra; reflexivity.
Qed.

(** X11. The target-voltage setter is idempotent (submitting a committed
    value commits it unchanged), monotone (a larger request never commits
    a smaller value), and the last of two writes decides the target
    voltage. *)
Theorem target_setter_algebra (self : ioc) (v w : R) :
  snd (V_target_putter self (snd (V_target_putter self v)))
    = snd (V_target_putter self v) /\
  (v <= w -> snd (V_target_putter self v) <= snd (V_target_putter self w)) /\
  write_V_target w (write_V_target v self) = write_V_target w self.
Proof.
  generalize max_voltage_pos; intros Hm.
  rewrite !V_target_putter_Rmax_Rmin; cbn [snd].
  split; [| split].
  - assert (Hc : 0 <= Rmax 0 (Rmin v max_voltage) <= max_voltage).
    { split; [apply Rmax_l | apply Rmax_lub; [lra | apply Rmin_r]]. }
    rewrite (Rmin_left _ _ (proj2 Hc)); apply Rmax_right, Hc.
  - intros Hvw; apply Rle_max_compat_l, Rle_min_compat_r; assumption.
  - unfold write_V_target; rewrite !V_target_putter_Rmax_Rmin; reflexivity.
Qed.

Lemma target_setter_algebra_witness :
  snd (V_target_putter (running_ioc 32 34 110 0) 20)
  <= snd (V_target_putter (running_ioc 32 34 110 0) 50).
Proof.
  apply (proj1 (proj2 (target_setter_algebra (running_ioc 32 34 110 0) 20 50))); lra.
Defined.

Lemma write_Eclipse_requests (self : ioc) (value : Py.value) (i : Z) :
  requests value i ->
  write_Eclipse value self = commit_Eclipse i (eclipse_transition self i).
Proof.
  intros H; rewrite write_Eclipse_resolve.
  rewrite (resolve_requests _ _ (requests_enum_lookup _ _ H)); reflexivity.
Qed.

(** X12. The eclipse setter does not depend on how the index is spelled:
    two requests that name the same index (state name, integer, or a
    float truncating to it) have the same effect. Writing the same
    request twice equals writing it once, and the committed value is
    always 0, 1 or the prior flag. *)
Theorem eclipse_setter_algebra (self : ioc) (value : Py.value) :
  (forall (other : Py.value) (i : Z),
      requests value i -> requests other i ->
      Eclipse_putter self value = Eclipse_putter self other /\
      write_Eclipse value self = write_Eclipse other self) /\
  write_Eclipse value (write_Eclipse value self) = write_Eclipse value self /\
  (snd (Eclipse_putter self value) = 0%Z \/
   snd (Eclipse_putter self value) = 1%Z \/
   snd (Eclipse_putter self value) = Eclipse self).
Proof.
  split; [| split].
  - intros other i Hv Ho; split.
    + rewrite (Eclipse_putter_requests _ _ _ Hv), (Eclipse_putter_requests _ _ _ Ho).
      reflexivity.
    + rewrite (write_Eclipse_requests _ _ _ Hv), (write_Eclipse_requests _ _ _ Ho).
      reflexivity.
  - rewrite !write_Eclipse_resolve.
    destruct (resolve (enum_lookup value)) as [i |] eqn:E; [| reflexivity].
    unfold eclipse_transition at 1.
    cbn [Eclipse commit_Eclipse].
    destruct (resolve_some _ _ E) as [-> | ->];
      cbn [Z.eqb Pos.eqb andb]; reflexivity.
  - rewrite Eclipse_putter_resolve.
    destruct (resolve value) as [i |] eqn:E; cbn [snd]; [| auto].
    destruct (resolve_some _ _ E); auto.
Qed.

Lemma eclipse_setter_algebra_witness :
  Eclipse_putter (running_ioc 32 34 110 0) (Str "Eclipse")
    = Eclipse_putter (running_ioc 32 34 110 0) (Float 1.5) /\
  write_Eclipse (Str "Eclipse") (running_ioc 32 34 110 0)
    = write_Eclipse (Float 1.5) (running_ioc 32 34 110 0).
Proof.
  assert (Hr : requests (Float 1.5) 1) by (constructor; lra).
  apply (proj1 (eclipse_setter_algebra (running_ioc 32 34 110 0) (Str "Eclipse"))
           (Float 1.5) 1%Z requests_name_1 Hr).
Defined.

(** ** Start-up, the accepting side *)

(** X13. [__main__] starts serving exactly when the three defaults are in
    range, and then serves the instance built by [__init__]: simulated
    clock at 0, every cell at its default, the captured solar power equal
    to the default solar power, and the eclipse onset recorded (at time 0)
    exactly when the default flag is 1. *)
Theorem startup_outcome (d : pvdefaults) :
  (main d = Run (BatteryChargeIOC d) <-> defaults_in_range d) /\
  (defaults_in_range d ->
   V_sim (BatteryChargeIOC d) = default_V_sim d /\
   V_target (BatteryChargeIOC d) = default_V_target d /\
   Solar_power (BatteryChargeIOC d) = default_Solar_power d /\
   init_solar_power (BatteryChargeIOC d) = default_Solar_power d /\
   Eclipse (BatteryChargeIOC d) = default_Eclipse d /\
   sim_time (BatteryChargeIOC d) = 0 /\
   eclipse_begin (BatteryChargeIOC d)
   = if (default_Eclipse d =? 1)%Z then Some 0 else None).
Proof.
  split.
  - rewrite main_run_iff; tauto.
  - intros Hd.
    destruct (init_cells d) as (E1 & E2 & E3 & E4 & E5 & E6 & _).
    repeat split; try assumption.
    apply init_eclipse_begin; assumption.
Qed.

Lemma startup_outcome_witness :
  main source_defaults = Run (BatteryChargeIOC source_defaults) /\
  sim_time (BatteryChargeIOC source_defaults) = 0 /\
  eclipse_begin (BatteryChargeIOC source_defaults) = None.
Proof.
  split.
  - apply (proj2 (proj1 (startup_outcome source_defaults)) source_defaults_in_range).
  - destruct (proj2 (startup_outcome source_defaults) source_defaults_in_range)
      as (_ & _ & _ & _ & _ & Ht & Hb).
    split; [exact Ht | exact Hb].
Defined.

(** ** Who writes what *)

Lemma eclipse_update_eclipse_begin (self self' : ioc) :
  eclipse_update self = Ok self' -> eclipse_begin self' = eclipse_begin self.
Proof.
  intros Hu.
  destruct (eclipse_update_cases _ _ Hu)
    as [-> | [(tmp & Ht & ->) | [(tmp & Ht & ->) | ->]]]; try reflexivity.
  rewrite (write_Eclipse_requests _ _ 0) by constructor.
  unfold eclipse_transition; cbn [Z.eqb andb].
  destruct (Eclipse self =? 1)%Z; reflexivity.
Qed.

(** X14. A completed loop iteration advances the simulated clock by
    exactly 1 and never changes the target voltage, the two passthrough
    cells, the captured solar power, the half duration, the [initOK] mark
    or the recorded eclipse onset. *)
Theorem loop_iteration_frame (self self' : ioc) :
  loop_body self = Ok self' ->
  sim_time self' = sim_time self + 1 /\
  V_target self' = V_target self /\
  V_real self' = V_real self /\ I_real self' = I_real self /\
  init_solar_power self' = init_solar_power self /\
  eclipse_half_duration self' = eclipse_half_duration self /\
  initOK self' = initOK self /\
  eclipse_begin self' = eclipse_begin self.
Proof.
  intros H.
  destruct (loop_body_frame _ _ H) as (A1 & A2 & A3 & A4 & A5 & A6 & A7).
  repeat split; try assumption.
  revert H; unfold loop_body.
  destruct (charge_update self) as [s1 | e] eqn:E1; cbn [bind]; [| discriminate].
  destruct (eclipse_update s1) as [s2 | e] eqn:E2; cbn [bind]; [| discriminate].
  intros H; inversion H; subst; cbn.
  rewrite (eclipse_update_eclipse_begin _ _ E2).
  apply (charge_update_frame _ _ E1).
Qed.

Lemma loop_iteration_frame_witness :
  exists self',
    loop_body (running_ioc 32 34 110 0) = Ok self' /\
    sim_time self' = sim_time (running_ioc 32 34 110 0) + 1 /\
    V_target self' = V_target (running_ioc 32 34 110 0).
Proof.
  destruct (loop_body_charging (running_ioc 32 34 110 0)) as (self' & Hl & _).
  - cbn; discriminate.
  - cbn; unfold load_power_const; lra.
  - cbn; lra.
  - exists self'; split; [exact Hl |].
    destruct (loop_iteration_frame _ _ Hl) as (Ht & Hv & _).
    split; [exact Ht | exact Hv].
Defined.

(** X15. An eclipse write never changes the simulated voltage, the
    simulated current, the target voltage, the simulated clock or the
    captured solar power. It changes the published solar power only when
    it takes the flag from 1 to 0, and the recorded onset only when it
    takes the flag from 0 to 1. *)
Theorem eclipse_write_frame (value : Py.value) (self : ioc) :
  V_sim (write_Eclipse value self) = V_sim self /\
  I_sim (write_Eclipse value self) = I_sim self /\
  V_target (write_Eclipse value self) = V_target self /\
  sim_time (write_Eclipse value self) = sim_time self /\
  init_solar_power (write_Eclipse value self) = init_solar_power self /\
  (Solar_power (write_Eclipse value self) <> Solar_power self ->
   Eclipse self = 1%Z /\ Eclipse (write_Eclipse value self) = 0%Z) /\
  (eclipse_begin (write_Eclipse value self) <> eclipse_begin self ->
   Eclipse self = 0%Z /\ Eclipse (write_Eclipse value self) = 1%Z).
Proof.
  destruct (write_Eclipse_frame value self) as (_ & _ & A3 & A4 & A5 & _ & A7 & _ & A9).
  split; [exact A3 | split; [exact A4 | split; [exact A5 | split; [exact A7 |]]]].
  split; [exact A9 |].
  rewrite write_Eclipse_resolve.
  destruct (resolve (enum_lookup value)) as [i |];
    [| split; intros H; contradiction H; reflexivity].
  unfold eclipse_transition.
  destruct ((i =? 1)%Z && (Eclipse self =? 0)%Z) eqn:Ea.
  - apply andb_true_iff in Ea; destruct Ea as [Ei Ef].
    apply Z.eqb_eq in Ei, Ef; subst i; cbn.
    split; intros H; [contradiction H; reflexivity | auto].
  - destruct ((i =? 0)%Z && (Eclipse self =? 1)%Z) eqn:Eb.
    + apply andb_true_iff in Eb; destruct Eb as [Ei Ef].
      apply Z.eqb_eq in Ei, Ef; subst i; cbn.
      split; intros H; [auto | contradiction H; reflexivity].
    + cbn; split; intros H; contradiction H; reflexivity.
Qed.

Lemma eclipse_write_frame_witness :
  Eclipse (write_Solar_power 55 (eclipsed_ioc 1800)) = 1%Z /\
  Eclipse (write_Eclipse (Int 0) (write_Solar_power 55 (eclipsed_ioc 1800))) = 0%Z.
Proof.
  apply (proj1 (proj2 (proj2 (proj2 (proj2 (proj2
           (eclipse_write_frame (Int 0) (write_Solar_power 55 (eclipsed_ioc 1800))))))))).
  rewrite (write_Eclipse_leave (write_Solar_power 55 (eclipsed_ioc 1800)) eq_refl).
  cbn; lra.
Defined.

(** ** Exactly which requests the eclipse setter accepts *)

(** X16. A request is committed as the index [i], whatever the prior
    flag, exactly when it is the [i]-th state name, the integer [i], or a
    float that truncates to [i] (i = 0: -1 < r < 1; i = 1: 1 <= r < 2);
    it is a no-op on every instance exactly when it is in none of these
    classes. *)
Theorem eclipse_requests_exact (value : Py.value) (i : Z) :
  (requests value i <-> forall self, snd (Eclipse_putter self value) = i) /\
  (rejected value <-> forall self, Eclipse_putter self value = (self, Eclipse self)).
Proof.
  split; split.
  - intros H self; rewrite (Eclipse_putter_requests _ _ _ H); reflexivity.
  - intros H.
    destruct (requests_or_rejected value) as [[j Hj] | Hr].
    + specialize (H (running_ioc 0 0 0 0)).
      rewrite (Eclipse_putter_requests _ _ _ Hj) in H; cbn in H.
      rewrite <- H; exact Hj.
    + generalize (H (running_ioc 0 0 0 i)) (H (running_ioc 0 0 0 (i + 1))).
      rewrite !(Eclipse_putter_rejected _ _ Hr); cbn; lia.
  - intros H self; apply Eclipse_putter_rejected; assumption.
  - intros H.
    destruct (requests_or_rejected value) as [[j Hj] | Hr]; [| exact Hr].
    specialize (H (running_ioc 0 0 0 (j + 1))).
    rewrite (Eclipse_putter_requests _ _ _ Hj) in H.
    apply (f_equal snd) in H; cbn in H; lia.
Qed.

Lemma eclipse_requests_exact_witness :
  snd (Eclipse_putter (running_ioc 32 34 110 0) (Float (-0.5))) = 0%Z /\
  Eclipse_putter (running_ioc 32 34 110 1) (Str "eclipse")
  = (running_ioc 32 34 110 1, Eclipse (running_ioc 32 34 110 1)).
Proof.
  assert (Hr : requests (Float (-0.5)) 0) by (constructor; lra).
  assert (Hj : rejected (Str "eclipse")) by (constructor; discriminate).
  split.
  - apply (proj1 (proj1 (eclipse_requests_exact (Float (-0.5)) 0)) Hr).
  - apply (proj1 (proj2 (eclipse_requests_exact (Str "eclipse") 0)) Hj).
Defined.

(** ** Discharging runs into the unguarded division *)

Lemma deltaV_of_opp (p V : R) : deltaV_of (- p) V = - deltaV_of p V.
Proof.
  unfold deltaV_of, Rdiv; ring.
Qed.

Lemma deltaV_of_monotone_neg (p V V0 : R) :
  p < 0 -> V <= V0 -> deltaV_of p V <= deltaV_of p V0.
Proof.
  intros Hp Hv.
  assert (H : deltaV_of (- p) V0 <= deltaV_of (- p) V)
    by (apply deltaV_of_antitone; lra).
  rewrite !deltaV_of_opp in H; lra.
Qed.

(** One discharging iteration outside eclipse, from a non-zero voltage. *)
Lemma loop_body_discharging (self : ioc) :
  Eclipse self <> 1%Z ->
  Solar_power self - load_power_const < 0 -> V_sim self <> 0 ->
  exists self',
    loop_body self = Ok self' /\
    V_sim self' = Rmax (V_sim self
                        + deltaV_of (Solar_power self - load_power_const) (V_sim self))
                       0 /\
    Solar_power self' = Solar_power self /\ Eclipse self' = Eclipse self.
Proof.
  intros Hf Hp Hv; eexists; split.
  - apply loop_body_off; [exact Hf | apply charge_update_discharging; assumption].
  - cbn; auto.
Qed.

Lemma discharging_reaches_zero (V0 : R) (k : nat) (self : ioc) :
  Eclipse self <> 1%Z ->
  Solar_power self - load_power_const < 0 ->
  0 <= V_sim self <= V0 ->
  V_sim self <= INR k * - deltaV_of (Solar_power self - load_power_const) V0 ->
  exists n, (n <= S k)%nat /\ V_sim_startup n self = Raise ZeroDivisionError.
Proof.
  revert self; induction k as [| k IH]; intros self Hf Hp Hv Hk.
  - exists 1%nat; split; [lia |]; cbn [V_sim_startup INR] in *.
    rewrite loop_body_charge_raises with (e := ZeroDivisionError); [reflexivity |].
    apply charge_update_discharging_at_zero; [assumption | lra].
  - destruct (Req_dec (V_sim self) 0) as [Hz | Hz].
    { exists 1%nat; split; [lia |]; cbn [V_sim_startup].
      rewrite loop_body_charge_raises with (e := ZeroDivisionError); [reflexivity |].
      apply charge_update_discharging_at_zero; assumption. }
    destruct (loop_body_discharging self Hf Hp Hz) as (s1 & H1 & V1 & S1 & F1).
    generalize (deltaV_of_monotone_neg _ (V_sim self) V0 Hp (proj2 Hv)); intros Hm.
    generalize (deltaV_of_neg _ V0 Hp); intros Hd.
    generalize (deltaV_of_neg _ (V_sim self) Hp); intros Hd'.
    destruct (IH s1) as (n & Hn & Hr).
    + rewrite F1; exact Hf.
    + rewrite S1; exact Hp.
    + rewrite V1; split; [apply Rmax_r | apply Rmax_lub; lra].
    + rewrite V1, S1; rewrite S_INR in Hk.
      generalize (pos_INR k); intros Hk0.
      apply Rmax_lub; nra.
    + exists (S n); split; [lia |].
      cbn [V_sim_startup]; rewrite H1; cbn [bind]; exact Hr.
Qed.

(** X18. Outside eclipse, with the solar power at least 1 W below the
    load and the voltage in [[0, max_voltage]]: every
    iteration at a non-zero voltage lowers the voltage by at least
    0.00004 V (or to the floor 0), so the loop ends in
    [ZeroDivisionError] after finitely many iterations: nothing stops the
    discharge before the voltage reaches 0, and the iteration after that
    divides by it. *)
Theorem discharging_ends_in_zero_division (self : ioc) :
  Eclipse self <> 1%Z ->
  Solar_power self - load_power_const <= -1 ->
  0 <= V_sim self <= max_voltage ->
  (V_sim self <> 0 ->
   exists self', loop_body self = Ok self' /\
                 0 <= V_sim self' <= Rmax (V_sim self - 0.00004) 0) /\
  exists n : nat, V_sim_startup n self = Raise ZeroDivisionError.
Proof.
  intros Hf Hp1 Hv.
  assert (Hp : Solar_power self - load_power_const < 0) by lra.
  split.
  - intros Hz.
    destruct (loop_body_discharging self Hf Hp Hz) as (s1 & H1 & V1 & _).
    exists s1; split; [exact H1 |].
    rewrite V1; split; [apply Rmax_r |].
    apply Rle_max_compat_r.
    assert (Hd : 0.00004 <= deltaV_of (- (Solar_power self - load_power_const))
                              (V_sim self))
      by (apply deltaV_of_at_least; lra).
    rewrite deltaV_of_opp in Hd; lra.
  - generalize (deltaV_of_neg _ (V_sim self) Hp); intros Hd.
    destruct (INR_archimed
                (- deltaV_of (Solar_power self - load_power_const) (V_sim self))
                (V_sim self)) as [k Hk]; [lra |].
    destruct (discharging_reaches_zero (V_sim self) k self Hf Hp) as (n & _ & Hn);
      [lra | lra |].
    exists n; exact Hn.
Qed.

Lemma discharging_ends_in_zero_division_witness :
  (exists self', loop_body (running_ioc 32 34 0 0) = Ok self' /\
                 0 <= V_sim self' <= Rmax (V_sim (running_ioc 32 34 0 0) - 0.00004) 0) /\
  exists n : nat, V_sim_startup n (running_ioc 32 34 0 0) = Raise ZeroDivisionError.
Proof.
  assert (Hf : Eclipse (running_ioc 32 34 0 0) <> 1%Z) by (cbn; discriminate).
  assert (Hp : Solar_power (running_ioc 32 34 0 0) - load_power_const <= -1)
    by (cbn; unfold load_power_const; lra).
  assert (Hv : 0 <= V_sim (running_ioc 32 34 0 0) <= max_voltage)
    by (cbn; generalize max_voltage_gt_34; lra).
  split.
  - apply (proj1 (discharging_ends_in_zero_division (running_ioc 32 34 0 0) Hf Hp Hv)).
    cbn; lra.
  - apply (proj2 (discharging_ends_in_zero_division (running_ioc 32 34 0 0) Hf Hp Hv)).
Defined.

(** ** The course of an eclipse *)

(** One completed iteration while the eclipse lasts (elapsed time at most
    two half durations). *)
Lemma tick_in_eclipse (t0 : R) (k : nat) (self self' : ioc) :
  in_eclipse t0 k self -> INR k <= 7200 -> loop_body self = Ok self' ->
  in_eclipse t0 (S k) self' /\
  (INR k = 0 -> Solar_power self' = Solar_power self) /\
  (0 < INR k <= 3600 ->
   Solar_power self' = eclipse_entering (init_solar_power self) (INR k / 3600)) /\
  (3600 < INR k ->
   Solar_power self' = eclipse_leaving (init_solar_power self) (INR k / 3600)).
Proof.
  intros [Hf Hb Ht Hd] Hk; unfold loop_body.
  destruct (charge_update self) as [s1 | e] eqn:E1; cbn [bind]; [| discriminate].
  destruct (charge_update_frame _ _ E1) as (_ & _ & _ & S1 & F1 & _ & T1 & D1 & I1 & B1).
  assert (Hf1 : Eclipse s1 = 1%Z) by congruence.
  assert (Hb1 : eclipse_begin s1 = Some t0) by congruence.
  assert (Hd1 : eclipse_half_duration s1 <> 0) by (rewrite D1, Hd; lra).
  assert (Hph : (sim_time s1 - t0) / eclipse_half_duration s1 = INR k / 3600).
  { rewrite T1, D1, Ht, Hd; f_equal; ring. }
  generalize (pos_INR k); intros Hk0.
  assert (Hinv : forall sp, in_eclipse t0 (S k)
                   (set_sim_time (sim_time (write_Solar_power sp s1) + sim_interval)
                      (write_Solar_power sp s1))).
  { intros sp; split; cbn -[INR]; try congruence.
    rewrite T1, Ht, S_INR; unfold sim_interval; ring. }
  destruct (Rle_lt_dec (INR k) 0) as [H0 | H0].
  { rewrite (eclipse_update_not_started s1 t0 Hf1 Hb1 Hd1) by (rewrite Hph; lra).
    cbn [bind]; intros H; inversion H; subst; clear H.
    split; [| cbn; repeat split; intros; try lra; congruence].
    split; cbn -[INR]; try congruence.
    rewrite T1, Ht, S_INR; unfold sim_interval; ring. }
  destruct (Rle_lt_dec (INR k) 3600) as [H1 | H1].
  - rewrite (eclipse_update_entering s1 t0 Hf1 Hb1 Hd1) by (rewrite Hph; lra).
    cbn [bind]; intros H; inversion H; subst; clear H.
    split; [apply Hinv |].
    cbn; rewrite Hph, I1; repeat split; intros; try lra; reflexivity.
  - rewrite (eclipse_update_leaving s1 t0 Hf1 Hb1 Hd1) by (rewrite Hph; lra).
    cbn [bind]; intros H; inversion H; subst; clear H.
    split; [apply Hinv |].
    cbn; rewrite Hph, I1; repeat split; intros; try lra; reflexivity.
Qed.

(** The first completed iteration after two half durations. *)
Lemma tick_eclipse_over (t0 : R) (k : nat) (self self' : ioc) :
  in_eclipse t0 k self -> 7200 < INR k -> loop_body self = Ok self' ->
  Eclipse self' = 0%Z /\ Solar_power self' = init_solar_power self.
Proof.
  intros [Hf Hb Ht Hd] Hk; unfold loop_body.
  destruct (charge_update self) as [s1 | e] eqn:E1; cbn [bind]; [| discriminate].
  destruct (charge_update_frame _ _ E1) as (_ & _ & _ & S1 & F1 & _ & T1 & D1 & I1 & B1).
  assert (Hf1 : Eclipse s1 = 1%Z) by congruence.
  assert (Hb1 : eclipse_begin s1 = Some t0) by congruence.
  assert (Hd1 : eclipse_half_duration s1 <> 0) by (rewrite D1, Hd; lra).
  assert (Hph : (sim_time s1 - t0) / eclipse_half_duration s1 = INR k / 3600).
  { rewrite T1, D1, Ht, Hd; f_equal; ring. }
  rewrite (eclipse_update_over s1 t0 Hf1 Hb1 Hd1) by (rewrite Hph; lra).
  rewrite (write_Eclipse_leave _ Hf1).
  cbn [bind]; intros H; inversion H; subst; clear H; cbn; auto.
Qed.

Lemma ticks_in_eclipse (t0 : R) (n k : nat) (self self' : ioc) :
  in_eclipse t0 k self -> INR (k + n) <= 7201 ->
  V_sim_startup n self = Ok self' ->
  in_eclipse t0 (k + n) self' /\ init_solar_power self' = init_solar_power self.
Proof.
  revert k self; induction n as [| n IH]; intros k self He Hk; cbn [V_sim_startup].
  - intros H; inversion H; subst; rewrite Nat.add_0_r; auto.
  - destruct (loop_body self) as [s1 | e] eqn:E1; cbn [bind]; [| discriminate].
    intros H.
    assert (Hk' : INR k <= 7200).
    { replace (k + S n)%nat with (S (k + n)) in Hk by lia.
      rewrite S_INR in Hk.
      generalize (le_INR k (k + n) (Nat.le_add_r k n)); lra. }
    destruct (tick_in_eclipse _ _ _ _ He Hk' E1) as (He1 & _).
    replace (k + S n)%nat with (S k + n)%nat in * by lia.
    destruct (IH _ _ He1 Hk H) as (He' & Hi').
    split; [exact He' |].
    rewrite Hi'; apply (loop_body_frame _ _ E1).
Qed.

Lemma V_sim_startup_last (n : nat) (self self' : ioc) :
  V_sim_startup (S n) self = Ok self' ->
  exists s1, V_sim_startup n self = Ok s1 /\ loop_body s1 = Ok self'.
Proof.
  replace (S n) with (n + 1)%nat by lia.
  rewrite V_sim_startup_add.
  destruct (V_sim_startup n self) as [s1 | e]; cbn [bind V_sim_startup]; [| discriminate].
  destruct (loop_body s1) as [s2 | e] eqn:E; cbn [bind]; [| discriminate].
  intros H; inversion H; subst; exists s1; auto.
Qed.

(** X17. From an instance that has just entered eclipse (flag 1, onset
    equal to the simulated clock, half duration 3600), consider [n + 1]
    completed loop iterations. For 0 < n <= 3600 the flag is still 1 and
    the solar power is [init * cos (0.5 * PI * n / 3600)]; for
    3600 < n <= 7200 the flag is still 1 and the solar power is
    [- init * cos (0.5 * PI * n / 3600)]; for n = 7201 the flag is 0 and
    the solar power is back at [init]. The eclipse therefore ends by
    itself at the 7202nd iteration. *)
Theorem eclipse_timeline (self self' : ioc) (n : nat) :
  Eclipse self = 1%Z -> eclipse_begin self = Some (sim_time self) ->
  eclipse_half_duration self = 3600 ->
  V_sim_startup (S n) self = Ok self' ->
  (0 < INR n <= 3600 ->
   Eclipse self' = 1%Z /\
   Solar_power self' = init_solar_power self * cos (0.5 * PI * (INR n / 3600))) /\
  (3600 < INR n <= 7200 ->
   Eclipse self' = 1%Z /\
   Solar_power self' = - init_solar_power self * cos (0.5 * PI * (INR n / 3600))) /\
  (INR n = 7201 ->
   Eclipse self' = 0%Z /\ Solar_power self' = init_solar_power self).
Proof.
  intros Hf Hb Hd Hrun.
  assert (He : in_eclipse (sim_time self) 0 self)
    by (split; cbn [INR]; try assumption; ring).
  destruct (V_sim_startup_last _ _ _ Hrun) as (s1 & Hn & Hl).
  assert (Hreach : INR n <= 7201 ->
            in_eclipse (sim_time self) n s1 /\
            init_solar_power s1 = init_solar_power self).
  { intros Hk.
    apply (ticks_in_eclipse (sim_time self) n 0 self s1 He); [| exact Hn].
    cbn [Nat.add]; exact Hk. }
  split; [| split]; intros Hr.
  - destruct Hreach as (He1 & Hi1); [lra |].
    assert (Hk : INR n <= 7200) by lra.
    destruct (tick_in_eclipse _ _ _ _ He1 Hk Hl) as (He2 & _ & Hs & _).
    split; [apply He2 |].
    rewrite (Hs Hr), Hi1; reflexivity.
  - destruct Hreach as (He1 & Hi1); [lra |].
    assert (Hk : INR n <= 7200) by lra.
    destruct (tick_in_eclipse _ _ _ _ He1 Hk Hl) as (He2 & _ & _ & Hs).
    split; [apply He2 |].
    rewrite (Hs (proj1 Hr)), Hi1; reflexivity.
  - destruct Hreach as (He1 & Hi1); [lra |].
    assert (Hk : 7200 < INR n) by lra.
    destruct (tick_eclipse_over _ _ _ _ He1 Hk Hl) as (Hf2 & Hs2).
    split; [exact Hf2 | congruence].
Qed.

Lemma entered_eclipse_two_ticks :
  exists self',
    V_sim_startup 2 (write_Eclipse (Str "Eclipse") (running_ioc 32 34 110 0)) = Ok self'.
Proof.
  destruct served_into_eclipse as (self' & Hs & _).
  exists self'; revert Hs.
  unfold served; rewrite main_source_defaults; cbn [run_events step bind].
  intros H; injection H as H; cbn [V_sim_startup]; exact H.
Qed.

Lemma eclipse_timeline_witness :
  exists self',
    V_sim_startup 2 (write_Eclipse (Str "Eclipse") (running_ioc 32 34 110 0)) = Ok self' /\
    Eclipse self' = 1%Z /\
    Solar_power self'
    = init_solar_power (write_Eclipse (Str "Eclipse") (running_ioc 32 34 110 0))
      * cos (0.5 * PI * (INR 1 / 3600)).
Proof.
  destruct entered_eclipse_two_ticks as (self' & Hrun).
  exists self'; split; [exact Hrun |].
  assert (E : write_Eclipse (Str "Eclipse") (running_ioc 32 34 110 0)
              = commit_Eclipse 1 (set_eclipse_begin (sim_time (running_ioc 32 34 110 0))
                                    (running_ioc 32 34 110 0))).
  { rewrite (write_Eclipse_requests _ _ 1) by constructor; reflexivity. }
  apply (proj1 (eclipse_timeline _ self' 1
                  (f_equal Eclipse E) (f_equal eclipse_begin E)
                  (f_equal eclipse_half_duration E) Hrun)).
  cbn; lra.
Defined.

(** ** Two more invariants of the served process *)

(** X19. In every served state the target voltage lies in
    [[0, max_voltage]]: the start-up check admits only such a default and
    every later write goes through the saturating putter. *)
Theorem served_target_range (d : pvdefaults) (evs : list event) (self : ioc) :
  served d evs = Some (Ok self) -> 0 <= V_target self <= max_voltage.
Proof.
  intros H; apply served_in_ranges in H; apply H.
Qed.

Lemma served_target_range_witness :
  exists self,
    served source_defaults [Put_Eclipse (Str "Eclipse"); Tick; Tick] = Some (Ok self) /\
    0 <= V_target self <= max_voltage.
Proof.
  destruct served_into_eclipse as (self & Hs & _).
  exists self; split; [exact Hs |].
  apply (served_target_range source_defaults _ self Hs).
Defined.

Lemma charge_update_current (self self' : ioc) :
  0 <= V_sim self -> I_sim self <= 0 ->
  charge_update self = Ok self' -> I_sim self' <= 0.
Proof.
  intros Hv Hi Hc.
  destruct (Rtotal_order (Solar_power self - load_power_const) 0) as [Hp | [Hp | Hp]].
  - destruct (Req_dec (V_sim self) 0) as [Hz | Hz].
    + rewrite charge_update_discharging_at_zero in Hc by assumption; discriminate.
    + rewrite charge_update_discharging in Hc by assumption.
      inversion Hc; subst; clear Hc; cbn.
      assert (Hinv : 0 < / V_sim self) by (apply Rinv_0_lt_compat; lra).
      unfold Rdiv; nra.
  - rewrite charge_update_idle in Hc by auto; inversion Hc; subst; assumption.
  - destruct (Rlt_le_dec (V_sim self) (V_target self)) as [Hlt | Hle].
    + rewrite charge_update_charging in Hc by assumption.
      inversion Hc; subst; cbn; lra.
    + rewrite charge_update_idle in Hc by auto; inversion Hc; subst; assumption.
Qed.

Lemma step_current (self self' : ioc) (e : event) :
  in_ranges self -> I_sim self <= 0 -> step self e = Ok self' -> I_sim self' <= 0.
Proof.
  intros Hr Hi; destruct e as [| v | v]; cbn [step].
  - unfold loop_body.
    destruct (charge_update self) as [s1 | x] eqn:E1; cbn [bind]; [| discriminate].
    destruct (eclipse_update s1) as [s2 | x] eqn:E2; cbn [bind]; [| discriminate].
    intros H; inversion H; subst; cbn.
    destruct (eclipse_update_frame _ _ E2) as (_ & _ & _ & -> & _).
    apply (charge_update_current self); [apply Hr | assumption | assumption].
  - intros H; inversion H; cbn; assumption.
  - intros H; inversion H.
    destruct (write_Eclipse_frame v self) as (_ & _ & _ & -> & _); assumption.
Qed.

Lemma run_events_current (evs : list event) (self self' : ioc) :
  in_ranges self -> I_sim self <= 0 ->
  run_events self evs = Ok self' -> I_sim self' <= 0.
Proof.
  revert self; induction evs as [| e evs IH]; intros self Hr Hi; cbn [run_events].
  - intros H; inversion H; subst; assumption.
  - destruct (step self e) as [s1 | x] eqn:E; cbn [bind]; [| discriminate].
    apply IH.
    + apply (step_in_ranges _ _ _ Hr E).
    + apply (step_current _ _ _ Hr Hi E).
Qed.

(** X20. The simulated current is never positive: if the default current
    is not positive, every served state has a current that is 0 or
    negative. Charging is reported as current 0 and only discharging as a
    (negative) current. *)
Theorem served_current_not_positive (d : pvdefaults) (evs : list event) (self : ioc) :
  default_I_sim d <= 0 ->
  served d evs = Some (Ok self) -> I_sim self <= 0.
Proof.
  intros Hi; unfold served.
  destruct (main d) as [out st | pvdb] eqn:E; [discriminate |].
  intros H; inversion H as [H']; clear H.
  apply main_run_iff in E; destruct E as [Hd ->].
  apply (run_events_current evs (BatteryChargeIOC d) self).
  - apply init_in_ranges, initOK_iff; assumption.
  - unfold BatteryChargeIOC; cbn [V_sim Solar_power V_target Eclipse sim_time].
    repeat match goal with
           | |- context [if ?b then _ else _] => destruct b
           end; cbn; assumption.
  - exact H'.
Qed.

Lemma served_current_not_positive_witness :
  exists self,
    served source_defaults [Put_Eclipse (Str "Eclipse"); Tick; Tick] = Some (Ok self) /\
    I_sim self <= 0.
Proof.
  destruct served_into_eclipse as (self & Hs & _).
  exists self; split; [exact Hs |].
  apply (served_current_not_positive source_defaults
           [Put_Eclipse (Str "Eclipse"); Tick; Tick] self); [cbn; lra | exact Hs].
Defined.
